(** * Money manager page (src/app/admin/money-manager/page.js)

    A shallow embedding of the expense manager view: the helpers at the top
    of the file ([toNumber], [formatDateInput], [getPeriodDateRange]), the
    component state, and the handlers ([closeModal], [fetchAll],
    [performSaveExpense], [handleSaveExpense], [performDeleteExpense],
    [handleDeleteExpense], the confirmation button), followed by the
    properties of the specification.

    Conventions of the model.
    - JavaScript numbers are [jsnum]: NaN, the two infinities, or a
      rational; the conversion of a string rounds to binary64 ([round64]),
      with overflow to an infinity and underflow to zero.  The two zeros
      are one.
    - Strings are [string]: the bytes of the UTF-8 encoding; white space is
      that of ECMAScript, ASCII or not.
    - A [Date] is its time value in milliseconds since the epoch ([Z]), or
      invalid; the offset of local time is a function of the host
      ([LocalTZA]), constant or with daylight saving.
    - The network, the clock and the locale-dependent conversions are supplied
      by the host ([Host]); a request is kept structured ([Request]) instead
      of being flattened to a URL string. *)

From Stdlib Require Import ZArith QArith List String Ascii Bool Lia.
From Stdlib Require Import DecimalString.
From Stdlib Require DecimalPos.
Import ListNotations.

#[local] Set Warnings "-register-all".

Local Open Scope list_scope.
Local Open Scope string_scope.
Local Open Scope Z_scope.

(** ** JavaScript values *)

Inductive jsnum : Type :=
| JNaN
| JInf (negative : bool)
| JFin (q : Q).

Inductive JsValue : Type :=
| VUndefined
| VNull
| VBool (b : bool)
| VNum (n : jsnum)
| VStr (s : string)
| VArr (items : list JsValue)
| VObj (fields : list (string * JsValue)).

Definition num_of_Z (z : Z) : jsnum := JFin (inject_Z z).

(** Truthiness (ToBoolean). *)
Definition truthy (v : JsValue) : bool :=
  match v with
  | VUndefined | VNull => false
  | VBool b => b
  | VNum JNaN => false
  | VNum (JInf _) => true
  | VNum (JFin q) => negb (Qeq_bool q 0)
  | VStr s => negb (String.eqb s "")
  | VArr _ | VObj _ => true
  end.

(** [a || b] and [a ?? b]. *)
Definition js_or (a b : JsValue) : JsValue := if truthy a then a else b.

Definition js_nullish (a b : JsValue) : JsValue :=
  match a with
  | VUndefined | VNull => b
  | _ => a
  end.

Fixpoint lookup_field (k : string) (fields : list (string * JsValue)) : JsValue :=
  match fields with
  | [] => VUndefined
  | (k', v) :: rest => if String.eqb k k' then v else lookup_field k rest
  end.

(** Optional member access [v?.k] for the keys the page reads (none of them
    is a property of a primitive or of an array). *)
Definition get (v : JsValue) (k : string) : JsValue :=
  match v with
  | VObj fields => lookup_field k fields
  | _ => VUndefined
  end.

Definition Array_isArray (v : JsValue) : bool :=
  match v with
  | VArr _ => true
  | _ => false
  end.

(** ** String helpers

    A string is the UTF-8 encoding of the JavaScript string. *)

(** The white space of ECMAScript (WhiteSpace and LineTerminator) that takes
    three bytes in UTF-8: U+1680, U+2000 to U+200A, U+2028, U+2029, U+202F,
    U+205F, U+3000 and U+FEFF. *)
Definition white3 (b1 b2 b3 : N) : bool :=
  (((b1 =? 225) && (b2 =? 154) && (b3 =? 128))
   || ((b1 =? 226) && (b2 =? 128)
       && (((128 <=? b3) && (b3 <=? 138)) || (b3 =? 168) || (b3 =? 169) || (b3 =? 175)))
   || ((b1 =? 226) && (b2 =? 129) && (b3 =? 159))
   || ((b1 =? 227) && (b2 =? 128) && (b3 =? 128))
   || ((b1 =? 239) && (b2 =? 187) && (b3 =? 191)))%N%bool.

(** The number of bytes of the white space character a string starts with,
    0 when it starts with none: tab, line feed, vertical tab, form feed,
    carriage return and space (one byte), U+00A0 (two bytes), the others
    (three bytes). *)
Definition white_len (s : string) : nat :=
  match s with
  | EmptyString => 0
  | String c1 rest =>
      let b1 := N_of_ascii c1 in
      if ((b1 =? 32) || ((9 <=? b1) && (b1 <=? 13)))%N then 1
      else if (b1 =? 194)%N then
        match rest with
        | String c2 _ => if (N_of_ascii c2 =? 160)%N then 2 else 0
        | EmptyString => 0
        end
      else if ((b1 =? 225) || (b1 =? 226) || (b1 =? 227) || (b1 =? 239))%N then
        match rest with
        | String c2 (String c3 _) =>
            if white3 b1 (N_of_ascii c2) (N_of_ascii c3) then 3 else 0
        | _ => 0
        end
      else 0
  end%nat.

Fixpoint skip (n : nat) (s : string) : string :=
  match n, s with
  | S n', String _ rest => skip n' rest
  | _, _ => s
  end.

(** Drops the white space a string starts with; [fuel] bounds the number of
    characters dropped and the length of the string is enough. *)
Fixpoint drop_white (fuel : nat) (s : string) : string :=
  match fuel with
  | O => s
  | S fuel' =>
      match white_len s with
      | O => s
      | n => drop_white fuel' (skip n s)
      end
  end.

Definition trim_start (s : string) : string := drop_white (String.length s) s.

(** A string of white space only. *)
Definition all_white (s : string) : bool :=
  match trim_start s with
  | EmptyString => true
  | _ => false
  end.

(** Drops the white space a string ends with: the longest suffix that is
    white space only. *)
Fixpoint trim_end (s : string) : string :=
  match s with
  | EmptyString => EmptyString
  | String c rest => if all_white s then EmptyString else String c (trim_end rest)
  end.

(** [String.prototype.trim]. *)
Definition trim (s : string) : string := trim_end (trim_start s).

(** [value.replace(/,/g, "")]. *)
Fixpoint remove_commas (s : string) : string :=
  match s with
  | EmptyString => EmptyString
  | String c rest =>
      if Ascii.eqb c "," then remove_commas rest else String c (remove_commas rest)
  end.

Definition string_of_Z (z : Z) : string := NilZero.string_of_int (Z.to_int z).

(** [String(n).padStart(2, "0")] for a non-negative integer. *)
Definition pad2 (z : Z) : string :=
  let s := string_of_Z z in
  if (String.length s <? 2)%nat then "0" ++ s else s.

(** ** Number(value): StringToNumber and ToNumber *)

(** The value of a digit character: 0-9, a-z and A-Z count up from 0; any
    other character is no digit in any radix. *)
Definition digit_value (c : ascii) : Z :=
  let n := Z.of_N (N_of_ascii c) in
  if (48 <=? n) && (n <=? 57) then n - 48
  else if (97 <=? n) && (n <=? 122) then n - 87
  else if (65 <=? n) && (n <=? 90) then n - 55
  else 99.

Definition digit_of (base : Z) (c : ascii) : option Z :=
  let d := digit_value c in
  if d <? base then Some d else None.

(** Longest prefix of digits in [base], as (value, number of digits, rest). *)
Fixpoint read_digits (base : Z) (s : string) (acc : Z) (len : Z) : Z * Z * string :=
  match s with
  | EmptyString => (acc, len, s)
  | String c rest =>
      match digit_of base c with
      | Some d => read_digits base rest (acc * base + d) (len + 1)
      | None => (acc, len, s)
      end
  end.

Definition read_sign (s : string) : bool * string :=
  match s with
  | String c rest =>
      if Ascii.eqb c "-" then (true, rest)
      else if Ascii.eqb c "+" then (false, rest)
      else (false, s)
  | EmptyString => (false, s)
  end.

(** The mathematical value [m * 10^e]. *)
Definition scale10 (m e : Z) : Q :=
  if 0 <=? e then inject_Z (m * 10 ^ e)
  else Qmake m (Z.to_pos (10 ^ (- e))).

Definition signed (neg : bool) (m : Z) : Z := if neg then - m else m.

(** ** Number values

    A finite Number is a binary64 value: [m * 2^e] with [|m| < 2^53] and
    [-1074 <= e <= 971].  [round64] is the Number value for a rational: the
    nearest such value, ties to the even significand, and an infinity from
    [2^1024 - 2^970] on (IEEE 754 roundTiesToEven). *)

(** The integer nearest to [n / d], ties to even, for [0 <= n]. *)
Definition round_half_even (n : Z) (d : positive) : Z :=
  let q := n / Zpos d in
  let r := n mod Zpos d in
  match 2 * r ?= Zpos d with
  | Lt => q
  | Gt => q + 1
  | Eq => if Z.even q then q else q + 1
  end.

(** [m * 2^e], in lowest terms. *)
Definition scale2 (m e : Z) : Q :=
  if 0 <=? e then inject_Z (m * 2 ^ e)
  else Qred (Qmake m (Z.to_pos (2 ^ (- e)))).

(** [2^k <= n / d], for [0 < n]. *)
Definition reaches (n : Z) (d : positive) (k : Z) : bool :=
  if 0 <=? k then Zpos d * 2 ^ k <=? n else Zpos d <=? n * 2 ^ (- k).

Definition round64 (q : Q) : jsnum :=
  let neg := Qnum q <? 0 in
  let n := Z.abs (Qnum q) in
  let d := Qden q in
  if n =? 0 then JFin 0
  else
    (* the binade of n/d: 2^l <= n/d < 2^(l+1) *)
    let k := Z.log2 n - Z.log2 (Zpos d) in
    let l := if reaches n d k then k else k - 1 in
    (* the exponent of the last place, not below that of the subnormals *)
    let e := Z.max (l - 52) (-1074) in
    let m :=
      if 0 <=? e then round_half_even n (d * Z.to_pos (2 ^ e))
      else round_half_even (n * 2 ^ (- e)) d in
    if (971 <? e) || ((e =? 971) && (2 ^ 53 <=? m)) then JInf neg
    else JFin (scale2 (signed neg m) e).

(** StrDecimalLiteral: sign, then [Infinity] or digits with an optional
    fraction and exponent; the Number value of what they write. *)
Definition parse_decimal (s : string) : jsnum :=
  let '(neg, s1) := read_sign s in
  if String.eqb s1 "Infinity" then JInf neg
  else
    let '(ip, ilen, s2) := read_digits 10 s1 0 0 in
    let '(m, flen, s3) :=
      match s2 with
      | String c rest => if Ascii.eqb c "." then read_digits 10 rest ip 0 else (ip, 0, s2)
      | EmptyString => (ip, 0, s2)
      end in
    if ilen + flen =? 0 then JNaN
    else
      match s3 with
      | EmptyString => round64 (scale10 (signed neg m) (- flen))
      | String c rest =>
          if Ascii.eqb c "e" || Ascii.eqb c "E" then
            let '(eneg, s4) := read_sign rest in
            let '(ev, elen, s5) := read_digits 10 s4 0 0 in
            if (elen =? 0) || negb (String.eqb s5 "") then JNaN
            else round64 (scale10 (signed neg m) (signed eneg ev - flen))
          else JNaN
      end.

(** NonDecimalIntegerLiteral: the digits after a [0x], [0o] or [0b] prefix,
    unsigned. *)
Definition parse_radix (base : Z) (digits : string) : jsnum :=
  let '(v, len, rest) := read_digits base digits 0 0 in
  if (len =? 0) || negb (String.eqb rest "") then JNaN else round64 (inject_Z v).

(** StringToNumber: white space is trimmed, the empty string is 0. *)
Definition StringToNumber (s : string) : jsnum :=
  match trim s with
  | EmptyString => JFin 0
  | String c0 (String c1 ds) as t =>
      if Ascii.eqb c0 "0" then
        if Ascii.eqb c1 "x" || Ascii.eqb c1 "X" then parse_radix 16 ds
        else if Ascii.eqb c1 "o" || Ascii.eqb c1 "O" then parse_radix 8 ds
        else if Ascii.eqb c1 "b" || Ascii.eqb c1 "B" then parse_radix 2 ds
        else parse_decimal t
      else parse_decimal t
  | t => parse_decimal t
  end.

(** [Number(value)]: an array converts through its string form, which is the
    empty string, the string form of its only element, or a string with a
    comma. *)
Fixpoint Number_ (value : JsValue) : jsnum :=
  match value with
  | VUndefined => JNaN
  | VNull => JFin 0
  | VBool b => if b then JFin 1 else JFin 0
  | VNum n => n
  | VStr s => StringToNumber s
  | VArr [] => JFin 0
  | VArr [x] =>
      match x with
      | VUndefined | VNull => JFin 0
      | VBool _ | VObj _ => JNaN
      | _ => Number_ x
      end
  | VArr _ => JNaN
  | VObj _ => JNaN
  end.

Definition Number_isFinite (n : jsnum) : bool :=
  match n with
  | JFin _ => true
  | _ => false
  end.

(** [a <= b] on numbers. *)
Definition num_leb (a b : jsnum) : bool :=
  match a, b with
  | JNaN, _ | _, JNaN => false
  | JInf true, _ => true
  | _, JInf false => true
  | JInf false, _ => false
  | _, JInf true => false
  | JFin x, JFin y => Qle_bool x y
  end.

(** ** toNumber (page.js, lines 6-9) *)

Definition toNumber (value : JsValue) : jsnum :=
  let n :=
    match value with
    | VStr s => Number_ (VStr (remove_commas s))
    | _ => Number_ value
    end in
  if Number_isFinite n then n else JFin 0.

(** ** Dates: the time-value arithmetic of ECMAScript *)

Module DateModel.

Definition msPerDay : Z := 86400000.

Definition Day (t : Z) : Z := t / msPerDay.
Definition TimeWithinDay (t : Z) : Z := t mod msPerDay.

Definition is_leap (y : Z) : bool :=
  ((y mod 4 =? 0) && negb (y mod 100 =? 0)) || (y mod 400 =? 0).

Definition DaysInYear (y : Z) : Z := if is_leap y then 366 else 365.

Definition DayFromYear (y : Z) : Z :=
  365 * (y - 1970) + (y - 1969) / 4 - (y - 1901) / 100 + (y - 1601) / 400.

(** The year of day number [d]: the largest [y] with [DayFromYear y <= d]
    (lemma [YearFromDay_spec]), computed by splitting the days since
    1 January 1601 into 400-year, 100-year, 4-year and 1-year blocks. *)
Definition YearFromDay (d : Z) : Z :=
  let n := d - DayFromYear 1601 in
  let era := n / 146097 in
  let doe := n mod 146097 in
  let c := Z.min 3 (doe / 36524) in
  let r := doe - c * 36524 in
  let q := r / 1461 in
  let r2 := r mod 1461 in
  let a := Z.min 3 (r2 / 365) in
  1601 + 400 * era + 100 * c + 4 * q + a.

Definition YearFromTime (t : Z) : Z := YearFromDay (Day t).

Definition DayWithinYear (t : Z) : Z := Day t - DayFromYear (YearFromTime t).

Definition InLeapYear (t : Z) : Z := if is_leap (YearFromTime t) then 1 else 0.

(** Day number within the year of the first day of month [m] (0-11). *)
Definition month_start (leap : Z) (m : Z) : Z :=
  if m =? 0 then 0
  else if m =? 1 then 31
  else if m =? 2 then 59 + leap
  else if m =? 3 then 90 + leap
  else if m =? 4 then 120 + leap
  else if m =? 5 then 151 + leap
  else if m =? 6 then 181 + leap
  else if m =? 7 then 212 + leap
  else if m =? 8 then 243 + leap
  else if m =? 9 then 273 + leap
  else if m =? 10 then 304 + leap
  else 334 + leap.

Definition MonthFromTime (t : Z) : Z :=
  let d := DayWithinYear t in
  let l := InLeapYear t in
  if d <? 31 then 0
  else if d <? 59 + l then 1
  else if d <? 90 + l then 2
  else if d <? 120 + l then 3
  else if d <? 151 + l then 4
  else if d <? 181 + l then 5
  else if d <? 212 + l then 6
  else if d <? 243 + l then 7
  else if d <? 273 + l then 8
  else if d <? 304 + l then 9
  else if d <? 334 + l then 10
  else 11.

Definition DateFromTime (t : Z) : Z :=
  DayWithinYear t - month_start (InLeapYear t) (MonthFromTime t) + 1.

Definition MakeTime (hour min sec ms : Z) : Z :=
  hour * 3600000 + min * 60000 + sec * 1000 + ms.

Definition MakeDay (year month date : Z) : Z :=
  let ym := year + month / 12 in
  let mn := month mod 12 in
  DayFromYear ym + month_start (if is_leap ym then 1 else 0) mn + date - 1.

Definition MakeDate (day time : Z) : Z := day * msPerDay + time.

Section Local.

(** LocalTZA(t, isUTC): the offset of local time from UTC in milliseconds,
    at the instant [t] when [isUTC] is true, and at the local time value [t]
    otherwise (a local time that a clock change skips or repeats is read
    with the offset before the change). *)
Variable LocalTZA : Z -> bool -> Z.

Definition LocalTime (t : Z) : Z := t + LocalTZA t true.
Definition UTC (t : Z) : Z := t - LocalTZA t false.

Definition getFullYear (t : Z) : Z := YearFromTime (LocalTime t).
Definition getMonth (t : Z) : Z := MonthFromTime (LocalTime t).
Definition getDate (t : Z) : Z := DateFromTime (LocalTime t).

(** [new Date(year, month, date)]: years 0 to 99 stand for 1900 to 1999. *)
Definition Date_of_fields (year month date : Z) : Z :=
  let yr := if (0 <=? year) && (year <=? 99) then 1900 + year else year in
  UTC (MakeDate (MakeDay yr month date) (MakeTime 0 0 0 0)).

(** [d.setHours(hour, min, sec, ms)], the new time value. *)
Definition setHours (t : Z) (hour min sec ms : Z) : Z :=
  UTC (MakeDate (Day (LocalTime t)) (MakeTime hour min sec ms)).

End Local.

(** A zone without clock changes: the same offset always. *)
Definition fixed (tza : Z) : Z -> bool -> Z := fun _ _ => tza.

End DateModel.

Import DateModel.

(** ** getPeriodDateRange (page.js, lines 28-41)

    [now] is the value of [new Date()] when the function runs. *)

Record DateRange : Type := { startDate : Z; endDate : Z }.

Definition getPeriodDateRange (zone : Z -> bool -> Z) (now : Z) (period : string) :
    DateRange :=
  let startDate :=
    if String.eqb period "monthly" then
      Date_of_fields zone (getFullYear zone now) (getMonth zone now) 1
    else if String.eqb period "6months" then
      Date_of_fields zone (getFullYear zone now) (getMonth zone now - 5) 1
    else Date_of_fields zone (getFullYear zone now) 0 1 in
  let endDate := now in
  let endDate := setHours zone endDate 23 59 59 999 in
  let startDate := setHours zone startDate 0 0 0 0 in
  {| startDate := startDate; endDate := endDate |}.

(** ** Requests, responses and the event trace *)

Inductive Method : Type := GET | POST | PUT | DELETE.

(** The path and query of a request URL, after [API_BASE_URL]. *)
Inductive Resource : Type :=
| PeriodSummary (period : string)
    (* /api/general-expenses/period?period=<period> *)
| ExpenseList (startDate endDate : Z) (page limit : Z)
    (* /api/general-expenses?startDate=&endDate=&page=&limit= ; the dates are
       the time values whose ISO strings the URL carries *)
| ExpenseCollection
    (* /api/general-expenses *)
| ExpenseItem (id : JsValue).
    (* /api/general-expenses/<id> *)

(** The JSON body of a save request; an [undefined] description is dropped by
    [JSON.stringify]. *)
Record SaveBody : Type := {
  body_title : string;
  body_description : option string;
  body_amount : jsnum;
  body_expenseDate : string
}.

Record Request : Type := {
  req_base : string;
  req_resource : Resource;
  req_method : Method;
  req_no_store : bool;
  req_authorization : option string;
  req_json_content : bool;
  req_body : option SaveBody
}.

(** A response: its status and what reading its body as text or as JSON
    gives ([None] when the read or the parse fails). *)
Record Response : Type := {
  status : Z;
  body_text : option string;
  body_json : option JsValue
}.

Definition ok (r : Response) : bool := (200 <=? status r) && (status r <=? 299).

Inductive FetchResult : Type :=
| NetworkError (message : string)
| Responded (r : Response).

Inductive Event : Type :=
| EvFetch (req : Request) (res : FetchResult)
| EvReadText
| EvReadJson
| EvAlert (msg : string)
| EvLocation (href : string)
| EvConsoleWarn (msg : string)
| EvConsoleError (msg : string).

Record Host : Type := {
  API_BASE_URL : option string;          (* process.env.NEXT_PUBLIC_API_BASE_URL *)
  token : option string;                 (* localStorage.getItem("token") *)
  LocalTZA : Z -> bool -> Z;             (* the offset of the local time zone *)
  now : Z;                               (* new Date() *)
  Date_parse : JsValue -> option Z;      (* new Date(value), None when invalid *)
  Number_toString : jsnum -> string;     (* String(n) *)
  Number_toLocaleString : jsnum -> string;
  net : list Event -> Request -> FetchResult
    (* the answer to a request, given everything that happened before it *)
}.

(** ** Component state *)

Record ExpenseForm : Type := {
  form_title : JsValue;
  form_description : JsValue;
  form_amount : string;
  form_expenseDate : string
}.

Record Toast : Type := { toast_type : string; toast_message : string }.

(** The argument of [performSaveExpense]. *)
Record SaveArgs : Type := {
  isEdit : bool;
  id : JsValue;
  title : string;
  description : string;
  amount : jsnum;
  expenseDate : string
}.

(** The staged action of a confirmation dialog: its [type] tag together with
    the payload that goes with the tag. *)
Inductive PendingAction : Type :=
| PendingUpdate (payload : SaveArgs)     (* type: "update" *)
| PendingDelete (payload : JsValue).      (* type: "delete" *)

Record ConfirmDialog : Type := {
  dialog_action : PendingAction;
  dialog_title : string;
  dialog_message : string;
  confirmLabel : string;
  confirmVariant : string
}.

Record State : Type := {
  selectedPeriod : string;
  loading : bool;
  expenses : list JsValue;
  expensesDateRange : option DateRange;
  periodGroups : list JsValue;
  showExpenseModal : bool;
  editingExpense : JsValue;
  expenseForm : ExpenseForm;
  formError : string;
  saving : bool;
  toast : option Toast;
  toastTimeoutRef : option nat;
  confirmDialog : option ConfirmDialog;
  timers : list nat;
  nextTimer : nat
}.

(** Field updates. *)

Definition set_selectedPeriod (v : string) (st : State) : State :=
  {| selectedPeriod := v;
     loading := loading st;
     expenses := expenses st;
     expensesDateRange := expensesDateRange st;
     periodGroups := periodGroups st;
     showExpenseModal := showExpenseModal st;
     editingExpense := editingExpense st;
     expenseForm := expenseForm st;
     formError := formError st;
     saving := saving st;
     toast := toast st;
     toastTimeoutRef := toastTimeoutRef st;
     confirmDialog := confirmDialog st;
     timers := timers st;
     nextTimer := nextTimer st |}.

Definition set_loading (v : bool) (st : State) : State :=
  {| selectedPeriod := selectedPeriod st;
     loading := v;
     expenses := expenses st;
     expensesDateRange := expensesDateRange st;
     periodGroups := periodGroups st;
     showExpenseModal := showExpenseModal st;
     editingExpense := editingExpense st;
     expenseForm := expenseForm st;
     formError := formError st;
     saving := saving st;
     toast := toast st;
     toastTimeoutRef := toastTimeoutRef st;
     confirmDialog := confirmDialog st;
     timers := timers st;
     nextTimer := nextTimer st |}.

Definition set_expenses (v : list JsValue) (st : State) : State :=
  {| selectedPeriod := selectedPeriod st;
     loading := loading st;
     expenses := v;
     expensesDateRange := expensesDateRange st;
     periodGroups := periodGroups st;
     showExpenseModal := showExpenseModal st;
     editingExpense := editingExpense st;
     expenseForm := expenseForm st;
     formError := formError st;
     saving := saving st;
     toast := toast st;
     toastTimeoutRef := toastTimeoutRef st;
     confirmDialog := confirmDialog st;
     timers := timers st;
     nextTimer := nextTimer st |}.

Definition set_expensesDateRange (v : option DateRange) (st : State) : State :=
  {| selectedPeriod := selectedPeriod st;
     loading := loading st;
     expenses := expenses st;
     expensesDateRange := v;
     periodGroups := periodGroups st;
     showExpenseModal := showExpenseModal st;
     editingExpense := editingExpense st;
     expenseForm := expenseForm st;
     formError := formError st;
     saving := saving st;
     toast := toast st;
     toastTimeoutRef := toastTimeoutRef st;
     confirmDialog := confirmDialog st;
     timers := timers st;
     nextTimer := nextTimer st |}.

Definition set_periodGroups (v : list JsValue) (st : State) : State :=
  {| selectedPeriod := selectedPeriod st;
     loading := loading st;
     expenses := expenses st;
     expensesDateRange := expensesDateRange st;
     periodGroups := v;
     showExpenseModal := showExpenseModal st;
     editingExpense := editingExpense st;
     expenseForm := expenseForm st;
     formError := formError st;
     saving := saving st;
     toast := toast st;
     toastTimeoutRef := toastTimeoutRef st;
     confirmDialog := confirmDialog st;
     timers := timers st;
     nextTimer := nextTimer st |}.

Definition set_showExpenseModal (v : bool) (st : State) : State :=
  {| selectedPeriod := selectedPeriod st;
     loading := loading st;
     expenses := expenses st;
     expensesDateRange := expensesDateRange st;
     periodGroups := periodGroups st;
     showExpenseModal := v;
     editingExpense := editingExpense st;
     expenseForm := expenseForm st;
     formError := formError st;
     saving := saving st;
     toast := toast st;
     toastTimeoutRef := toastTimeoutRef st;
     confirmDialog := confirmDialog st;
     timers := timers st;
     nextTimer := nextTimer st |}.

Definition set_editingExpense (v : JsValue) (st : State) : State :=
  {| selectedPeriod := selectedPeriod st;
     loading := loading st;
     expenses := expenses st;
     expensesDateRange := expensesDateRange st;
     periodGroups := periodGroups st;
     showExpenseModal := showExpenseModal st;
     editingExpense := v;
     expenseForm := expenseForm st;
     formError := formError st;
     saving := saving st;
     toast := toast st;
     toastTimeoutRef := toastTimeoutRef st;
     confirmDialog := confirmDialog st;
     timers := timers st;
     nextTimer := nextTimer st |}.

Definition set_expenseForm (v : ExpenseForm) (st : State) : State :=
  {| selectedPeriod := selectedPeriod st;
     loading := loading st;
     expenses := expenses st;
     expensesDateRange := expensesDateRange st;
     periodGroups := periodGroups st;
     showExpenseModal := showExpenseModal st;
     editingExpense := editingExpense st;
     expenseForm := v;
     formError := formError st;
     saving := saving st;
     toast := toast st;
     toastTimeoutRef := toastTimeoutRef st;
     confirmDialog := confirmDialog st;
     timers := timers st;
     nextTimer := nextTimer st |}.

Definition set_formError (v : string) (st : State) : State :=
  {| selectedPeriod := selectedPeriod st;
     loading := loading st;
     expenses := expenses st;
     expensesDateRange := expensesDateRange st;
     periodGroups := periodGroups st;
     showExpenseModal := showExpenseModal st;
     editingExpense := editingExpense st;
     expenseForm := expenseForm st;
     formError := v;
     saving := saving st;
     toast := toast st;
     toastTimeoutRef := toastTimeoutRef st;
     confirmDialog := confirmDialog st;
     timers := timers st;
     nextTimer := nextTimer st |}.

Definition set_saving (v : bool) (st : State) : State :=
  {| selectedPeriod := selectedPeriod st;
     loading := loading st;
     expenses := expenses st;
     expensesDateRange := expensesDateRange st;
     periodGroups := periodGroups st;
     showExpenseModal := showExpenseModal st;
     editingExpense := editingExpense st;
     expenseForm := expenseForm st;
     formError := formError st;
     saving := v;
     toast := toast st;
     toastTimeoutRef := toastTimeoutRef st;
     confirmDialog := confirmDialog st;
     timers := timers st;
     nextTimer := nextTimer st |}.

Definition set_toast (v : option Toast) (st : State) : State :=
  {| selectedPeriod := selectedPeriod st;
     loading := loading st;
     expenses := expenses st;
     expensesDateRange := expensesDateRange st;
     periodGroups := periodGroups st;
     showExpenseModal := showExpenseModal st;
     editingExpense := editingExpense st;
     expenseForm := expenseForm st;
     formError := formError st;
     saving := saving st;
     toast := v;
     toastTimeoutRef := toastTimeoutRef st;
     confirmDialog := confirmDialog st;
     timers := timers st;
     nextTimer := nextTimer st |}.

Definition set_toastTimeoutRef (v : option nat) (st : State) : State :=
  {| selectedPeriod := selectedPeriod st;
     loading := loading st;
     expenses := expenses st;
     expensesDateRange := expensesDateRange st;
     periodGroups := periodGroups st;
     showExpenseModal := showExpenseModal st;
     editingExpense := editingExpense st;
     expenseForm := expenseForm st;
     formError := formError st;
     saving := saving st;
     toast := toast st;
     toastTimeoutRef := v;
     confirmDialog := confirmDialog st;
     timers := timers st;
     nextTimer := nextTimer st |}.

Definition set_confirmDialog (v : option ConfirmDialog) (st : State) : State :=
  {| selectedPeriod := selectedPeriod st;
     loading := loading st;
     expenses := expenses st;
     expensesDateRange := expensesDateRange st;
     periodGroups := periodGroups st;
     showExpenseModal := showExpenseModal st;
     editingExpense := editingExpense st;
     expenseForm := expenseForm st;
     formError := formError st;
     saving := saving st;
     toast := toast st;
     toastTimeoutRef := toastTimeoutRef st;
     confirmDialog := v;
     timers := timers st;
     nextTimer := nextTimer st |}.

Definition set_timers (v : list nat) (st : State) : State :=
  {| selectedPeriod := selectedPeriod st;
     loading := loading st;
     expenses := expenses st;
     expensesDateRange := expensesDateRange st;
     periodGroups := periodGroups st;
     showExpenseModal := showExpenseModal st;
     editingExpense := editingExpense st;
     expenseForm := expenseForm st;
     formError := formError st;
     saving := saving st;
     toast := toast st;
     toastTimeoutRef := toastTimeoutRef st;
     confirmDialog := confirmDialog st;
     timers := v;
     nextTimer := nextTimer st |}.

Definition set_nextTimer (v : nat) (st : State) : State :=
  {| selectedPeriod := selectedPeriod st;
     loading := loading st;
     expenses := expenses st;
     expensesDateRange := expensesDateRange st;
     periodGroups := periodGroups st;
     showExpenseModal := showExpenseModal st;
     editingExpense := editingExpense st;
     expenseForm := expenseForm st;
     formError := formError st;
     saving := saving st;
     toast := toast st;
     toastTimeoutRef := toastTimeoutRef st;
     confirmDialog := confirmDialog st;
     timers := timers st;
     nextTimer := v |}.

(** ** Completions and the handler monad

    A handler runs on the store (what the setters write), sees the events
    that happened before it (the network answers by them), and yields a
    completion, the new store and the events it emitted.  The values a
    handler reads from its closure ([saving], [editingExpense], ...) are
    those of the render that created it: the handlers below take that render
    as [snap], separate from the store. *)

Inductive JsError : Type := Error (message : string).

Definition error_message (e : JsError) : string :=
  match e with Error m => m end.

Inductive Completion (A : Type) : Type :=
| Normal (a : A)
| Return
| Throw (e : JsError).

Arguments Normal {A} a.
Arguments Return {A}.
Arguments Throw {A} e.

Definition M (A : Type) : Type :=
  State -> list Event -> Completion A * State * list Event.

Definition ret {A} (a : A) : M A := fun st _ => (Normal a, st, []).

Definition bind {A B} (m : M A) (k : A -> M B) : M B :=
  fun st h =>
    match m st h with
    | (Normal a, st1, ev1) =>
        let '(c, st2, ev2) := k a st1 (h ++ ev1)%list in (c, st2, (ev1 ++ ev2)%list)
    | (Return, st1, ev1) => (Return, st1, ev1)
    | (Throw e, st1, ev1) => (Throw e, st1, ev1)
    end.

Notation "x <- m ;; k" := (bind m (fun x => k))
  (at level 61, m at next level, right associativity).
Notation "m ;; k" := (bind m (fun _ => k))
  (at level 61, right associativity).

(** [return;] and [throw e;]. *)
Definition return_ {A} : M A := fun st _ => (Return, st, []).
Definition throw {A} (e : JsError) : M A := fun st _ => (Throw e, st, []).

(** [try { body } catch (e) { handler e }]. *)
Definition try_catch {A} (body : M A) (handler : JsError -> M A) : M A :=
  fun st h =>
    match body st h with
    | (Throw e, st1, ev1) =>
        let '(c, st2, ev2) := handler e st1 (h ++ ev1)%list in (c, st2, (ev1 ++ ev2)%list)
    | r => r
    end.

(** [try { body } finally { fin }]: the completion of [body] stands unless
    [fin] completes abruptly. *)
Definition try_finally {A} (body : M A) (fin : M unit) : M A :=
  fun st h =>
    let '(c, st1, ev1) := body st h in
    match fin st1 (h ++ ev1)%list with
    | (Normal _, st2, ev2) => (c, st2, (ev1 ++ ev2)%list)
    | (Return, st2, ev2) => (Return, st2, (ev1 ++ ev2)%list)
    | (Throw e, st2, ev2) => (Throw e, st2, (ev1 ++ ev2)%list)
    end.

(** A function body: [return] ends the function, not its caller. *)
Definition function (body : M unit) : M unit :=
  fun st h =>
    match body st h with
    | (Return, st1, ev1) => (Normal tt, st1, ev1)
    | r => r
    end.

Definition emit (ev : Event) : M unit := fun st _ => (Normal tt, st, [ev]).
Definition modify (f : State -> State) : M unit := fun st _ => (Normal tt, f st, []).
Definition read_store : M State := fun st _ => (Normal st, st, []).

Definition when (c : bool) (m : M unit) : M unit := if c then m else ret tt.

(** [await fetch(...)]: the host answers; a network failure throws. *)
Definition fetch (host : Host) (req : Request) : M Response :=
  fun st h =>
    let res := net host h req in
    match res with
    | NetworkError msg => (Throw (Error msg), st, [EvFetch req res])
    | Responded r => (Normal r, st, [EvFetch req res])
    end.

(** The message of the error [res.json()] throws on a malformed body. *)
Definition json_syntax_error : string := "Unexpected end of JSON input".

(** [await res.json()]. *)
Definition json (res : Response) : M JsValue :=
  emit EvReadJson ;;
  match body_json res with
  | Some v => ret v
  | None => throw (Error json_syntax_error)
  end.

(** [await res.json().catch(() => null)]. *)
Definition json_catch_null (res : Response) : M JsValue :=
  emit EvReadJson ;;
  ret (match body_json res with Some v => v | None => VNull end).

(** [await res.text().catch(() => "")]. *)
Definition text_catch_empty (res : Response) : M string :=
  emit EvReadText ;;
  ret (match body_text res with Some t => t | None => "" end).

Definition alert (msg : string) : M unit := emit (EvAlert msg).
Definition set_location_href (href : string) : M unit := emit (EvLocation href).
Definition console_warn (msg : string) : M unit := emit (EvConsoleWarn msg).
Definition console_error (msg : string) : M unit := emit (EvConsoleError msg).

(** [window.setTimeout] hands out a fresh positive identifier;
    [window.clearTimeout] disarms one. *)
Definition setTimeout : M nat :=
  fun st _ =>
    let i := nextTimer st in
    (Normal i, set_nextTimer (S i) (set_timers (timers st ++ [i])%list st), []).

Definition clearTimeout (i : nat) : M unit :=
  modify (fun st => set_timers (remove Nat.eq_dec i (timers st)) st).

(** The state setters of the component. *)
Definition setSelectedPeriod (v : string) : M unit := modify (set_selectedPeriod v).
Definition setLoading (v : bool) : M unit := modify (set_loading v).
Definition setExpenses (v : list JsValue) : M unit := modify (set_expenses v).
Definition setExpensesDateRange (v : option DateRange) : M unit :=
  modify (set_expensesDateRange v).
Definition setPeriodGroups (v : list JsValue) : M unit := modify (set_periodGroups v).
Definition setShowExpenseModal (v : bool) : M unit := modify (set_showExpenseModal v).
Definition setEditingExpense (v : JsValue) : M unit := modify (set_editingExpense v).
Definition setExpenseForm (v : ExpenseForm) : M unit := modify (set_expenseForm v).
Definition setFormError (v : string) : M unit := modify (set_formError v).
Definition setSaving (v : bool) : M unit := modify (set_saving v).
Definition setToast (v : option Toast) : M unit := modify (set_toast v).
Definition setConfirmDialog (v : option ConfirmDialog) : M unit :=
  modify (set_confirmDialog v).

(** ** The page: MoneyManagerPage (page.js, lines 50-382) *)

Definition login_href : string := "/admin/login".
Definition unauthorized_msg : string := "Unauthorized: Please login again.".

(** [!API_BASE_URL]: the variable is unset or empty. *)
Definition base_url (host : Host) : option string :=
  match API_BASE_URL host with
  | Some b => if String.eqb b "" then None else Some b
  | None => None
  end.

(** [authHeaders]: the Authorization header, when a token is stored. *)
Definition authHeaders (host : Host) : option string :=
  match token host with
  | Some t => if String.eqb t "" then None else Some ("Bearer " ++ t)
  | None => None
  end.

(** [String(v)] and template-literal interpolation. *)
Fixpoint String_ (host : Host) (v : JsValue) : string :=
  match v with
  | VUndefined => "undefined"
  | VNull => "null"
  | VBool b => if b then "true" else "false"
  | VNum n => Number_toString host n
  | VStr s => s
  | VArr items =>
      String.concat ","
        (map (fun x => match x with
                       | VUndefined | VNull => ""
                       | _ => String_ host x
                       end) items)
  | VObj _ => "[object Object]"
  end.

(** formatDateInput (page.js, lines 11-19); its argument is a JSON value or a
    [Date] object. *)
Inductive DateInput : Type :=
| OfValue (v : JsValue)
| OfDate (t : Z).

Definition formatDateInput (host : Host) (value : DateInput) : string :=
  let dt :=
    match value with
    | OfValue v => if truthy v then Date_parse host v else None
    | OfDate t => Some t
    end in
  match dt with
  | None => ""
  | Some t =>
      let yyyy := getFullYear (LocalTZA host) t in
      let mm := pad2 (getMonth (LocalTZA host) t + 1) in
      let dd := pad2 (getDate (LocalTZA host) t) in
      string_of_Z yyyy ++ "-" ++ mm ++ "-" ++ dd
  end.

(** [Number(x) || d]. *)
Definition num_or (n d : jsnum) : jsnum :=
  if truthy (VNum n) then n else d.

(** [v.trim()]: only strings have the method. *)
Definition trim_method (v : JsValue) : M string :=
  match v with
  | VStr s => ret (trim s)
  | _ => throw (Error "trim is not a function")
  end.

(** A line break and the baht sign (U+0E3F, three bytes in UTF-8), as they
    appear in dialog messages. *)
Definition baht_line : string :=
  String (ascii_of_nat 10)
    (String (ascii_of_nat 224) (String (ascii_of_nat 184) (String (ascii_of_nat 191) ""))).

Section Page.

Variable host : Host.

(** The render whose closures the handlers are. *)
Variable snap : State.

Definition apiPeriod : string :=
  if String.eqb (selectedPeriod snap) "sixMonths" then "6months"
  else selectedPeriod snap.

(** showToast (lines 78-88). *)
Definition showToast (message : string) (type : string) : M unit :=
  st <- read_store ;;
  match toastTimeoutRef st with
  | Some i => clearTimeout i ;; modify (set_toastTimeoutRef None)
  | None => ret tt
  end ;;
  setToast (Some {| toast_type := type; toast_message := message |}) ;;
  i <- setTimeout ;;
  modify (set_toastTimeoutRef (Some i)).

(** The callback of the toast timer (lines 84-87). *)
Definition toast_timeout : M unit :=
  setToast None ;;
  modify (set_toastTimeoutRef None).

(** handleLogout (lines 105-107). *)
Definition handleLogout : M unit := set_location_href login_href.

(** openCreateModal (lines 109-119). *)
Definition openCreateModal : M unit :=
  setEditingExpense VNull ;;
  setExpenseForm {| form_title := VStr "";
                    form_description := VStr "";
                    form_amount := "";
                    form_expenseDate := formatDateInput host (OfDate (now host)) |} ;;
  setFormError "" ;;
  setShowExpenseModal true.

(** openEditModal (lines 121-131). *)
Definition openEditModal (exp : JsValue) : M unit :=
  setEditingExpense exp ;;
  setExpenseForm
    {| form_title := js_or (get exp "title") (VStr "");
       form_description := js_or (get exp "description") (VStr "");
       form_amount := String_ host (js_nullish (get exp "amount") (VStr ""));
       form_expenseDate :=
         formatDateInput host
           (OfValue (js_or (js_or (get exp "expenseDate") (get exp "date"))
                           (get exp "createdAt"))) |} ;;
  setFormError "" ;;
  setShowExpenseModal true.

(** closeModal (lines 133-138). *)
Definition closeModal : M unit :=
  function (
    when (saving snap) return_ ;;
    setShowExpenseModal false ;;
    setEditingExpense VNull ;;
    setFormError "").

Definition period_request (b : string) : Request :=
  {| req_base := b;
     req_resource := PeriodSummary apiPeriod;
     req_method := GET;
     req_no_store := true;
     req_authorization := authHeaders host;
     req_json_content := false;
     req_body := None |}.

Definition expenses_request (b : string) (startDate endDate page limit : Z) : Request :=
  {| req_base := b;
     req_resource := ExpenseList startDate endDate page limit;
     req_method := GET;
     req_no_store := true;
     req_authorization := authHeaders host;
     req_json_content := false;
     req_body := None |}.

(** The pagination loop of fetchAll (lines 192-220), from the loop variables
    [page], [pages] and [all]; its value is [all] when the loop ends.  The
    guard [page <= 50] bounds the iterations, [fuel] only makes that
    structural ([fetch_pages_fuel], [fetch_pages_enough_fuel]). *)
Fixpoint fetch_pages (fuel : nat) (b : string) (start end_ limit : Z)
    (page : Z) (pages : jsnum) (all : list JsValue) : M (list JsValue) :=
  if num_leb (num_of_Z page) pages && (page <=? 50) then
    match fuel with
    | O => ret all
    | S fuel' =>
        expRes <- fetch host (expenses_request b start end_ page limit) ;;
        when (status expRes =? 401) (
          alert unauthorized_msg ;;
          set_location_href login_href ;;
          return_) ;;
        when (negb (ok expRes)) (
          t <- text_catch_empty expRes ;;
          throw (Error ("Expenses request failed (" ++ string_of_Z (status expRes)
                        ++ "). " ++ t))) ;;
        expJson <- json expRes ;;
        let list :=
          match get expJson "data" with
          | VArr items => items
          | _ => []
          end in
        let all := (all ++ list)%list in
        let pages := num_or (Number_ (get (get expJson "pagination") "pages")) (JFin 1) in
        let page := page + 1 in
        if (Z.of_nat (List.length list) =? 0) then ret all
        else fetch_pages fuel' b start end_ limit page pages all
    end
  else ret all.

(** The date a field of [dateRange] gives, when present and valid
    (lines 171-174). *)
Definition server_date (v : JsValue) : option Z :=
  if truthy v then Date_parse host v else None.

(** The range of the expenses query (lines 171-174 and 180-182): each end
    is the server's when it is there, the locally computed one otherwise. *)
Definition resolve_range (periodJson : JsValue) : DateRange :=
  let serverStart := server_date (get (get periodJson "dateRange") "startDate") in
  let serverEnd := server_date (get (get periodJson "dateRange") "endDate") in
  let fallback := getPeriodDateRange (LocalTZA host) (now host) apiPeriod in
  let rangeStart :=
    match serverStart with Some t => t | None => startDate fallback end in
  let rangeEnd :=
    match serverEnd with Some t => t | None => endDate fallback end in
  {| startDate := rangeStart; endDate := rangeEnd |}.

(** fetchAll (lines 140-231). *)
Definition fetchAll : M unit :=
  function (
    match base_url host with
    | None =>
        console_warn "API base URL is not set. Cannot fetch money manager data." ;;
        setLoading false ;;
        return_
    | Some b =>
        try_catch (
          setLoading true ;;
          periodRes <- fetch host (period_request b) ;;
          when (status periodRes =? 401) (
            alert unauthorized_msg ;;
            set_location_href login_href ;;
            return_) ;;
          when (negb (ok periodRes)) (
            t <- text_catch_empty periodRes ;;
            throw (Error ("Period request failed (" ++ string_of_Z (status periodRes)
                          ++ "). " ++ t))) ;;
          periodJson <- json periodRes ;;
          setPeriodGroups
            (match get periodJson "data" with
             | VArr items => items
             | _ => []
             end) ;;
          let range := resolve_range periodJson in
          all <- fetch_pages 50 b (startDate range) (endDate range) 100 1 (JFin 1) [] ;;
          setExpenses all ;;
          setExpensesDateRange (Some range) ;;
          setLoading false)
        (fun e =>
          console_error ("Money manager load failed: " ++ error_message e) ;;
          showToast ("Failed to load money manager data: " ++ error_message e) "error" ;;
          setLoading false)
    end).

Definition save_request (b : string) (p : SaveArgs) : Request :=
  {| req_base := b;
     req_resource := if isEdit p then ExpenseItem (id p) else ExpenseCollection;
     req_method := if isEdit p then PUT else POST;
     req_no_store := false;
     req_authorization := authHeaders host;
     req_json_content := true;
     req_body :=
       Some {| body_title := title p;
               body_description :=
                 if String.eqb (description p) "" then None else Some (description p);
               body_amount := amount p;
               body_expenseDate := expenseDate p |} |}.

(** [err.message || fallback]. *)
Definition message_or (e : JsError) (fallback : string) : string :=
  if String.eqb (error_message e) "" then fallback else error_message e.

(** performSaveExpense (lines 239-290). *)
Definition performSaveExpense (p : SaveArgs) : M unit :=
  function (
    match base_url host with
    | None =>
        setFormError "API base URL is not configured." ;;
        return_
    | Some b =>
        try_finally
          (try_catch (
             setSaving true ;;
             res <- fetch host (save_request b p) ;;
             when (status res =? 401) (
               alert unauthorized_msg ;;
               set_location_href login_href ;;
               return_) ;;
             when (negb (ok res)) (
               json <- json_catch_null res ;;
               throw (Error (String_ host
                 (js_or (get json "message")
                    (VStr ("Request failed (" ++ string_of_Z (status res) ++ ")")))))) ;;
             setConfirmDialog None ;;
             closeModal ;;
             fetchAll ;;
             showToast (if isEdit p then "Expense updated successfully."
                        else "Expense created successfully.") "success")
           (fun err =>
             console_error ("Save expense failed: " ++ error_message err) ;;
             setFormError (message_or err "Failed to save expense.") ;;
             showToast (message_or err "Failed to save expense.") "error"))
          (setSaving false)
    end).

(** handleSaveExpense (lines 292-332); [e.preventDefault()] has no effect
    on the model. *)
Definition handleSaveExpense : M unit :=
  function (
    setFormError "" ;;
    title <- trim_method (js_or (form_title (expenseForm snap)) (VStr "")) ;;
    description <- trim_method (js_or (form_description (expenseForm snap)) (VStr "")) ;;
    let amount := toNumber (VStr (form_amount (expenseForm snap))) in
    let expenseDate := form_expenseDate (expenseForm snap) in
    when (String.eqb title "") (
      setFormError "Title is required." ;;
      return_) ;;
    when (String.eqb expenseDate "") (
      setFormError "Expense date is required." ;;
      return_) ;;
    when (negb (Number_isFinite amount) || num_leb amount (JFin 0)) (
      setFormError "Amount must be a positive number." ;;
      return_) ;;
    let isEdit :=
      truthy (js_or (get (editingExpense snap) "_id") (get (editingExpense snap) "id")) in
    let id := js_or (get (editingExpense snap) "_id") (get (editingExpense snap) "id") in
    let payload :=
      {| isEdit := isEdit; id := id; title := title; description := description;
         amount := amount; expenseDate := expenseDate |} in
    when isEdit (
      setConfirmDialog (Some
        {| dialog_action := PendingUpdate payload;
           dialog_title := "Confirm Update";
           dialog_message := title ++ baht_line ++ Number_toLocaleString host amount;
           confirmLabel := "Update";
           confirmVariant := "primary" |}) ;;
      return_) ;;
    performSaveExpense payload).

Definition delete_request (b : string) (id : JsValue) : Request :=
  {| req_base := b;
     req_resource := ExpenseItem id;
     req_method := DELETE;
     req_no_store := false;
     req_authorization := authHeaders host;
     req_json_content := false;
     req_body := None |}.

(** performDeleteExpense (lines 334-370). *)
Definition performDeleteExpense (exp : JsValue) : M unit :=
  function (
    let id := js_or (get exp "_id") (get exp "id") in
    when (negb (truthy id)) return_ ;;
    match base_url host with
    | None =>
        showToast "API base URL is not configured." "error" ;;
        return_
    | Some b =>
        try_finally
          (try_catch (
             setSaving true ;;
             res <- fetch host (delete_request b id) ;;
             when (status res =? 401) (
               alert unauthorized_msg ;;
               set_location_href login_href ;;
               return_) ;;
             when (negb (ok res)) (
               json <- json_catch_null res ;;
               throw (Error (String_ host
                 (js_or (get json "message")
                    (VStr ("Delete failed (" ++ string_of_Z (status res) ++ ")")))))) ;;
             setConfirmDialog None ;;
             fetchAll ;;
             showToast "Expense deleted successfully." "success")
           (fun err =>
             console_error ("Delete expense failed: " ++ error_message err) ;;
             showToast ("Failed to delete expense: " ++ error_message err) "error"))
          (setSaving false)
    end).

(** handleDeleteExpense (lines 372-382). *)
Definition handleDeleteExpense (exp : JsValue) : M unit :=
  function (
    when (negb (truthy exp)) return_ ;;
    setConfirmDialog (Some
      {| dialog_action := PendingDelete exp;
         dialog_title := "Confirm Delete";
         dialog_message :=
           String_ host (js_or (get exp "title") (VStr "Untitled")) ++ baht_line
           ++ Number_toLocaleString host (toNumber (get exp "amount"));
         confirmLabel := "Delete";
         confirmVariant := "danger" |})).

(** The confirm button of the dialog (lines 866-874); the handlers it starts
    are not awaited, a rejection stays with them. *)
Definition confirm_onClick (d : ConfirmDialog) : M unit :=
  match dialog_action d with
  | PendingUpdate payload => performSaveExpense payload
  | PendingDelete payload => performDeleteExpense payload
  end.

(** The cancel button of the dialog (line 858). *)
Definition cancel_onClick : M unit := setConfirmDialog None.

(** The change handlers of the form inputs (functional updates of the
    stored form). *)
Definition change_title (v : string) : M unit :=
  modify (fun st => set_expenseForm
    {| form_title := VStr v;
       form_description := form_description (expenseForm st);
       form_amount := form_amount (expenseForm st);
       form_expenseDate := form_expenseDate (expenseForm st) |} st).

Definition change_description (v : string) : M unit :=
  modify (fun st => set_expenseForm
    {| form_title := form_title (expenseForm st);
       form_description := VStr v;
       form_amount := form_amount (expenseForm st);
       form_expenseDate := form_expenseDate (expenseForm st) |} st).

Definition change_amount (v : string) : M unit :=
  modify (fun st => set_expenseForm
    {| form_title := form_title (expenseForm st);
       form_description := form_description (expenseForm st);
       form_amount := v;
       form_expenseDate := form_expenseDate (expenseForm st) |} st).

Definition change_expenseDate (v : string) : M unit :=
  modify (fun st => set_expenseForm
    {| form_title := form_title (expenseForm st);
       form_description := form_description (expenseForm st);
       form_amount := form_amount (expenseForm st);
       form_expenseDate := v |} st).

End Page.

(** ** User interface events

    What the rendered page lets happen: each event runs the handler of the
    current render on the current state.  A control that is not rendered or
    is disabled (lines 512, 677, 761, 827, 834, 847, 857, 865) does nothing.
    Mounting and a change of [apiPeriod] run the effect of lines 233-237. *)

Inductive Action : Type :=
| Mount
| SelectPeriod (p : string)
| ClickLogout
| ClickAddExpense
| ClickEdit (exp : JsValue)
| ClickDelete (exp : JsValue)
| ChangeTitle (v : string)
| ChangeDescription (v : string)
| ChangeAmount (v : string)
| ChangeExpenseDate (v : string)
| ClickCancelForm
| SubmitForm
| ClickCancelConfirm
| ClickConfirm
| TimerFires (i : nat).

(** The expenses table, with its Edit and Delete buttons (lines 512, 677). *)
Definition table_rendered (s : State) : bool :=
  negb (loading s) && negb (String.eqb (apiPeriod s) "yearly").

Definition dispatch (host : Host) (a : Action) : M unit :=
  fun s =>
    (match a with
     | Mount => fetchAll host s
     | SelectPeriod p =>
         let s' := set_selectedPeriod p s in
         setSelectedPeriod p ;;
         when (negb (String.eqb (apiPeriod s') (apiPeriod s))) (fetchAll host s')
     | ClickLogout => handleLogout
     | ClickAddExpense => openCreateModal host
     | ClickEdit exp => when (table_rendered s) (openEditModal host exp)
     | ClickDelete exp => when (table_rendered s) (handleDeleteExpense host exp)
     | ChangeTitle v => when (showExpenseModal s) (change_title v)
     | ChangeDescription v => when (showExpenseModal s) (change_description v)
     | ChangeAmount v => when (showExpenseModal s) (change_amount v)
     | ChangeExpenseDate v => when (showExpenseModal s) (change_expenseDate v)
     | ClickCancelForm =>
         when (showExpenseModal s && negb (saving s)) (closeModal s)
     | SubmitForm =>
         when (showExpenseModal s && negb (saving s)) (handleSaveExpense host s)
     | ClickCancelConfirm =>
         match confirmDialog s with
         | Some _ => when (negb (saving s)) cancel_onClick
         | None => ret tt
         end
     | ClickConfirm =>
         match confirmDialog s with
         | Some d => when (negb (saving s)) (confirm_onClick host s d)
         | None => ret tt
         end
     | TimerFires i =>
         if existsb (Nat.eqb i) (timers s) then
           modify (fun st => set_timers (remove Nat.eq_dec i (timers st)) st) ;;
           toast_timeout
         else ret tt
     end) s.

(** The state of the first render (lines 53-96). *)
Definition initial_state (host : Host) : State :=
  {| selectedPeriod := "monthly";
     loading := true;
     expenses := [];
     expensesDateRange := None;
     periodGroups := [];
     showExpenseModal := false;
     editingExpense := VNull;
     expenseForm := {| form_title := VStr "";
                       form_description := VStr "";
                       form_amount := "";
                       form_expenseDate := formatDateInput host (OfDate (now host)) |};
     formError := "";
     saving := false;
     toast := None;
     toastTimeoutRef := None;
     confirmDialog := None;
     timers := [];
     nextTimer := 1%nat |}.

(** ** Runs and what they show *)

(** The events of a run, and the requests among them. *)
Definition trace_of {A} (r : Completion A * State * list Event) : list Event := snd r.
Definition state_of {A} (r : Completion A * State * list Event) : State := snd (fst r).
Definition completion_of {A} (r : Completion A * State * list Event) : Completion A :=
  fst (fst r).

Fixpoint requests (tr : list Event) : list Request :=
  match tr with
  | [] => []
  | EvFetch req _ :: rest => req :: requests rest
  | _ :: rest => requests rest
  end.

Definition is_location (e : Event) : bool :=
  match e with EvLocation _ => true | _ => false end.

Definition is_console (e : Event) : bool :=
  match e with EvConsoleWarn _ | EvConsoleError _ => true | _ => false end.

Definition is_body_read (e : Event) : bool :=
  match e with EvReadText | EvReadJson => true | _ => false end.

Definition method_eqb (a b : Method) : bool :=
  match a, b with
  | GET, GET | POST, POST | PUT, PUT | DELETE, DELETE => true
  | _, _ => false
  end.

Definition is_period_request (r : Request) : bool :=
  match req_resource r with PeriodSummary _ => true | _ => false end.

Definition is_page_request (r : Request) : bool :=
  match req_resource r with ExpenseList _ _ _ _ => true | _ => false end.

(** The events of the 401 branch, after the request. *)
Definition unauthorized_events : list Event :=
  [EvAlert unauthorized_msg; EvLocation login_href].

(** An event other than a response with status 401, the alert and the
    change of location. *)
Definition clean_event (e : Event) : bool :=
  match e with
  | EvFetch _ (Responded r) => negb (status r =? 401)
  | EvAlert _ | EvLocation _ => false
  | _ => true
  end.

Definition clean (tr : list Event) : bool := forallb clean_event tr.

(** A trace in which a response with status 401, if there is one, comes once
    and is followed by the alert and the move to the login page, and by
    nothing else. *)
Inductive Handled : list Event -> Prop :=
| Handled_clean (tr : list Event) : clean tr = true -> Handled tr
| Handled_401 (pre : list Event) (req : Request) (r : Response) :
    clean pre = true -> status r = 401 ->
    Handled (pre ++ EvFetch req (Responded r) :: unauthorized_events).

(** The fields a load writes from what the server sent. *)
Definition same_loaded_data (st st' : State) : Prop :=
  expenses st' = expenses st
  /\ expensesDateRange st' = expensesDateRange st
  /\ toast st' = toast st
  /\ formError st' = formError st.

(** ** What the handlers leave behind *)

(** The state [showToast] leaves. *)
Definition toast_shown (message type : string) (st : State) : State :=
  state_of (showToast message type st []).

(** The state the [catch] of fetchAll leaves (lines 227-229). *)
Definition load_failed (e : JsError) (st : State) : State :=
  set_loading false
    (toast_shown ("Failed to load money manager data: " ++ error_message e) "error" st).

Definition load_failed_log (e : JsError) : Event :=
  EvConsoleError ("Money manager load failed: " ++ error_message e).

(** The error thrown for a response that is not ok (lines 165-168, 207-210). *)
Definition request_failed (what : string) (r : Response) : JsError :=
  Error (what ++ " request failed (" ++ string_of_Z (status r) ++ "). "
         ++ match body_text r with Some t => t | None => "" end).

(** The records and the page count a page response carries (lines 213, 216). *)
Definition page_list (expJson : JsValue) : list JsValue :=
  match get expJson "data" with
  | VArr items => items
  | _ => []
  end.

Definition page_count (expJson : JsValue) : jsnum :=
  num_or (Number_ (get (get expJson "pagination") "pages")) (JFin 1).

(** The error thrown for a mutation response that is not ok (lines 274-277,
    356-359): the server's message when it sent one. *)
Definition response_error (host : Host) (what : string) (r : Response) : JsError :=
  Error (String_ host
    (js_or (get (match body_json r with Some v => v | None => VNull end) "message")
       (VStr (what ++ " failed (" ++ string_of_Z (status r) ++ ")")))).

(** The state the [catch] of performSaveExpense leaves (lines 284-286). *)
Definition save_failed (e : JsError) (st : State) : State :=
  toast_shown (message_or e "Failed to save expense.") "error"
    (set_formError (message_or e "Failed to save expense.") st).

Definition save_failed_log (e : JsError) : Event :=
  EvConsoleError ("Save expense failed: " ++ error_message e).

(** The state the [catch] of performDeleteExpense leaves (lines 365-366). *)
Definition delete_failed (e : JsError) (st : State) : State :=
  toast_shown ("Failed to delete expense: " ++ error_message e) "error" st.

Definition delete_failed_log (e : JsError) : Event :=
  EvConsoleError ("Delete expense failed: " ++ error_message e).

(** The state [closeModal] leaves. *)
Definition modal_closed (snap st : State) : State :=
  if saving snap then st
  else set_formError "" (set_editingExpense VNull (set_showExpenseModal false st)).

(** [exp?._id || exp?.id]. *)
Definition expense_id (exp : JsValue) : JsValue := js_or (get exp "_id") (get exp "id").

(** The text handleSaveExpense reads from a form field (lines 297-298). *)
Definition field_text (v : JsValue) : option string :=
  match js_or v (VStr "") with
  | VStr s => Some (trim s)
  | _ => None
  end.

(** The payload handleSaveExpense builds from the rendered form
    (lines 297-300, 315-316, 326). *)
Definition form_payload (snap : State) (title description : string) : SaveArgs :=
  {| isEdit := truthy (expense_id (editingExpense snap));
     id := expense_id (editingExpense snap);
     title := title;
     description := description;
     amount := toNumber (VStr (form_amount (expenseForm snap)));
     expenseDate := form_expenseDate (expenseForm snap) |}.

(** The dialog handleSaveExpense stages for an edit (lines 320-327). *)
Definition update_dialog (host : Host) (p : SaveArgs) : ConfirmDialog :=
  {| dialog_action := PendingUpdate p;
     dialog_title := "Confirm Update";
     dialog_message := title p ++ baht_line ++ Number_toLocaleString host (amount p);
     confirmLabel := "Update";
     confirmVariant := "primary" |}.

(** The dialog handleDeleteExpense stages (lines 374-381). *)
Definition delete_dialog (host : Host) (exp : JsValue) : ConfirmDialog :=
  {| dialog_action := PendingDelete exp;
     dialog_title := "Confirm Delete";
     dialog_message :=
       String_ host (js_or (get exp "title") (VStr "Untitled")) ++ baht_line
       ++ Number_toLocaleString host (toNumber (get exp "amount"));
     confirmLabel := "Delete";
     confirmVariant := "danger" |}.

Definition type_error : JsError := Error "trim is not a function".

(** ** Vocabulary of the specification *)

(** A number that is finite and strictly positive. *)
Definition positive_finite (n : jsnum) : Prop :=
  match n with
  | JFin q => (0 < q)%Q
  | _ => False
  end.

Definition chars (s : string) : list ascii := list_ascii_of_string s.

(** *** Numeric literals

    The strings that write a number, after the grammar of ECMAScript
    (StrNumericLiteral): an optional sign before [Infinity] or before
    decimal digits with an optional fraction and exponent, or unsigned
    digits in base 16, 8 or 2 after [0x], [0o] or [0b]. *)

(** A non-empty string of characters of [alphabet]. *)
Definition digits_of (alphabet : string) (s : string) : Prop :=
  s <> "" /\ Forall (fun c => In c (chars alphabet)) (chars s).

Definition DecimalDigits : string -> Prop := digits_of "0123456789".

Definition sign_text (s : string) : Prop := s = "" \/ s = "+" \/ s = "-".

(** Nothing, or what [P] describes. *)
Definition optional (P : string -> Prop) (s : string) : Prop := s = "" \/ P s.

Inductive ExponentPart : string -> Prop :=
| exponent_part (e : ascii) (sign ds : string) :
    e = "e"%char \/ e = "E"%char -> sign_text sign -> DecimalDigits ds ->
    ExponentPart (String e (sign ++ ds)).

Inductive StrUnsignedDecimalLiteral : string -> Prop :=
| unsigned_infinity : StrUnsignedDecimalLiteral "Infinity"
| unsigned_point (ip fp ex : string) :
    DecimalDigits ip -> optional DecimalDigits fp -> optional ExponentPart ex ->
    StrUnsignedDecimalLiteral (ip ++ "." ++ fp ++ ex)
| unsigned_fraction (fp ex : string) :
    DecimalDigits fp -> optional ExponentPart ex ->
    StrUnsignedDecimalLiteral ("." ++ fp ++ ex)
| unsigned_integer (ip ex : string) :
    DecimalDigits ip -> optional ExponentPart ex ->
    StrUnsignedDecimalLiteral (ip ++ ex).

Inductive StrNumericLiteral : string -> Prop :=
| literal_decimal (sign u : string) :
    sign_text sign -> StrUnsignedDecimalLiteral u -> StrNumericLiteral (sign ++ u)
| literal_hex (x : ascii) (ds : string) :
    x = "x"%char \/ x = "X"%char -> digits_of "0123456789abcdefABCDEF" ds ->
    StrNumericLiteral (String "0" (String x ds))
| literal_octal (o : ascii) (ds : string) :
    o = "o"%char \/ o = "O"%char -> digits_of "01234567" ds ->
    StrNumericLiteral (String "0" (String o ds))
| literal_binary (b : ascii) (ds : string) :
    b = "b"%char \/ b = "B"%char -> digits_of "01" ds ->
    StrNumericLiteral (String "0" (String b ds)).

(** Inputs that do not denote a number: undefined, NaN, the infinities,
    objects, arrays of several elements, and every text that, with its commas
    dropped and the white space around it trimmed, is no numeric literal
    ([abc], [1.2.3], [--5], [12 baht], the empty text). *)
Inductive non_numeric : JsValue -> Prop :=
| nn_undefined : non_numeric VUndefined
| nn_NaN : non_numeric (VNum JNaN)
| nn_infinite (neg : bool) : non_numeric (VNum (JInf neg))
| nn_object (fields : list (string * JsValue)) : non_numeric (VObj fields)
| nn_several (x y : JsValue) (rest : list JsValue) : non_numeric (VArr (x :: y :: rest))
| nn_text (s : string) :
    ~ StrNumericLiteral (trim (remove_commas s)) -> non_numeric (VStr s).

(** *** Days and zones *)

(** The number of days of month [m] (1 to 12) of year [y]. *)
Definition DaysInMonth (y m : Z) : Z :=
  if m =? 2 then (if is_leap y then 29 else 28)
  else if (m =? 4) || (m =? 6) || (m =? 9) || (m =? 11) then 30
  else 31.

(** The local time value [x] is shown by the clock of the zone: no clock
    change skips it. *)
Definition shown (zone : Z -> bool -> Z) (x : Z) : Prop :=
  LocalTime zone (UTC zone x) = x.

(** A zone whose clock changes skip neither the first nor the last
    millisecond of a day, and whose offsets differ by less than a day. *)
Definition regular_days (zone : Z -> bool -> Z) : Prop :=
  (forall d, shown zone (MakeDate d 0))
  /\ (forall d, shown zone (MakeDate d (MakeTime 23 59 59 999)))
  /\ (forall x y, zone x false - zone y false < msPerDay).

(** The number of page requests the specification describes for a server
    holding [pgs]: one per page, in order, until the budget of requests is
    spent or an empty page has come. *)
Fixpoint pages_served (budget : nat) (pgs : list (list JsValue)) : nat :=
  match budget, pgs with
  | S budget', p :: rest =>
      match p with
      | [] => 1
      | _ => S (pages_served budget' rest)
      end
  | _, _ => 0
  end.

(** The server holds [pgs] and serves it: it answers the request for a page
    with a success whose body carries the records of that page and the
    number of pages. *)
Definition serves_pages (host : Host) (b : string) (pgs : list (list JsValue)) : Prop :=
  forall h start end_ page limit,
    exists r expJson,
      net host h (expenses_request host b start end_ page limit) = Responded r
      /\ ok r = true
      /\ body_json r = Some expJson
      /\ page_list expJson = nth (Z.to_nat (page - 1)) pgs []
      /\ Number_ (get (get expJson "pagination") "pages")
         = num_of_Z (Z.of_nat (List.length pgs)).

(** A dialog as the page stages it: for an edit by handleSaveExpense, for a
    delete by handleDeleteExpense. *)
Definition staged_by_page (host : Host) (d : ConfirmDialog) : Prop :=
  (exists p, isEdit p = true /\ d = update_dialog host p)
  \/ (exists exp, truthy exp = true /\ d = delete_dialog host exp).

(** The states the page can be in: the first render, and what any event
    leaves, whatever the network answered. *)
Inductive reachable (host : Host) : State -> Prop :=
| reachable_initial : reachable host (initial_state host)
| reachable_event (s : State) (a : Action) (h : list Event) :
    reachable host s -> reachable host (state_of (dispatch host a s h)).

(** ** Hosts and states for the examples *)

Definition status_response (code : Z) : Response :=
  {| status := code; body_text := Some ""; body_json := None |}.

Definition json_response (v : JsValue) : Response :=
  {| status := 200; body_text := None; body_json := Some v |}.

(** A host at UTC+7 on 15 March 2024, with a stored token; dates travel as
    epoch milliseconds. *)
Definition test_host (base : option string)
    (network : list Event -> Request -> FetchResult) : Host :=
  {| API_BASE_URL := base;
     token := Some "t0k3n";
     LocalTZA := fixed 25200000;
     now := 1710498600000;
     Date_parse := fun v =>
       match v with
       | VNum (JFin q) => Some (Qnum q / Zpos (Qden q))
       | _ => None
       end;
     Number_toString := fun n =>
       match n with
       | JNaN => "NaN"
       | JInf neg => if neg then "-Infinity" else "Infinity"
       | JFin q => string_of_Z (Qnum q / Zpos (Qden q))
       end;
     Number_toLocaleString := fun n =>
       match n with
       | JFin q => string_of_Z (Qnum q / Zpos (Qden q))
       | _ => "NaN"
       end;
     net := network |}.

(** No API base URL is configured; the network would fail if it were asked. *)
Definition offline_host : Host :=
  test_host None (fun _ _ => NetworkError "Failed to fetch").

(** Every request is answered 401. *)
Definition expired_host : Host :=
  test_host (Some "https://api.test") (fun _ _ => Responded (status_response 401)).

(** A server holding [pgs], one list of records per page: a page request gets
    its page and the page count, the period request an empty summary, a
    mutation an empty success. *)
Definition page_response (pgs : list (list JsValue)) (page : Z) : Response :=
  json_response
    (VObj [("data", VArr (nth (Z.to_nat (page - 1)) pgs []));
           ("pagination",
            VObj [("pages", VNum (num_of_Z (Z.of_nat (List.length pgs))))])]).

Definition paged_network (pgs : list (list JsValue))
    (_ : list Event) (req : Request) : FetchResult :=
  match req_resource req with
  | PeriodSummary _ => Responded (json_response (VObj [("data", VArr [])]))
  | ExpenseList _ _ page _ => Responded (page_response pgs page)
  | _ => Responded (status_response 204)
  end.

Definition paged_host (pgs : list (list JsValue)) : Host :=
  test_host (Some "https://api.test") (paged_network pgs).

Definition record (i : Z) : JsValue :=
  VObj [("_id", VStr (string_of_Z i)); ("title", VStr "Rent");
        ("amount", VNum (num_of_Z 1200))].

(** [n] pages of one record each, numbered from [k]. *)
Fixpoint single_pages (n : nat) (k : Z) : list (list JsValue) :=
  match n with
  | O => []
  | S n' => [record k] :: single_pages n' (k + 1)
  end.

Definition ready_state : State := set_loading false (initial_state offline_host).

Definition busy_state : State := set_saving true (set_showExpenseModal true ready_state).

(** A period summary whose range starts at 17:30 local time and ends before
    it starts, and a server that sends it. *)
Definition skewed_summary : JsValue :=
  VObj [("dateRange",
         VObj [("startDate", VNum (num_of_Z 1710498600000));
               ("endDate", VNum (num_of_Z 1700000000000))])].

Definition skewed_host : Host :=
  test_host (Some "https://api.test")
    (fun _ req =>
       match req_resource req with
       | PeriodSummary _ => Responded (json_response skewed_summary)
       | _ => NetworkError "Failed to fetch"
       end).

(** A form that passes the checks of handleSaveExpense and is not an edit. *)
Definition sample_form : ExpenseForm :=
  {| form_title := VStr " Office rent ";
     form_description := VStr "";
     form_amount := "1,234";
     form_expenseDate := "2024-03-15" |}.

Definition create_state : State :=
  set_expenseForm sample_form (set_showExpenseModal true ready_state).

Definition blank_title_state : State :=
  set_expenseForm
    {| form_title := VStr "   ";
       form_description := VStr "";
       form_amount := "12";
       form_expenseDate := "2024-03-15" |}
    (set_showExpenseModal true ready_state).

Definition sample_update : SaveArgs :=
  {| isEdit := true; id := VStr "65f0"; title := "Office rent"; description := "";
     amount := JFin 1234; expenseDate := "2024-03-15" |}.

(** States with a staged update and a staged delete. *)
Definition update_staged_state : State :=
  set_confirmDialog (Some (update_dialog offline_host sample_update)) create_state.

Definition delete_staged_state : State :=
  set_confirmDialog (Some (delete_dialog offline_host (record 7))) ready_state.

(** ** getExpenseDate (page.js, lines 43-48) *)

(** The date of a record: its first field among [expenseDate], [date] and
    [createdAt] that is neither null nor undefined, as a valid date, and
    null ([None]) otherwise. *)
Definition getExpenseDate (host : Host) (exp : JsValue) : option Z :=
  let raw :=
    js_nullish
      (js_nullish (js_nullish (get exp "expenseDate") (get exp "date"))
         (get exp "createdAt"))
      VNull in
  if truthy raw then Date_parse host raw else None.

(** The value the table and the edit form read for the date of a record
    (lines 127, 721): [exp?.expenseDate || exp?.date || exp?.createdAt]. *)
Definition displayed_date (exp : JsValue) : JsValue :=
  js_or (js_or (get exp "expenseDate") (get exp "date")) (get exp "createdAt").

(** ** Further vocabulary *)

(** A value that is null or undefined, or truthy: [||] and [??] agree on
    it. *)
Definition nullish_or_truthy (v : JsValue) : bool :=
  match v with
  | VUndefined | VNull => true
  | _ => truthy v
  end.

(** A request to the configured API as the page builds them: sent to the
    base URL with the stored authorisation, uncached when it is a GET, and
    declaring JSON when it carries a body. *)
Definition api_request (host : Host) (q : Request) : Prop :=
  base_url host = Some (req_base q)
  /\ req_authorization q = authHeaders host
  /\ req_no_store q = method_eqb (req_method q) GET
  /\ req_json_content q = match req_body q with Some _ => true | None => false end.

(** The toast and its timer go together: a toast is shown exactly while the
    timer that will hide it is armed, and no other timer is. *)
Definition toast_consistent (s : State) : Prop :=
  match toastTimeoutRef s with
  | Some i => timers s = [i] /\ toast s <> None /\ (i < nextTimer s)%nat
  | None => timers s = [] /\ toast s = None
  end.

(** What a run of fetchAll can leave in the store [st]: the exits of
    lines 141-145, 159-163 and 201-205, the [catch] before and after the
    period groups are stored, and the end of the [try]. *)
Inductive loaded (host : Host) (snap st : State) : State -> Prop :=
| loaded_no_base : loaded host snap st (set_loading false st)
| loaded_unauthorized : loaded host snap st (set_loading true st)
| loaded_failed (e : JsError) :
    loaded host snap st (load_failed e (set_loading true st))
| loaded_pages_unauthorized (periodJson : JsValue) :
    loaded host snap st (set_periodGroups (page_list periodJson) (set_loading true st))
| loaded_pages_failed (periodJson : JsValue) (e : JsError) :
    loaded host snap st
      (load_failed e (set_periodGroups (page_list periodJson) (set_loading true st)))
| loaded_all (periodJson : JsValue) (all : list JsValue) :
    loaded host snap st
      (set_loading false
         (set_expensesDateRange (Some (resolve_range host snap periodJson))
            (set_expenses all
               (set_periodGroups (page_list periodJson) (set_loading true st))))).

(** The outcome of a request that did not succeed and was no 401: no
    response at all, or a response that is not ok. *)
Definition refused (res : FetchResult) : Prop :=
  match res with
  | NetworkError _ => True
  | Responded r => status r <> 401 /\ ok r = false
  end.

(** The error a mutation raises for such an outcome (lines 274-277,
    356-359): the network's, or the one built from the response. *)
Definition failure_of (host : Host) (what : string) (res : FetchResult) : JsError :=
  match res with
  | NetworkError msg => Error msg
  | Responded r => response_error host what r
  end.

(** The events of a refused request: the request, the reading of the body
    of a response, and the log of the [catch]. *)
Definition refused_events (req : Request) (res : FetchResult) (log : Event) : list Event :=
  match res with
  | NetworkError _ => [EvFetch req res; log]
  | Responded _ => [EvFetch req res; EvReadJson; log]
  end.

(** A server that refuses every request with status 422 and a message. *)
Definition refusing_host : Host :=
  test_host (Some "https://api.test")
    (fun _ _ =>
       Responded {| status := 422; body_text := None;
                    body_json := Some (VObj [("message", VStr "Amount is too large")]) |}).

(** The value [read_digits] accumulates over the digits of a decimal
    numeral. *)
Fixpoint horner (acc : Z) (d : Decimal.uint) : Z :=
  match d with
  | Decimal.Nil => acc
  | Decimal.D0 d' => horner (acc * 10 + 0) d'
  | Decimal.D1 d' => horner (acc * 10 + 1) d'
  | Decimal.D2 d' => horner (acc * 10 + 2) d'
  | Decimal.D3 d' => horner (acc * 10 + 3) d'
  | Decimal.D4 d' => horner (acc * 10 + 4) d'
  | Decimal.D5 d' => horner (acc * 10 + 5) d'
  | Decimal.D6 d' => horner (acc * 10 + 6) d'
  | Decimal.D7 d' => horner (acc * 10 + 7) d'
  | Decimal.D8 d' => horner (acc * 10 + 8) d'
  | Decimal.D9 d' => horner (acc * 10 + 9) d'
  end.

(** A byte that starts no white space character. *)
Definition plain (c : ascii) : bool :=
  let b := N_of_ascii c in
  negb ((b =? 32) || ((9 <=? b) && (b <=? 13)) || (b =? 194)
        || (b =? 225) || (b =? 226) || (b =? 227) || (b =? 239))%N.

(** A text without white space: trimming leaves it as it is. *)
Definition no_space (s : string) : bool := forallb plain (chars s).

(** The records the page responses of a trace carried, in the order they
    came. *)
Definition received_event (e : Event) : list JsValue :=
  match e with
  | EvFetch q (Responded r) =>
      if is_page_request q then
        match body_json r with
        | Some expJson => page_list expJson
        | None => []
        end
      else []
  | _ => []
  end.

Definition received (tr : list Event) : list JsValue := flat_map received_event tr.

(** Central European Time under the rule of the European Union: summer time
    from 01:00 UTC of the last Sunday of March to 01:00 UTC of the last
    Sunday of October (applied to every year). *)
Definition last_sunday (y m : Z) : Z :=
  let d := MakeDay y m 31 in d - (d + 4) mod 7.

Definition summer_start (y : Z) : Z := MakeDate (last_sunday y 2) 3600000.
Definition summer_end (y : Z) : Z := MakeDate (last_sunday y 9) 3600000.

Definition central_european (t : Z) (isUTC : bool) : Z :=
  let y := YearFromTime t in
  let shift := if isUTC then 0 else 7200000 in
  if (summer_start y + shift <=? t) && (t <? summer_end y + shift) then 7200000
  else 3600000.

(** The test host moved to that zone. *)
Definition central_european_host : Host :=
  {| API_BASE_URL := None;
     token := None;
     LocalTZA := central_european;
     now := 1710498600000;
     Date_parse := Date_parse offline_host;
     Number_toString := Number_toString offline_host;
     Number_toLocaleString := Number_toLocaleString offline_host;
     net := net offline_host |}.

(** A record whose title is a number. *)
Definition numbered_record : JsValue :=
  VObj [("_id", VStr "65f1"); ("title", VNum (num_of_Z 2024));
        ("amount", VNum (num_of_Z 0))].

(** A zone whose clock goes from 00:00 to 01:00 on 1 October 2017 (as in
    Paraguay that year): UTC-4 before 04:00 UTC of that day, UTC-3 after. *)
Definition skipped_midnight (t : Z) (isUTC : bool) : Z :=
  let change := 1506830400000 in
  if (if isUTC then change else change - 10800000) <=? t then -10800000 else -14400000.

(** * Properties *)

Local Open Scope list_scope.
(** ** Examples of the helpers *)

Example toNumber_grouped : toNumber (VStr "1,234") = JFin 1234.
Proof. vm_compute. reflexivity. Qed.

Example toNumber_decimal : toNumber (VStr " 12.50 ") = JFin (25 # 2).
Proof. vm_compute. reflexivity. Qed.

Example toNumber_exponent : toNumber (VStr "1e3") = JFin 1000.
Proof. vm_compute. reflexivity. Qed.

Example toNumber_hex : toNumber (VStr "0x1F") = JFin 31.
Proof. vm_compute. reflexivity. Qed.

Example toNumber_letters : toNumber (VStr "abc") = JFin 0.
Proof. vm_compute. reflexivity. Qed.

Example toNumber_infinity : toNumber (VStr "-Infinity") = JFin 0.
Proof. vm_compute. reflexivity. Qed.

(** Rounding to binary64: one tenth is the nearest Number value. *)
Example toNumber_tenth :
  toNumber (VStr "0.1") = JFin (3602879701896397 # 36028797018963968).
Proof. vm_compute. reflexivity. Qed.

(** [Number("1e400")] is Infinity and [Number("1e-400")] is 0: both give 0. *)
Example toNumber_overflow : toNumber (VStr "1e400") = JFin 0.
Proof. vm_compute. reflexivity. Qed.

Example toNumber_underflow : toNumber (VStr "1e-400") = JFin 0.
Proof. vm_compute. reflexivity. Qed.

Example toNumber_past_53_bits :
  toNumber (VStr "9007199254740993") = JFin 9007199254740992.
Proof. vm_compute. reflexivity. Qed.

(** White space that is not ASCII: U+00A0 before a numeral, and a text of
    U+00A0 and U+2003 only. *)
Example toNumber_no_break_space :
  toNumber (VStr (String (ascii_of_nat 194) (String (ascii_of_nat 160) "12"))) = JFin 12.
Proof. vm_compute. reflexivity. Qed.

Example trim_unicode_blank :
  trim (String (ascii_of_nat 194) (String (ascii_of_nat 160)
         (String (ascii_of_nat 226) (String (ascii_of_nat 128)
           (String (ascii_of_nat 131) " ")))))
  = "".
Proof. vm_compute. reflexivity. Qed.

(** 2024-03-15T10:30:00Z seen from UTC+7. *)
Example getPeriodDateRange_monthly :
  getPeriodDateRange (fixed 25200000) 1710498600000 "monthly"
  = {| startDate := 1709226000000; endDate := 1710521999999 |}.
Proof. vm_compute. reflexivity. Qed.

Example getPeriodDateRange_6months :
  getPeriodDateRange (fixed 25200000) 1710498600000 "6months"
  = {| startDate := 1696093200000; endDate := 1710521999999 |}.
Proof. vm_compute. reflexivity. Qed.

Example getPeriodDateRange_yearly :
  getPeriodDateRange (fixed 25200000) 1710498600000 "yearly"
  = {| startDate := 1704042000000; endDate := 1710521999999 |}.
Proof. vm_compute. reflexivity. Qed.

(** The same instant in Central European Time: the start of the six months
    is the midnight of 1 October 2023 in summer time (22:00 UTC of the day
    before), the end the last millisecond of 15 March in winter time. *)
Example getPeriodDateRange_6months_summer_time :
  getPeriodDateRange central_european 1710498600000 "6months"
  = {| startDate := 1696111200000; endDate := 1710543599999 |}.
Proof. vm_compute. reflexivity. Qed.

(** ** Number values *)

Lemma Qred_inject_Z (z : Z) : Qred (inject_Z z) = inject_Z z.
Proof.
  unfold Qred, inject_Z.
  pose proof (Z.ggcd_correct_divisors z 1) as Hd.
  pose proof (Z.ggcd_gcd z 1) as Hg.
  destruct (Z.ggcd z 1) as [g [a b]]. cbn [fst snd] in *.
  rewrite Z.gcd_1_r in Hg. subst g. destruct Hd as [Ha Hb].
  assert (Ea : a = z) by lia. assert (Eb : b = 1) by lia. rewrite Ea, Eb. reflexivity.
Qed.

Lemma scale2_exact (m e z : Z) :
  (0 <= e -> m * 2 ^ e = z) -> (e < 0 -> m = z * 2 ^ (- e)) ->
  scale2 m e = inject_Z z.
Proof.
  intros Hpos Hneg. unfold scale2. destruct (Z.leb_spec 0 e) as [He | He].
  - now rewrite Hpos.
  - rewrite <- Qred_inject_Z. apply Qred_complete.
    unfold Qeq, inject_Z. cbn [Qnum Qden].
    rewrite Z2Pos.id by (apply Z.pow_pos_nonneg; lia).
    rewrite (Hneg He). lia.
Qed.

Lemma round_half_even_one (n : Z) : round_half_even n 1 = n.
Proof.
  unfold round_half_even. rewrite Z.div_1_r, Z.mod_1_r. reflexivity.
Qed.

(** An integer of at most 53 bits is a Number value. *)
Lemma round64_integer (z : Z) :
  Z.abs z <= 2 ^ 53 -> round64 (inject_Z z) = JFin (inject_Z z).
Proof.
  intros Hz. unfold round64. cbn [inject_Z Qnum Qden].
  destruct (Z.eqb_spec (Z.abs z) 0) as [H0 | H0].
  { assert (z = 0) by lia. subst z. reflexivity. }
  assert (Hn : 0 < Z.abs z) by lia.
  change (Z.log2 1) with 0. rewrite Z.sub_0_r.
  pose proof (Z.log2_spec (Z.abs z) Hn) as [Hlo Hhi].
  pose proof (Z.log2_nonneg (Z.abs z)) as Hk.
  set (k := Z.log2 (Z.abs z)) in *.
  assert (Hk53 : k <= 53).
  { destruct (Z.le_gt_cases k 53) as [H | H]; [exact H | exfalso].
    assert (2 ^ 54 <= 2 ^ k) by (apply Z.pow_le_mono_r; lia). lia. }
  assert (Hr : reaches (Z.abs z) 1 k = true).
  { unfold reaches. destruct (Z.leb_spec 0 k); [| lia]. apply Z.leb_le. lia. }
  rewrite Hr. rewrite Z.max_l by lia.
  assert (Hsig : signed (z <? 0) (Z.abs z) = z).
  { unfold signed. destruct (Z.ltb_spec z 0); lia. }
  destruct (Z.leb_spec 0 (k - 52)) as [He | He].
  - assert (Hcase : k = 52 \/ k = 53) by lia.
    destruct Hcase as [-> | ->].
    + change (52 - 52) with 0. change (Z.to_pos (2 ^ 0)) with 1%positive.
      change (1 * 1)%positive with 1%positive.
      rewrite round_half_even_one.
      replace ((971 <? 0) || (0 =? 971) && (2 ^ 53 <=? Z.abs z)) with false by reflexivity.
      f_equal. apply scale2_exact; lia.
    + change (53 - 52) with 1. change (Z.to_pos (2 ^ 1)) with 2%positive.
      change (1 * 2)%positive with 2%positive.
      assert (Habs : Z.abs z = 2 ^ 53) by (change (Z.succ 53) with 54 in Hhi; lia).
      rewrite Habs in *.
      change (round_half_even (2 ^ 53) 2) with (2 ^ 52).
      replace ((971 <? 1) || (1 =? 971) && (2 ^ 53 <=? 2 ^ 52)) with false by reflexivity.
      f_equal. apply scale2_exact; [| lia]. intros _.
      unfold signed in *. destruct (z <? 0); lia.
  - rewrite round_half_even_one.
    replace ((971 <? k - 52) || (k - 52 =? 971) && _) with false.
    2:{ symmetry. apply orb_false_iff. split; [apply Z.ltb_ge; lia |].
        apply andb_false_iff. left. apply Z.eqb_neq. lia. }
    f_equal. apply scale2_exact; [lia |]. intros _.
    unfold signed in *. destruct (z <? 0); lia.
Qed.

Lemma round64_not_NaN (q : Q) : round64 q <> JNaN.
Proof.
  unfold round64. destruct (_ =? 0); [discriminate |].
  destruct (_ || _); discriminate.
Qed.

(** ** The parser and the grammar of numeric literals *)

Lemma byte_cases (P : ascii -> Prop) :
  (forall n, (n < 256)%nat -> P (ascii_of_nat n)) -> forall c, P c.
Proof.
  intros H c. rewrite <- (ascii_nat_embedding c). apply H, nat_ascii_bounded.
Qed.

(** The digits of a base are the characters of its alphabet; the premise is
    a check of the 256 bytes. *)
Lemma digit_of_alphabet (base : Z) (alphabet : string) :
  forallb (fun n => Bool.eqb (match digit_of base (ascii_of_nat n) with
                              | Some _ => true
                              | None => false
                              end)
                             (existsb (Ascii.eqb (ascii_of_nat n)) (chars alphabet)))
    (seq 0 256) = true ->
  forall c, digit_of base c <> None <-> In c (chars alphabet).
Proof.
  intros Hall. apply byte_cases. intros n Hn.
  rewrite forallb_forall in Hall.
  specialize (Hall n ltac:(apply in_seq; lia)). apply Bool.eqb_prop in Hall.
  split.
  - intros Hd. destruct (digit_of base (ascii_of_nat n)); [| contradiction].
    symmetry in Hall. apply existsb_exists in Hall. destruct Hall as (x & Hx & Heq).
    apply Ascii.eqb_eq in Heq. now rewrite Heq.
  - intros Hin.
    assert (He : existsb (Ascii.eqb (ascii_of_nat n)) (chars alphabet) = true).
    { apply existsb_exists. exists (ascii_of_nat n). split; [exact Hin |].
      apply Ascii.eqb_refl. }
    rewrite He in Hall. destruct (digit_of base (ascii_of_nat n)); discriminate.
Qed.

Lemma decimal_alphabet (c : ascii) : digit_of 10 c <> None <-> In c (chars "0123456789").
Proof. apply digit_of_alphabet. vm_compute. reflexivity. Qed.

Lemma hex_alphabet (c : ascii) :
  digit_of 16 c <> None <-> In c (chars "0123456789abcdefABCDEF").
Proof. apply digit_of_alphabet. vm_compute. reflexivity. Qed.

Lemma octal_alphabet (c : ascii) : digit_of 8 c <> None <-> In c (chars "01234567").
Proof. apply digit_of_alphabet. vm_compute. reflexivity. Qed.

Lemma binary_alphabet (c : ascii) : digit_of 2 c <> None <-> In c (chars "01").
Proof. apply digit_of_alphabet. vm_compute. reflexivity. Qed.

(** What [read_digits] reads is digits. *)
Lemma read_digits_split (base : Z) (s : string) :
  forall acc len v n rest,
    read_digits base s acc len = (v, n, rest) ->
    exists ds,
      s = (ds ++ rest)%string
      /\ n = len + Z.of_nat (String.length ds)
      /\ Forall (fun c => digit_of base c <> None) (chars ds).
Proof.
  induction s as [| c s IH]; intros acc len v n rest H; cbn [read_digits] in H.
  - injection H as <- <- <-. exists ""%string. cbn. repeat split; [lia | constructor].
  - destruct (digit_of base c) as [d |] eqn:Hd.
    + destruct (IH _ _ _ _ _ H) as (ds & -> & -> & Hall).
      exists (String c ds). cbn [append String.length chars list_ascii_of_string].
      repeat split; [lia |]. constructor; [congruence | exact Hall].
    + injection H as <- <- <-. exists ""%string. cbn. repeat split; [lia | constructor].
Qed.

Lemma read_digits_literal (base : Z) (alphabet s : string) :
  (forall c, digit_of base c <> None <-> In c (chars alphabet)) ->
  forall v n rest,
    read_digits base s 0 0 = (v, n, rest) -> n <> 0 ->
    exists ds, s = (ds ++ rest)%string /\ digits_of alphabet ds.
Proof.
  intros Halpha v n rest H Hn.
  destruct (read_digits_split base s 0 0 v n rest H) as (ds & -> & -> & Hall).
  exists ds. split; [reflexivity |]. split.
  - intros ->. cbn in Hn. lia.
  - eapply Forall_impl; [| exact Hall]. intros c. apply Halpha.
Qed.

Lemma read_digits_none (base : Z) (s : string) (v n : Z) (rest : string) :
  read_digits base s 0 0 = (v, n, rest) -> n = 0 -> rest = s.
Proof.
  intros H Hn.
  destruct (read_digits_split base s 0 0 v n rest H) as (ds & -> & -> & _).
  destruct ds; [reflexivity | cbn in Hn; lia].
Qed.

Lemma append_empty (s : string) : (s ++ "")%string = s.
Proof. induction s; cbn; congruence. Qed.

Lemma read_sign_split (s : string) (neg : bool) (rest : string) :
  read_sign s = (neg, rest) ->
  exists sign, sign_text sign /\ s = (sign ++ rest)%string.
Proof.
  unfold read_sign, sign_text. destruct s as [| c s]; intros H.
  - injection H as <- <-. exists ""%string. auto.
  - destruct (Ascii.eqb_spec c "-") as [-> |].
    { injection H as <- <-. exists "-"%string. auto. }
    destruct (Ascii.eqb_spec c "+") as [-> |].
    { injection H as <- <-. exists "+"%string. auto. }
    injection H as <- <-. exists ""%string. auto.
Qed.

Lemma parse_radix_literal (base : Z) (alphabet ds : string) :
  (forall c, digit_of base c <> None <-> In c (chars alphabet)) ->
  parse_radix base ds <> JNaN -> digits_of alphabet ds.
Proof.
  intros Halpha. unfold parse_radix.
  destruct (read_digits base ds 0 0) as [[v n] rest] eqn:Hr.
  destruct (Z.eqb_spec n 0) as [Hn | Hn]; [cbn; congruence |].
  destruct (String.eqb_spec rest "") as [-> | _]; [| cbn; congruence].
  intros _.
  destruct (read_digits_literal base alphabet ds Halpha v n "" Hr Hn) as (ds' & -> & Hd).
  now rewrite append_empty.
Qed.

(** What [parse_decimal] takes for a number is a decimal literal. *)
Lemma parse_decimal_literal (s : string) :
  parse_decimal s <> JNaN -> StrNumericLiteral s.
Proof.
  unfold parse_decimal.
  destruct (read_sign s) as [neg s1] eqn:Hsign.
  destruct (read_sign_split s neg s1 Hsign) as (sign & Hsg & ->).
  intros H. apply literal_decimal; [exact Hsg |].
  destruct (String.eqb_spec s1 "Infinity") as [-> | _]; [constructor |].
  destruct (read_digits 10 s1 0 0) as [[ip ilen] s2] eqn:Hip.
  assert (Hexp : forall m flen s3,
            (if ilen + flen =? 0 then JNaN
             else
               match s3 with
               | EmptyString => round64 (scale10 (signed neg m) (- flen))
               | String c rest =>
                   if Ascii.eqb c "e" || Ascii.eqb c "E" then
                     let '(eneg, s4) := read_sign rest in
                     let '(ev, elen, s5) := read_digits 10 s4 0 0 in
                     if (elen =? 0) || negb (String.eqb s5 "") then JNaN
                     else round64 (scale10 (signed neg m) (signed eneg ev - flen))
                   else JNaN
               end) <> JNaN ->
            ilen + flen <> 0 /\ optional ExponentPart s3).
  { intros m flen s3 Hne.
    destruct (Z.eqb_spec (ilen + flen) 0) as [| Hlen]; [congruence |].
    split; [exact Hlen |].
    destruct s3 as [| c rest]; [left; reflexivity |]. right.
    destruct (Ascii.eqb c "e" || Ascii.eqb c "E") eqn:He; [| congruence].
    destruct (read_sign rest) as [eneg s4] eqn:Hes.
    destruct (read_sign_split rest eneg s4 Hes) as (esign & Hesg & ->).
    destruct (read_digits 10 s4 0 0) as [[ev elen] s5] eqn:Hev.
    destruct (Z.eqb_spec elen 0) as [| Helen]; [cbn in Hne; congruence |].
    destruct (String.eqb_spec s5 "") as [-> | _]; [| cbn in Hne; congruence].
    destruct (read_digits_literal 10 _ s4 decimal_alphabet ev elen "" Hev Helen)
      as (ds & -> & Hds).
    rewrite append_empty. constructor; [| exact Hesg | exact Hds].
    apply orb_true_iff in He. destruct He as [He | He]; apply Ascii.eqb_eq in He; auto. }
  destruct (Z.eqb_spec ilen 0) as [Hi0 | Hi0].
  - pose proof (read_digits_none 10 s1 ip ilen s2 Hip Hi0) as ->.
    destruct s1 as [| c rest]; [subst ilen; cbn in H; congruence |].
    destruct (Ascii.eqb_spec c ".") as [-> | Hc].
    + destruct (read_digits 10 rest ip 0) as [[m flen] s3] eqn:Hfp.
      destruct (Hexp m flen s3 H) as [Hlen Hex].
      assert (Hf : flen <> 0) by lia.
      destruct (read_digits_split 10 rest ip 0 m flen s3 Hfp) as (fp & -> & Hflen & Hall).
      apply (unsigned_fraction fp s3); [| exact Hex].
      split; [intros ->; cbn in Hflen; lia |].
      eapply Forall_impl; [| exact Hall]. intros c. apply decimal_alphabet.
    + destruct (Hexp ip 0 (String c rest) H) as [Hlen _]. lia.
  - destruct (read_digits_literal 10 _ s1 decimal_alphabet ip ilen s2 Hip Hi0)
      as (ds & -> & Hds).
    destruct s2 as [| c rest].
    + destruct (Hexp ip 0 ""%string H) as [_ Hex].
      apply (unsigned_integer ds ""%string); [exact Hds | exact Hex].
    + destruct (Ascii.eqb_spec c ".") as [-> | Hc].
      * destruct (read_digits 10 rest ip 0) as [[m flen] s3] eqn:Hfp.
        destruct (Hexp m flen s3 H) as [_ Hex].
        destruct (read_digits_split 10 rest ip 0 m flen s3 Hfp) as (fp & -> & Hflen & Hall).
        change (String "." (fp ++ s3))%string with ("." ++ fp ++ s3)%string.
        apply (unsigned_point ds fp s3); [exact Hds | | exact Hex].
        destruct fp as [| c fp]; [left; reflexivity | right].
        split; [discriminate |].
        eapply Forall_impl; [| exact Hall]. intros c0. apply decimal_alphabet.
      * destruct (Hexp ip 0 (String c rest) H) as [_ Hex].
        apply (unsigned_integer ds (String c rest)); [exact Hds | exact Hex].
Qed.

(** What [Number] takes for a number in a text is, once trimmed, nothing or
    a numeric literal. *)
Lemma StringToNumber_literal (s : string) :
  StringToNumber s <> JNaN -> trim s = ""%string \/ StrNumericLiteral (trim s).
Proof.
  unfold StringToNumber. destruct (trim s) as [| c0 [| c1 ds]]; [auto | |].
  - intros H. right. apply parse_decimal_literal, H.
  - intros H. right.
    destruct (Ascii.eqb_spec c0 "0") as [-> | _]; [| apply parse_decimal_literal, H].
    destruct (Ascii.eqb c1 "x" || Ascii.eqb c1 "X") eqn:Hx.
    { apply literal_hex; [| apply (parse_radix_literal 16); [apply hex_alphabet | exact H]].
      apply orb_true_iff in Hx. destruct Hx as [Hx | Hx]; apply Ascii.eqb_eq in Hx; auto. }
    destruct (Ascii.eqb c1 "o" || Ascii.eqb c1 "O") eqn:Ho.
    { apply literal_octal; [| apply (parse_radix_literal 8); [apply octal_alphabet | exact H]].
      apply orb_true_iff in Ho. destruct Ho as [Ho | Ho]; apply Ascii.eqb_eq in Ho; auto. }
    destruct (Ascii.eqb c1 "b" || Ascii.eqb c1 "B") eqn:Hb.
    { apply literal_binary; [| apply (parse_radix_literal 2); [apply binary_alphabet | exact H]].
      apply orb_true_iff in Hb. destruct Hb as [Hb | Hb]; apply Ascii.eqb_eq in Hb; auto. }
    apply parse_decimal_literal, H.
Qed.

(** *** Every literal is taken for a number *)

Lemma white_len_plain (c : ascii) (rest : string) :
  plain c = true -> white_len (String c rest) = 0%nat.
Proof.
  unfold plain, white_len. intros H. apply negb_true_iff in H.
  repeat (apply orb_false_iff in H; destruct H as [H ?]).
  repeat match goal with
         | E : _ = false |- _ => rewrite E; clear E
         end.
  reflexivity.
Qed.

Lemma trim_start_plain (c : ascii) (rest : string) :
  plain c = true -> trim_start (String c rest) = String c rest.
Proof.
  intros H. unfold trim_start. cbn [String.length drop_white].
  now rewrite (white_len_plain c rest H).
Qed.

Lemma trim_end_no_space (s : string) : no_space s = true -> trim_end s = s.
Proof.
  unfold no_space, chars. induction s as [| c rest IH]; [reflexivity |].
  cbn [list_ascii_of_string forallb trim_end]. intros H.
  apply andb_true_iff in H. destruct H as [Hc Hrest].
  unfold all_white. rewrite (trim_start_plain c rest Hc), (IH Hrest). reflexivity.
Qed.

Lemma trim_no_space (s : string) : no_space s = true -> trim s = s.
Proof.
  intros H. unfold trim.
  assert (Hs : trim_start s = s).
  { destruct s as [| c rest]; [reflexivity |].
    unfold no_space, chars in H. cbn [list_ascii_of_string forallb] in H.
    apply andb_true_iff in H. destruct H as [Hc _].
    apply trim_start_plain, Hc. }
  rewrite Hs. apply trim_end_no_space, H.
Qed.

Lemma no_space_app (a b : string) : no_space (a ++ b) = no_space a && no_space b.
Proof.
  unfold no_space, chars. induction a as [| c a IH]; [reflexivity |].
  cbn [append list_ascii_of_string forallb]. rewrite IH. apply andb_assoc.
Qed.

Lemma digits_no_space (alphabet ds : string) :
  forallb plain (chars alphabet) = true -> digits_of alphabet ds -> no_space ds = true.
Proof.
  intros Halpha [_ Hall]. unfold no_space. apply forallb_forall. intros c Hc.
  rewrite Forall_forall in Hall. rewrite forallb_forall in Halpha. auto.
Qed.

Lemma sign_no_space (sign : string) : sign_text sign -> no_space sign = true.
Proof. intros [-> | [-> | ->]]; reflexivity. Qed.

Lemma exponent_no_space (ex : string) : optional ExponentPart ex -> no_space ex = true.
Proof.
  intros [-> | Hex]; [reflexivity |].
  destruct Hex as [e sign ds He Hsg Hds].
  change (String e (sign ++ ds))%string with (String e "" ++ sign ++ ds)%string.
  rewrite !no_space_app, (sign_no_space sign Hsg),
    (digits_no_space "0123456789" ds eq_refl Hds).
  destruct He as [-> | ->]; reflexivity.
Qed.

Lemma literal_no_space (s : string) : StrNumericLiteral s -> no_space s = true.
Proof.
  assert (Hopt : forall fp, optional DecimalDigits fp -> no_space fp = true).
  { intros fp [-> | Hfp]; [reflexivity |].
    apply (digits_no_space "0123456789"); [reflexivity | exact Hfp]. }
  intros Hs. destruct Hs as [sign u Hsg Hu | x ds Hx Hds | o ds Ho Hds | b ds Hb Hds].
  - rewrite no_space_app, (sign_no_space sign Hsg). cbn [andb].
    destruct Hu as [| ip fp ex Hip Hfp Hex | fp ex Hfp Hex | ip ex Hip Hex].
    + reflexivity.
    + rewrite !no_space_app, (digits_no_space "0123456789" ip eq_refl Hip),
        (Hopt fp Hfp), (exponent_no_space ex Hex). reflexivity.
    + rewrite !no_space_app, (digits_no_space "0123456789" fp eq_refl Hfp),
        (exponent_no_space ex Hex). reflexivity.
    + rewrite !no_space_app, (digits_no_space "0123456789" ip eq_refl Hip),
        (exponent_no_space ex Hex). reflexivity.
  - change (String "0" (String x ds)) with (String "0" (String x "") ++ ds)%string.
    rewrite no_space_app, (digits_no_space "0123456789abcdefABCDEF" ds eq_refl Hds).
    destruct Hx as [-> | ->]; reflexivity.
  - change (String "0" (String o ds)) with (String "0" (String o "") ++ ds)%string.
    rewrite no_space_app, (digits_no_space "01234567" ds eq_refl Hds).
    destruct Ho as [-> | ->]; reflexivity.
  - change (String "0" (String b ds)) with (String "0" (String b "") ++ ds)%string.
    rewrite no_space_app, (digits_no_space "01" ds eq_refl Hds).
    destruct Hb as [-> | ->]; reflexivity.
Qed.

(** [read_digits] reads all the digits before something that starts with
    none. *)
Lemma read_digits_all (base : Z) (alphabet ds rest : string) :
  (forall c, digit_of base c <> None <-> In c (chars alphabet)) ->
  Forall (fun c => In c (chars alphabet)) (chars ds) ->
  (forall c tail, rest = String c tail -> digit_of base c = None) ->
  forall acc len,
    exists v, read_digits base (ds ++ rest) acc len
              = (v, len + Z.of_nat (String.length ds), rest).
Proof.
  intros Halpha Hall Hstop. induction ds as [| c ds IH]; intros acc len.
  - exists acc. cbn [append String.length Z.of_nat]. rewrite Z.add_0_r.
    destruct rest as [| c tail]; [reflexivity |].
    cbn [read_digits]. now rewrite (Hstop c tail eq_refl).
  - cbn [chars list_ascii_of_string] in Hall. apply Forall_cons_iff in Hall.
    destruct Hall as [Hc Hall]. apply Halpha in Hc.
    cbn [append read_digits]. destruct (digit_of base c) as [d |]; [| contradiction].
    destruct (IH Hall (acc * base + d) (len + 1)) as (v & Hv).
    exists v. rewrite Hv. f_equal. f_equal. cbn [String.length]. lia.
Qed.

Lemma read_sign_plain (c : ascii) (tail : string) :
  Ascii.eqb c "-" = false -> Ascii.eqb c "+" = false ->
  read_sign (String c tail) = (false, String c tail).
Proof. intros H1 H2. unfold read_sign. now rewrite H1, H2. Qed.

Lemma read_sign_digits (ds rest : string) :
  DecimalDigits ds -> read_sign (ds ++ rest) = (false, (ds ++ rest)%string).
Proof.
  intros [Hne Hall]. destruct ds as [| c ds]; [contradiction |].
  apply Forall_inv in Hall. cbn [append].
  apply read_sign_plain; cbn in Hall;
    repeat (destruct Hall as [<- | Hall]; [reflexivity |]); contradiction.
Qed.

Lemma read_sign_signed (sign rest : string) :
  sign_text sign ->
  (forall c tail, rest = String c tail ->
     Ascii.eqb c "-" = false /\ Ascii.eqb c "+" = false) ->
  exists neg, read_sign (sign ++ rest) = (neg, rest).
Proof.
  intros [-> | [-> | ->]] Hrest; [| exists false; reflexivity | exists true; reflexivity].
  exists false. cbn [append]. destruct rest as [| c tail]; [reflexivity |].
  destruct (Hrest c tail eq_refl). now apply read_sign_plain.
Qed.

Lemma digits_head (ds rest : string) (c : ascii) (tail : string) :
  DecimalDigits ds -> (ds ++ rest)%string = String c tail -> In c (chars "0123456789").
Proof.
  intros [Hne Hall] Heq. destruct ds as [| c' ds]; [contradiction |].
  apply Forall_inv in Hall. cbn [append] in Heq. now injection Heq as <- _.
Qed.

Lemma exponent_head (ex : string) (c : ascii) (tail : string) :
  optional ExponentPart ex -> ex = String c tail -> c = "e"%char \/ c = "E"%char.
Proof.
  intros [-> | Hex] Heq; [discriminate |].
  destruct Hex as [e sign ds He _ _]. now injection Heq as <- _.
Qed.

Lemma exponent_stops (ex : string) :
  optional ExponentPart ex ->
  forall c tail, ex = String c tail -> digit_of 10 c = None.
Proof.
  intros Hex c tail Heq. destruct (exponent_head ex c tail Hex Heq) as [-> | ->]; reflexivity.
Qed.

Lemma digits_length (alphabet ds : string) :
  digits_of alphabet ds -> 0 < Z.of_nat (String.length ds).
Proof. intros [Hne _]. destruct ds; [contradiction | cbn [String.length]; lia]. Qed.

(** The exponent part of a literal is read to the end. *)
Lemma exponent_accepts (neg : bool) (m ilen flen : Z) (ex : string) :
  ilen + flen <> 0 -> optional ExponentPart ex ->
  (if ilen + flen =? 0 then JNaN
   else
     match ex with
     | EmptyString => round64 (scale10 (signed neg m) (- flen))
     | String c rest =>
         if Ascii.eqb c "e" || Ascii.eqb c "E" then
           let '(eneg, s4) := read_sign rest in
           let '(ev, elen, s5) := read_digits 10 s4 0 0 in
           if (elen =? 0) || negb (String.eqb s5 "") then JNaN
           else round64 (scale10 (signed neg m) (signed eneg ev - flen))
         else JNaN
     end) <> JNaN.
Proof.
  intros Hlen Hex. destruct (Z.eqb_spec (ilen + flen) 0); [contradiction |].
  destruct Hex as [-> | Hex]; [apply round64_not_NaN |].
  destruct Hex as [e sign ds He Hsg Hds].
  replace (Ascii.eqb e "e" || Ascii.eqb e "E") with true
    by (destruct He as [-> | ->]; reflexivity).
  destruct (read_sign_signed sign ds Hsg) as (eneg & Hsign).
  { intros c tail Heq. rewrite <- (append_empty ds) in Heq.
    pose proof (digits_head ds "" c tail Hds Heq) as Hin. cbn in Hin.
    repeat (destruct Hin as [<- | Hin]; [split; reflexivity |]). contradiction. }
  rewrite Hsign.
  destruct (read_digits_all 10 "0123456789" ds "" decimal_alphabet (proj2 Hds)
              ltac:(discriminate) 0 0) as (ev & Hev).
  rewrite append_empty in Hev. rewrite Hev.
  pose proof (digits_length _ ds Hds) as Hn.
  destruct (Z.eqb_spec (0 + Z.of_nat (String.length ds)) 0); [lia |].
  cbn [orb negb String.eqb]. apply round64_not_NaN.
Qed.

(** A decimal literal is taken for a number. *)
Lemma parse_decimal_accepts (sign u : string) :
  sign_text sign -> StrUnsignedDecimalLiteral u -> parse_decimal (sign ++ u) <> JNaN.
Proof.
  intros Hsg Hu. unfold parse_decimal.
  destruct (read_sign_signed sign u Hsg) as (neg & Hsign).
  { intros c tail Heq.
    assert (Hin : In c (chars ".I0123456789")).
    { destruct Hu as [| ip fp ex Hip _ _ | fp ex _ _ | ip ex Hip _].
      - injection Heq as <- _. cbn. tauto.
      - pose proof (digits_head ip _ c tail Hip Heq) as H. cbn in H |- *. tauto.
      - injection Heq as <- _. cbn. tauto.
      - pose proof (digits_head ip _ c tail Hip Heq) as H. cbn in H |- *. tauto. }
    cbn in Hin. repeat (destruct Hin as [<- | Hin]; [split; reflexivity |]).
    contradiction. }
  rewrite Hsign.
  destruct (String.eqb_spec u "Infinity") as [| Hinf]; [discriminate |].
  assert (Hstop : forall fp ex, optional ExponentPart ex ->
            forall c tail, ("." ++ fp ++ ex)%string = String c tail ->
                           digit_of 10 c = None).
  { intros fp ex _ c tail Heq. injection Heq as <- _. reflexivity. }
  assert (Hfrac : forall fp ex acc, optional DecimalDigits fp -> optional ExponentPart ex ->
            exists m, read_digits 10 (fp ++ ex) acc 0
                      = (m, Z.of_nat (String.length fp), ex)).
  { intros fp ex acc Hfp Hex.
    assert (Hall : Forall (fun c => In c (chars "0123456789")) (chars fp))
      by (destruct Hfp as [-> | [_ H]]; [constructor | exact H]).
    destruct (read_digits_all 10 "0123456789" fp ex decimal_alphabet Hall
                (exponent_stops ex Hex) acc 0) as (m & Hm).
    exists m. rewrite Hm. reflexivity. }
  destruct Hu as [| ip fp ex Hip Hfp Hex | fp ex Hfp Hex | ip ex Hip Hex].
  - contradiction.
  - destruct (read_digits_all 10 "0123456789" ip ("." ++ fp ++ ex) decimal_alphabet
                (proj2 Hip) (Hstop fp ex Hex) 0 0) as (v & Hv).
    rewrite Hv. cbn [append]. change (Ascii.eqb "." ".") with true. cbv iota.
    destruct (Hfrac fp ex v Hfp Hex) as (m & Hm). rewrite Hm.
    apply exponent_accepts; [| exact Hex].
    pose proof (digits_length _ ip Hip). lia.
  - destruct (read_digits_all 10 "0123456789" "" ("." ++ fp ++ ex) decimal_alphabet
                ltac:(constructor) (Hstop fp ex Hex) 0 0) as (v & Hv).
    cbn [append] in Hv |- *. rewrite Hv. change (Ascii.eqb "." ".") with true. cbv iota.
    destruct (Hfrac fp ex v (or_intror Hfp) Hex) as (m & Hm). rewrite Hm.
    apply exponent_accepts; [| exact Hex].
    pose proof (digits_length _ fp Hfp). lia.
  - destruct (read_digits_all 10 "0123456789" ip ex decimal_alphabet
                (proj2 Hip) (exponent_stops ex Hex) 0 0) as (v & Hv).
    rewrite Hv.
    assert (Hlen : 0 + Z.of_nat (String.length ip) + 0 <> 0)
      by (pose proof (digits_length _ ip Hip); lia).
    destruct ex as [| c tail].
    + exact (exponent_accepts neg v _ 0 "" Hlen Hex).
    + replace (Ascii.eqb c ".") with false
        by (destruct (exponent_head _ c tail Hex eq_refl) as [-> | ->]; reflexivity).
      exact (exponent_accepts neg v _ 0 (String c tail) Hlen Hex).
Qed.

(** After a leading zero a decimal literal goes on with a digit, a point or
    an exponent: with none of the radix letters. *)
Lemma decimal_after_zero (sign u : string) (c : ascii) (tail : string) :
  sign_text sign -> StrUnsignedDecimalLiteral u ->
  (sign ++ u)%string = String "0" (String c tail) ->
  In c (chars "0123456789.eE").
Proof.
  intros Hsg Hu Heq.
  destruct Hsg as [-> | [-> | ->]]; [| discriminate | discriminate].
  cbn [append] in Heq.
  assert (Hdigits : forall ip rest, DecimalDigits ip ->
            (forall c' t', rest = String c' t' -> In c' (chars ".eE")) ->
            (ip ++ rest)%string = String "0" (String c tail) ->
            In c (chars "0123456789.eE")).
  { intros ip rest [Hne Hall] Hrest Hip. destruct ip as [| c0 ip]; [contradiction |].
    cbn [append] in Hip. injection Hip as _ Hip.
    destruct ip as [| c1 ip].
    - cbn [append] in Hip. pose proof (Hrest c tail Hip) as H. cbn in H |- *. tauto.
    - cbn [append] in Hip. injection Hip as <- _.
      apply Forall_inv_tail, Forall_inv in Hall. cbn in Hall |- *. tauto. }
  destruct Hu as [| ip fp ex Hip _ _ | fp ex _ _ | ip ex Hip Hex].
  - discriminate.
  - apply (Hdigits ip ("." ++ fp ++ ex)%string Hip); [| exact Heq].
    intros c' t' H. injection H as <- _. cbn. tauto.
  - discriminate.
  - apply (Hdigits ip ex Hip); [| exact Heq].
    intros c' t' H. destruct (exponent_head ex c' t' Hex H) as [-> | ->]; cbn; tauto.
Qed.

Lemma parse_radix_accepts (base : Z) (alphabet ds : string) :
  (forall c, digit_of base c <> None <-> In c (chars alphabet)) ->
  digits_of alphabet ds -> parse_radix base ds <> JNaN.
Proof.
  intros Halpha [Hne Hall]. unfold parse_radix.
  destruct (read_digits_all base alphabet ds "" Halpha Hall ltac:(discriminate) 0 0)
    as (v & Hv).
  rewrite append_empty in Hv. rewrite Hv.
  pose proof (digits_length alphabet ds (conj Hne Hall)) as Hn.
  destruct (Z.eqb_spec (0 + Z.of_nat (String.length ds)) 0); [lia |].
  cbn [orb negb String.eqb]. apply round64_not_NaN.
Qed.

(** Every numeric literal is taken for a number. *)
Lemma StringToNumber_accepts (t : string) :
  StrNumericLiteral t -> StringToNumber t <> JNaN.
Proof.
  intros Ht. unfold StringToNumber.
  rewrite (trim_no_space t (literal_no_space t Ht)).
  destruct Ht as [sign u Hsg Hu | x ds Hx Hds | o ds Ho Hds | b ds Hb Hds].
  - pose proof (parse_decimal_accepts sign u Hsg Hu) as Hdec.
    pose proof (decimal_after_zero sign u) as Hzero.
    destruct (sign ++ u)%string as [| c0 [| c1 ds]]; [discriminate | exact Hdec |].
    destruct (Ascii.eqb_spec c0 "0") as [-> | _]; [| exact Hdec].
    specialize (Hzero c1 ds Hsg Hu eq_refl). cbn in Hzero.
    repeat (destruct Hzero as [<- | Hzero]; [exact Hdec |]). contradiction.
  - rewrite Ascii.eqb_refl.
    replace (Ascii.eqb x "x" || Ascii.eqb x "X") with true
      by (destruct Hx as [-> | ->]; reflexivity).
    apply (parse_radix_accepts 16 _ ds hex_alphabet Hds).
  - rewrite Ascii.eqb_refl.
    replace (Ascii.eqb o "x" || Ascii.eqb o "X") with false
      by (destruct Ho as [-> | ->]; reflexivity).
    replace (Ascii.eqb o "o" || Ascii.eqb o "O") with true
      by (destruct Ho as [-> | ->]; reflexivity).
    apply (parse_radix_accepts 8 _ ds octal_alphabet Hds).
  - rewrite Ascii.eqb_refl.
    replace (Ascii.eqb b "x" || Ascii.eqb b "X") with false
      by (destruct Hb as [-> | ->]; reflexivity).
    replace (Ascii.eqb b "o" || Ascii.eqb b "O") with false
      by (destruct Hb as [-> | ->]; reflexivity).
    replace (Ascii.eqb b "b" || Ascii.eqb b "B") with true
      by (destruct Hb as [-> | ->]; reflexivity).
    apply (parse_radix_accepts 2 _ ds binary_alphabet Hds).
Qed.

(** The texts [Number] turns into NaN are those that, once trimmed, are
    neither empty nor a numeric literal. *)
Lemma StringToNumber_NaN (s : string) :
  StringToNumber s = JNaN <-> trim s <> ""%string /\ ~ StrNumericLiteral (trim s).
Proof.
  split.
  - intros Hn. split.
    + intros He. unfold StringToNumber in Hn. rewrite He in Hn. discriminate.
    + intros Hl. apply (StringToNumber_accepts (trim s) Hl).
      unfold StringToNumber in *.
      now rewrite (trim_no_space (trim s) (literal_no_space (trim s) Hl)).
  - intros [He Hl]. destruct (StringToNumber s) eqn:Hn; [reflexivity | |];
      (destruct (StringToNumber_literal s); [congruence | contradiction | contradiction]).
Qed.

(** ** toNumber *)

Lemma toNumber_text (s : string) :
  ~ StrNumericLiteral (trim (remove_commas s)) -> toNumber (VStr s) = JFin 0.
Proof.
  intros Hs. unfold toNumber. cbn [Number_].
  destruct (StringToNumber (remove_commas s)) as [| neg | q] eqn:Hn; try reflexivity.
  destruct (StringToNumber_literal (remove_commas s)) as [He | Hl];
    [congruence | | contradiction].
  unfold StringToNumber in Hn. rewrite He in Hn. rewrite <- Hn. reflexivity.
Qed.

(** A numeric literal starts with a sign, a point, a digit or the I of
    Infinity. *)
Lemma StrNumericLiteral_head (s : string) :
  StrNumericLiteral s ->
  exists c rest, s = String c rest /\ In c (chars "+-.I0123456789").
Proof.
  assert (Hdig : forall ds rest, DecimalDigits ds ->
            exists c tail, (ds ++ rest)%string = String c tail
                           /\ In c (chars "+-.I0123456789")).
  { intros ds rest [Hne Hall]. destruct ds as [| c ds]; [contradiction |].
    exists c, (ds ++ rest)%string. split; [reflexivity |].
    apply Forall_inv in Hall. cbn in Hall |- *. tauto. }
  assert (Hun : forall u, StrUnsignedDecimalLiteral u ->
            exists c tail, u = String c tail /\ In c (chars "+-.I0123456789")).
  { intros u Hu. destruct Hu as [| ip fp ex Hip _ _ | fp ex _ _ | ip ex Hip _].
    - eexists _, _. split; [reflexivity |]. cbn. tauto.
    - apply Hdig, Hip.
    - eexists _, _. split; [reflexivity |]. cbn. tauto.
    - apply Hdig, Hip. }
  intros Hs. destruct Hs as [sign u Hsg Hu | x ds _ _ | o ds _ _ | b ds _ _];
    try (eexists _, _; split; [reflexivity |]; cbn; tauto).
  destruct Hsg as [-> | [-> | ->]].
  - apply Hun, Hu.
  - eexists _, _. split; [reflexivity |]. cbn. tauto.
  - eexists _, _. split; [reflexivity |]. cbn. tauto.
Qed.



(** The texts of the specification's kind, by what [Number] makes of them. *)
Lemma non_numeric_text (s : string) :
  StringToNumber (remove_commas s) = JNaN -> non_numeric (VStr s).
Proof.
  intros Hn. apply nn_text. apply StringToNumber_NaN in Hn. tauto.
Qed.

Example non_numeric_letters : non_numeric (VStr "abc").
Proof. apply non_numeric_text. vm_compute. reflexivity. Qed.

Example non_numeric_two_points : non_numeric (VStr "1.2.3").
Proof. apply non_numeric_text. vm_compute. reflexivity. Qed.

Example non_numeric_two_signs : non_numeric (VStr "--5").
Proof. apply non_numeric_text. vm_compute. reflexivity. Qed.

Example non_numeric_unit : non_numeric (VStr "12 baht").
Proof. apply non_numeric_text. vm_compute. reflexivity. Qed.

(** A numeral after a no-break space is numeric: it is no such text. *)
Example numeric_after_no_break_space :
  ~ non_numeric (VStr (String (ascii_of_nat 194) (String (ascii_of_nat 160) "12"))).
Proof.
  intros H. inversion H as [| | | | | s Hl Heq]. apply Hl.
  change (trim (remove_commas (String (ascii_of_nat 194) (String (ascii_of_nat 160) "12"))))
    with ("" ++ "12")%string.
  apply literal_decimal; [left; reflexivity |].
  apply (unsigned_integer "12" ""); [| left; reflexivity].
  split; [discriminate |]. cbn. repeat constructor; cbn; tauto.
Qed.

(** ** The calendar and the fallback range *)
Lemma DayFromYear_succ (y : Z) : DayFromYear (y + 1) = DayFromYear y + DaysInYear y.
Proof.
  unfold DayFromYear, DaysInYear, is_leap.
  destruct (y mod 4 =? 0) eqn:E4; destruct (y mod 100 =? 0) eqn:E100;
    destruct (y mod 400 =? 0) eqn:E400; cbn [andb orb negb];
    rewrite ?Z.eqb_eq, ?Z.eqb_neq in *;
    Z.div_mod_to_equations; lia.
Qed.

Lemma YearFromDay_spec (d : Z) :
  DayFromYear (YearFromDay d) <= d < DayFromYear (YearFromDay d + 1).
Proof.
  unfold YearFromDay, DayFromYear.
  Z.div_mod_to_equations. lia.
Qed.
Lemma YearFromDay_nonneg (d : Z) : 0 <= d -> 1970 <= YearFromDay d.
Proof.
  intros Hd. pose proof (YearFromDay_spec d) as [_ H].
  revert H. generalize (YearFromDay d). intros y. unfold DayFromYear.
  Z.div_mod_to_equations. lia.
Qed.

Lemma month_start_MonthFromTime (t : Z) :
  month_start (InLeapYear t) (MonthFromTime t) <= DayWithinYear t.
Proof.
  pose proof (YearFromDay_spec (Day t)) as [H _].
  unfold MonthFromTime, DayWithinYear, YearFromTime.
  set (d := Day t - _). assert (0 <= d) by (unfold d; lia).
  generalize (InLeapYear t). intros l.
  repeat match goal with
         | |- context [?a <? ?b] => destruct (Z.ltb_spec a b)
         end; unfold month_start;
    repeat match goal with
           | |- context [?a =? ?b] => destruct (Z.eqb_spec a b)
           end; lia.
Qed.

Lemma MonthFromTime_range (t : Z) : 0 <= MonthFromTime t <= 11.
Proof.
  unfold MonthFromTime.
  repeat match goal with
         | |- context [?a <? ?b] => destruct (Z.ltb_spec a b)
         end; lia.
Qed.

Lemma month_start_range (l m : Z) : 0 <= l <= 1 -> 0 <= month_start l m <= 335.
Proof.
  intros Hl. unfold month_start.
  repeat match goal with
         | |- context [?a =? ?b] => destruct (Z.eqb_spec a b)
         end; lia.
Qed.

Lemma month_start_mono (l m1 m2 : Z) :
  0 <= l <= 1 -> 0 <= m1 <= m2 -> month_start l m1 <= month_start l m2.
Proof.
  intros Hl Hm. unfold month_start.
  repeat match goal with
         | |- context [?a =? ?b] => destruct (Z.eqb_spec a b)
         end; lia.
Qed.

Lemma leap_flag_range (y : Z) : 0 <= (if is_leap y then 1 else 0) <= 1.
Proof. destruct (is_leap y); lia. Qed.

Lemma DayFromYear_pred (y : Z) : DayFromYear (y - 1) + 365 <= DayFromYear y.
Proof.
  replace y with ((y - 1) + 1) at 2 by lia. rewrite DayFromYear_succ.
  unfold DaysInYear. destruct (is_leap (y - 1)); lia.
Qed.

(** The first day of the current month is not after today. *)
Lemma MakeDay_month_le (t : Z) :
  MakeDay (YearFromTime t) (MonthFromTime t) 1 <= Day t.
Proof.
  pose proof (MonthFromTime_range t) as Hm.
  pose proof (month_start_MonthFromTime t) as Hs.
  unfold MakeDay. rewrite Z.div_small, Z.mod_small, Z.add_0_r by lia.
  unfold InLeapYear, DayWithinYear in Hs. lia.
Qed.

(** Going back by up to eleven months does not move the first of the month
    forward. *)
Lemma MakeDay_back_le (y m k : Z) :
  0 <= m <= 11 -> 0 <= k <= 11 -> MakeDay y (m - k) 1 <= MakeDay y m 1.
Proof.
  intros Hm Hk. unfold MakeDay.
  rewrite (Z.div_small m), (Z.mod_small m) by lia.
  destruct (Z.le_gt_cases k m) as [Hle | Hgt].
  - rewrite Z.div_small, Z.mod_small by lia.
    pose proof (month_start_mono (if is_leap (y + 0) then 1 else 0) (m - k) m
                  (leap_flag_range _)). lia.
  - replace ((m - k) / 12) with (-1) by (Z.div_mod_to_equations; lia).
    pose proof (month_start_range (if is_leap (y + -1) then 1 else 0) ((m - k) mod 12)
                  (leap_flag_range _)).
    pose proof (month_start_range (if is_leap (y + 0) then 1 else 0) m
                  (leap_flag_range _)).
    pose proof (DayFromYear_pred y).
    replace (y + -1) with (y - 1) in * by lia.
    replace (y + 0) with y in * by lia. lia.
Qed.

Lemma Day_MakeDate (day time : Z) :
  0 <= time < msPerDay -> Day (MakeDate day time) = day.
Proof.
  intros H. unfold Day, MakeDate, msPerDay in *.
  Z.div_mod_to_equations. lia.
Qed.

Lemma TimeWithinDay_MakeDate (day time : Z) :
  0 <= time < msPerDay -> TimeWithinDay (MakeDate day time) = time.
Proof.
  intros H. unfold TimeWithinDay, MakeDate, msPerDay in *.
  Z.div_mod_to_equations. lia.
Qed.

(** ** The calendar, both ways *)

Lemma DayFromYear_mono (y1 y2 : Z) : y1 <= y2 -> DayFromYear y1 <= DayFromYear y2.
Proof.
  intros H. unfold DayFromYear. Z.div_mod_to_equations. lia.
Qed.

Lemma YearFromDay_unique (d y : Z) :
  DayFromYear y <= d < DayFromYear (y + 1) -> YearFromDay d = y.
Proof.
  intros [Hlo Hhi]. pose proof (YearFromDay_spec d) as [Hlo' Hhi'].
  destruct (Z.lt_trichotomy (YearFromDay d) y) as [Hlt | [Heq | Hgt]]; [| exact Heq |].
  - pose proof (DayFromYear_mono (YearFromDay d + 1) y ltac:(lia)). lia.
  - pose proof (DayFromYear_mono (y + 1) (YearFromDay d) ltac:(lia)). lia.
Qed.

Lemma InLeapYear_range (t : Z) : 0 <= InLeapYear t <= 1.
Proof. unfold InLeapYear. destruct (is_leap (YearFromTime t)); lia. Qed.

Lemma DayWithinYear_range (t : Z) :
  0 <= DayWithinYear t < 365 + InLeapYear t.
Proof.
  unfold DayWithinYear, InLeapYear, YearFromTime.
  pose proof (YearFromDay_spec (Day t)) as [Hlo Hhi].
  rewrite DayFromYear_succ in Hhi. unfold DaysInYear in Hhi.
  destruct (is_leap (YearFromDay (Day t))); lia.
Qed.

(** The fields of a time value name its day. *)
Lemma MakeDay_fields (t : Z) :
  MakeDay (YearFromTime t) (MonthFromTime t) (DateFromTime t) = Day t.
Proof.
  pose proof (MonthFromTime_range t) as Hm.
  unfold MakeDay, DateFromTime, DayWithinYear, InLeapYear.
  rewrite Z.div_small, Z.mod_small, Z.add_0_r by lia. lia.
Qed.

Lemma DateFromTime_range (t : Z) : 1 <= DateFromTime t <= 31.
Proof.
  pose proof (DayWithinYear_range t) as Hd.
  unfold DateFromTime, MonthFromTime, month_start.
  pose proof (InLeapYear_range t) as Hl.
  revert Hd Hl. generalize (InLeapYear t) (DayWithinYear t). intros l d Hd Hl.
  repeat match goal with
         | |- context [?a <? ?b] => destruct (Z.ltb_spec a b)
         end;
    repeat match goal with
           | |- context [?a =? ?b] => destruct (Z.eqb_spec a b)
           end; lia.
Qed.

(** The first day of month [m] of year [y], read back. *)
Lemma MakeDay_first (y m : Z) :
  0 <= m <= 11 ->
  let t := MakeDate (MakeDay y m 1) 0 in
  YearFromTime t = y /\ MonthFromTime t = m /\ DateFromTime t = 1.
Proof.
  intros Hm t.
  assert (Hday : Day t = DayFromYear y + month_start (if is_leap y then 1 else 0) m).
  { unfold t. rewrite Day_MakeDate by (unfold msPerDay; lia).
    unfold MakeDay. rewrite Z.div_small, Z.mod_small, Z.add_0_r by lia. lia. }
  pose proof (month_start_range (if is_leap y then 1 else 0) m (leap_flag_range y)) as Hs.
  assert (Hy : YearFromTime t = y).
  { unfold YearFromTime. apply YearFromDay_unique. rewrite Hday, DayFromYear_succ.
    unfold DaysInYear. destruct (is_leap y); lia. }
  assert (Hw : DayWithinYear t = month_start (InLeapYear t) m).
  { unfold DayWithinYear, InLeapYear. rewrite Hy, Hday. lia. }
  assert (Hmonth : MonthFromTime t = m).
  { unfold MonthFromTime. rewrite Hw.
    pose proof (InLeapYear_range t) as Hl.
    revert Hl. generalize (InLeapYear t). intros l Hl. unfold month_start.
    repeat match goal with
           | |- context [?a =? ?b] => destruct (Z.eqb_spec a b)
           end;
      repeat match goal with
             | |- context [?a <? ?b] => destruct (Z.ltb_spec a b)
             end; lia. }
  split; [exact Hy |]. split; [exact Hmonth |].
  unfold DateFromTime. rewrite Hmonth, Hw. lia.
Qed.

(** A month count outside 0-11 carries into the year. *)
Lemma MakeDay_carry (y m d : Z) : MakeDay y m d = MakeDay (y + m / 12) (m mod 12) d.
Proof.
  unfold MakeDay.
  rewrite (Z.div_small (m mod 12)), Z.mod_mod, Z.add_0_r by (try lia; apply Z.mod_pos_bound; lia).
  reflexivity.
Qed.

(** ** Zones *)

Lemma fixed_regular (tza : Z) : regular_days (fixed tza).
Proof.
  unfold regular_days, shown, LocalTime, UTC, fixed, msPerDay.
  repeat split; intros; lia.
Qed.

Section Zone.

Variable zone : Z -> bool -> Z.
Hypothesis regular : regular_days zone.

Lemma shown_midnight (d : Z) : LocalTime zone (UTC zone (MakeDate d 0)) = MakeDate d 0.
Proof. exact (proj1 regular d). Qed.

Lemma shown_day_end (d : Z) :
  LocalTime zone (UTC zone (MakeDate d (MakeTime 23 59 59 999)))
  = MakeDate d (MakeTime 23 59 59 999).
Proof. exact (proj1 (proj2 regular) d). Qed.

(** Local time values a day apart, less one millisecond, are instants in
    the same order. *)
Lemma UTC_le (x y : Z) : x + msPerDay - 1 <= y -> UTC zone x <= UTC zone y.
Proof.
  intros H. pose proof (proj2 (proj2 regular) y x). unfold UTC. lia.
Qed.

(** The start of the computed range is the local midnight that opens a
    month: the current one, the one five months back, or January. *)
Lemma getPeriodDateRange_start_day (now : Z) (period : string) :
  0 <= LocalTime zone now ->
  startDate (getPeriodDateRange zone now period)
  = UTC zone (MakeDate
      (MakeDay (getFullYear zone now)
         (if String.eqb period "monthly" then getMonth zone now
          else if String.eqb period "6months" then getMonth zone now - 5
          else 0) 1) 0).
Proof.
  intros Hnow.
  assert (Hy : 1970 <= getFullYear zone now).
  { apply YearFromDay_nonneg. unfold Day, msPerDay. Z.div_mod_to_equations. lia. }
  unfold getPeriodDateRange. cbn [startDate]. unfold Date_of_fields.
  replace ((0 <=? getFullYear zone now) && (getFullYear zone now <=? 99)) with false
    by (symmetry; apply andb_false_iff; right; apply Z.leb_gt; lia).
  change (MakeTime 0 0 0 0) with 0.
  assert (Hset : forall dd, setHours zone (UTC zone (MakeDate dd 0)) 0 0 0 0
                            = UTC zone (MakeDate dd 0)).
  { intros dd. unfold setHours. change (MakeTime 0 0 0 0) with 0.
    rewrite shown_midnight, Day_MakeDate by (unfold msPerDay; lia). reflexivity. }
  destruct (String.eqb period "monthly"); [apply Hset |].
  destruct (String.eqb period "6months"); apply Hset.
Qed.

(** The day on which the computed range starts is not after today. *)
Lemma getPeriodDateRange_start_le (now : Z) (period : string) :
  MakeDay (getFullYear zone now)
    (if String.eqb period "monthly" then getMonth zone now
     else if String.eqb period "6months" then getMonth zone now - 5
     else 0) 1
  <= Day (LocalTime zone now).
Proof.
  unfold getFullYear, getMonth.
  pose proof (MonthFromTime_range (LocalTime zone now)) as Hm.
  pose proof (MakeDay_month_le (LocalTime zone now)) as Hle.
  destruct (String.eqb period "monthly"); [exact Hle |].
  destruct (String.eqb period "6months").
  - pose proof (MakeDay_back_le (YearFromTime (LocalTime zone now))
                  (MonthFromTime (LocalTime zone now)) 5 Hm). lia.
  - pose proof (MakeDay_back_le (YearFromTime (LocalTime zone now))
                  (MonthFromTime (LocalTime zone now))
                  (MonthFromTime (LocalTime zone now)) Hm) as Hb.
    rewrite Z.sub_diag in Hb. lia.
Qed.

(** Whatever the period, the range computed on the page starts at a local
    midnight and ends with the last millisecond of the current local day,
    and does not start after it ends. *)
Lemma getPeriodDateRange_fallback (now : Z) (period : string) :
  0 <= LocalTime zone now ->
  let r := getPeriodDateRange zone now period in
  startDate r <= endDate r
  /\ TimeWithinDay (LocalTime zone (startDate r)) = MakeTime 0 0 0 0
  /\ TimeWithinDay (LocalTime zone (endDate r)) = MakeTime 23 59 59 999.
Proof.
  intros Hnow r. unfold r.
  rewrite getPeriodDateRange_start_day by exact Hnow.
  pose proof (getPeriodDateRange_start_le now period) as Hle.
  set (dd := MakeDay _ _ 1) in *.
  unfold getPeriodDateRange. cbn [endDate]. unfold setHours.
  rewrite shown_midnight, shown_day_end.
  rewrite !TimeWithinDay_MakeDate by (unfold MakeTime, msPerDay; lia).
  repeat split.
  apply UTC_le. unfold MakeDate, MakeTime, msPerDay in *. lia.
Qed.

End Zone.

(** ** Central European Time is a regular zone *)

Lemma YearFromTime_unique (t y : Z) :
  DayFromYear y <= Day t < DayFromYear (y + 1) -> YearFromTime t = y.
Proof. apply YearFromDay_unique. Qed.

Lemma last_sunday_march (y : Z) :
  DayFromYear y + 83 <= last_sunday y 2 <= DayFromYear y + 90.
Proof.
  unfold last_sunday, MakeDay.
  change (2 / 12) with 0. change (2 mod 12) with 2. rewrite Z.add_0_r.
  change (month_start (if is_leap y then 1 else 0) 2)
    with (59 + (if is_leap y then 1 else 0)).
  pose proof (leap_flag_range y).
  pose proof (Z.mod_pos_bound
                (DayFromYear y + (59 + (if is_leap y then 1 else 0)) + 31 - 1 + 4) 7
                ltac:(lia)).
  lia.
Qed.

Lemma last_sunday_october (y : Z) :
  DayFromYear y + 297 <= last_sunday y 9 <= DayFromYear y + 304.
Proof.
  unfold last_sunday, MakeDay.
  change (9 / 12) with 0. change (9 mod 12) with 9. rewrite Z.add_0_r.
  change (month_start (if is_leap y then 1 else 0) 9)
    with (273 + (if is_leap y then 1 else 0)).
  pose proof (leap_flag_range y).
  pose proof (Z.mod_pos_bound
                (DayFromYear y + (273 + (if is_leap y then 1 else 0)) + 31 - 1 + 4) 7
                ltac:(lia)).
  lia.
Qed.

(** The year of the day before. *)
Lemma year_of_eve (d : Z) :
  YearFromDay (d - 1) = YearFromDay d
  \/ (d = DayFromYear (YearFromDay d) /\ YearFromDay (d - 1) = YearFromDay d - 1).
Proof.
  pose proof (YearFromDay_spec d) as [Hlo Hhi].
  destruct (Z.eq_dec d (DayFromYear (YearFromDay d))) as [Heq | Hne].
  - right. split; [exact Heq |]. apply YearFromDay_unique.
    pose proof (DayFromYear_pred (YearFromDay d)).
    replace (YearFromDay d - 1 + 1) with (YearFromDay d) by lia. lia.
  - left. apply YearFromDay_unique. lia.
Qed.

Lemma central_european_utc (t : Z) :
  central_european t true
  = if (summer_start (YearFromTime t) <=? t) && (t <? summer_end (YearFromTime t))
    then 7200000 else 3600000.
Proof. unfold central_european. cbv zeta. now rewrite !Z.add_0_r. Qed.

Lemma central_european_local (t : Z) :
  central_european t false
  = if (summer_start (YearFromTime t) + 7200000 <=? t)
       && (t <? summer_end (YearFromTime t) + 7200000)
    then 7200000 else 3600000.
Proof. reflexivity. Qed.

(** A local time that is not in the hour the clock skips in March is shown. *)
Lemma central_european_shown (x : Z) :
  (let y := YearFromTime x in
   ~ summer_start y + 3600000 <= x < summer_start y + 7200000) ->
  (Day (x - 3600000) = Day x \/ Day (x - 3600000) = Day x - 1) ->
  shown central_european x.
Proof.
  cbv zeta. intros Hgap Hday.
  unfold shown, LocalTime, UTC.
  rewrite central_european_local.
  set (y := YearFromTime x) in *.
  pose proof (last_sunday_march y) as Hs. pose proof (last_sunday_october y) as He.
  pose proof (YearFromDay_spec (Day x)) as [Hlo Hhi]. fold (YearFromTime x) in Hlo, Hhi.
  fold y in Hlo, Hhi. rewrite DayFromYear_succ in Hhi.
  assert (Hdiy : 365 <= DaysInYear y <= 366) by (unfold DaysInYear; destruct (is_leap y); lia).
  assert (Hx : Day x * 86400000 <= x < Day x * 86400000 + 86400000)
    by (unfold Day, msPerDay; Z.div_mod_to_equations; lia).
  assert (HS : summer_start y = last_sunday y 2 * 86400000 + 3600000) by reflexivity.
  assert (HE : summer_end y = last_sunday y 9 * 86400000 + 3600000) by reflexivity.
  destruct ((summer_start y + 7200000 <=? x) && (x <? summer_end y + 7200000)) eqn:Hl.
  - (* summer time *)
    apply andb_true_iff in Hl. destruct Hl as [Hl1 Hl2].
    apply Z.leb_le in Hl1. apply Z.ltb_lt in Hl2.
    rewrite central_european_utc.
    assert (Hy : YearFromTime (x - 7200000) = y).
    { apply YearFromTime_unique. rewrite DayFromYear_succ.
      unfold Day, msPerDay. Z.div_mod_to_equations. lia. }
    rewrite Hy.
    replace (_ && _) with true; [lia |].
    symmetry. apply andb_true_iff. split; [apply Z.leb_le | apply Z.ltb_lt]; lia.
  - rewrite central_european_utc.
    apply andb_false_iff in Hl.
    assert (Hcase : x < summer_start y + 3600000 \/ summer_end y + 7200000 <= x).
    { destruct Hl as [Hl | Hl]; [apply Z.leb_gt in Hl | apply Z.ltb_ge in Hl]; lia. }
    clear Hl. destruct Hcase as [Hbefore | Hafter].
    + (* winter time, before the summer *)
      unfold YearFromTime at 1 2.
      destruct Hday as [Hd | Hd]; rewrite Hd.
      * fold (YearFromTime x). fold y.
        replace (_ && _) with false; [lia |].
        symmetry. apply andb_false_iff. left. apply Z.leb_gt. lia.
      * destruct (year_of_eve (Day x)) as [Hsame | [Hfirst Hprev]].
        -- rewrite Hsame. fold (YearFromTime x). fold y.
           replace (_ && _) with false; [lia |].
           symmetry. apply andb_false_iff. left. apply Z.leb_gt. lia.
        -- rewrite Hprev. fold (YearFromTime x). fold y.
           pose proof (last_sunday_october (y - 1)) as He'.
           pose proof (DayFromYear_succ (y - 1)) as Hsucc.
           replace (y - 1 + 1) with y in Hsucc by lia.
           assert (365 <= DaysInYear (y - 1))
             by (unfold DaysInYear; destruct (is_leap (y - 1)); lia).
           fold (YearFromTime x) in Hfirst. fold y in Hfirst.
           assert (Hdu : (Day x - 1) * 86400000 <= x - 3600000).
           { rewrite <- Hd. unfold Day, msPerDay. Z.div_mod_to_equations. lia. }
           assert (HE' : summer_end (y - 1) = last_sunday (y - 1) 9 * 86400000 + 3600000)
             by reflexivity.
           replace (_ && _) with false; [lia |].
           symmetry. apply andb_false_iff. right. apply Z.ltb_ge. lia.
    + (* winter time, after the summer *)
      assert (Hy : YearFromTime (x - 3600000) = y).
      { apply YearFromTime_unique. rewrite DayFromYear_succ.
        unfold Day, msPerDay. Z.div_mod_to_equations. lia. }
      rewrite Hy.
      replace (_ && _) with false; [lia |].
      symmetry. apply andb_false_iff. right. apply Z.ltb_ge. lia.
Qed.

Lemma central_european_regular : regular_days central_european.
Proof.
  unfold regular_days. split; [| split].
  - intros d. apply central_european_shown.
    + cbv zeta. unfold YearFromTime. rewrite Day_MakeDate by (unfold msPerDay; lia).
      unfold summer_start, MakeDate, msPerDay. lia.
    + right. unfold Day, MakeDate, msPerDay. Z.div_mod_to_equations. lia.
  - intros d. apply central_european_shown.
    + cbv zeta. unfold YearFromTime.
      rewrite Day_MakeDate by (unfold MakeTime, msPerDay; lia).
      unfold summer_start, MakeDate, MakeTime, msPerDay. lia.
    + left. unfold Day, MakeDate, MakeTime, msPerDay. Z.div_mod_to_equations. lia.
  - intros x y. unfold central_european, msPerDay.
    destruct (_ && _); destruct (_ && _); lia.
Qed.

(** ** The handler monad *)

Lemma showToast_eq (message type : string) (st : State) (h : list Event) :
  showToast message type st h = (Normal tt, toast_shown message type st, []).
Proof.
  unfold toast_shown, showToast, bind, read_store, state_of.
  destruct (toastTimeoutRef st); reflexivity.
Qed.

(** ** closeModal *)

(** C10: while [saving] is true, closing the expense form does nothing: the
    store, with the modal flag, the edited expense and the form error, is
    left as it was, and nothing is emitted; so the Cancel button of the form
    changes nothing in a state where [saving] is true. *)
Theorem closeModal_noop_while_saving
    (host : Host) (snap st : State) (h : list Event) :
  saving snap = true ->
  closeModal snap st h = (Normal tt, st, [])
  /\ dispatch host ClickCancelForm snap h = (Normal tt, snap, []).
Proof.
  intros Hs. split.
  - unfold closeModal, function, bind, when. rewrite Hs. reflexivity.
  - unfold dispatch. rewrite Hs, andb_false_r. reflexivity.
Qed.

Lemma closeModal_noop_while_saving_witness :
  closeModal busy_state busy_state [] = (Normal tt, busy_state, [])
  /\ showExpenseModal busy_state = true.
Proof.
  split; [apply (closeModal_noop_while_saving offline_host) |]; reflexivity.
Defined.

(** ** Form validation *)

Lemma amount_rejected (a : string) :
  ~ positive_finite (Number_ (VStr (remove_commas a))) ->
  negb (Number_isFinite (toNumber (VStr a))) || num_leb (toNumber (VStr a)) (JFin 0) = true.
Proof.
  unfold toNumber. intros Hn.
  destruct (Number_ (VStr (remove_commas a))) as [| neg | q]; try reflexivity.
  cbn in Hn |- *. apply Qle_bool_iff. apply Qnot_lt_le. exact Hn.
Qed.

(** ** fetchAll, one step at a time *)

Section Loader.

Variable host : Host.
Variable snap : State.

(** One turn of the pagination loop. *)
Lemma fetch_pages_step (fuel : nat) (b : string) (start end_ limit page : Z)
    (pages : jsnum) (all : list JsValue) (st : State) (h : list Event) :
  fetch_pages host (S fuel) b start end_ limit page pages all st h
  = if num_leb (num_of_Z page) pages && (page <=? 50) then
      let req := expenses_request host b start end_ page limit in
      match net host h req with
      | NetworkError msg => (Throw (Error msg), st, [EvFetch req (NetworkError msg)])
      | Responded r =>
          let ev := EvFetch req (Responded r) in
          if status r =? 401 then (Return, st, ev :: unauthorized_events)
          else if negb (ok r) then
            (Throw (request_failed "Expenses" r), st, [ev; EvReadText])
          else
            match body_json r with
            | None => (Throw (Error json_syntax_error), st, [ev; EvReadJson])
            | Some expJson =>
                let all' := (all ++ page_list expJson)%list in
                if Z.of_nat (List.length (page_list expJson)) =? 0 then
                  (Normal all', st, [ev; EvReadJson])
                else
                  let '(c, st', tr) :=
                    fetch_pages host fuel b start end_ limit (page + 1)
                      (page_count expJson) all' st (h ++ [ev; EvReadJson])%list in
                  (c, st', ev :: EvReadJson :: tr)
            end
      end
    else (Normal all, st, []).
Proof.
  cbn [fetch_pages].
  destruct (num_leb (num_of_Z page) pages && (page <=? 50)); [| reflexivity].
  unfold bind at 1. unfold fetch at 1. cbv zeta.
  destruct (net host h _) as [msg | r]; [reflexivity |].
  unfold bind at 1. unfold when at 1.
  destruct (status r =? 401); [reflexivity |].
  unfold ret at 1. cbn [app].
  unfold bind at 1. unfold when at 1.
  destruct (negb (ok r)); [reflexivity |].
  unfold ret at 1. cbn [app].
  unfold bind at 1. unfold json at 1, bind at 1, emit at 1.
  destruct (body_json r) as [expJson |]; [| reflexivity].
  unfold ret at 1. cbn [app]. fold (page_list expJson). fold (page_count expJson).
  destruct (Z.of_nat (List.length (page_list expJson)) =? 0); [reflexivity |].
  rewrite <- !app_assoc. cbn [app].
  destruct (fetch_pages host fuel b start end_ limit (page + 1) _ _ st _)
    as [[c st'] tr].
  reflexivity.
Qed.

(** fetchAll without a base URL (lines 141-145). *)
Lemma fetchAll_no_base (st : State) (h : list Event) :
  base_url host = None ->
  fetchAll host snap st h
  = (Normal tt, set_loading false st,
     [EvConsoleWarn "API base URL is not set. Cannot fetch money manager data."]).
Proof.
  intros Hb. unfold fetchAll. rewrite Hb. reflexivity.
Qed.

(** fetchAll with a base URL, by the answers of the network. *)
Lemma fetchAll_run (b : string) (st : State) (h : list Event) :
  base_url host = Some b ->
  fetchAll host snap st h
  = let req := period_request host snap b in
    let st0 := set_loading true st in
    match net host h req with
    | NetworkError msg =>
        (Normal tt, load_failed (Error msg) st0,
         [EvFetch req (NetworkError msg); load_failed_log (Error msg)])
    | Responded r =>
        let ev := EvFetch req (Responded r) in
        if status r =? 401 then (Normal tt, st0, ev :: unauthorized_events)
        else if negb (ok r) then
          (Normal tt, load_failed (request_failed "Period" r) st0,
           [ev; EvReadText; load_failed_log (request_failed "Period" r)])
        else
          match body_json r with
          | None =>
              (Normal tt, load_failed (Error json_syntax_error) st0,
               [ev; EvReadJson; load_failed_log (Error json_syntax_error)])
          | Some periodJson =>
              let st1 := set_periodGroups (page_list periodJson) st0 in
              let range := resolve_range host snap periodJson in
              match fetch_pages host 50 b (startDate range) (endDate range) 100 1
                      (JFin 1) [] st1 (h ++ [ev; EvReadJson])%list with
              | (Normal all, st2, tr) =>
                  (Normal tt,
                   set_loading false
                     (set_expensesDateRange (Some range) (set_expenses all st2)),
                   ev :: EvReadJson :: tr)
              | (Return, st2, tr) => (Normal tt, st2, ev :: EvReadJson :: tr)
              | (Throw e, st2, tr) =>
                  (Normal tt, load_failed e st2,
                   ev :: EvReadJson :: (tr ++ [load_failed_log e])%list)
              end
          end
    end.
Proof.
  intros Hb. unfold fetchAll. rewrite Hb.
  unfold function, try_catch. cbv zeta.
  unfold bind at 1. unfold setLoading at 1, modify at 1. cbn [app].
  rewrite app_nil_r.
  unfold bind at 1. unfold fetch at 1. cbv zeta.
  destruct (net host h _) as [msg | r].
  { unfold bind, console_error, emit. rewrite showToast_eq. reflexivity. }
  unfold bind at 1. unfold when at 1.
  destruct (status r =? 401); [reflexivity |].
  unfold ret at 1. cbn [app].
  unfold bind at 1. unfold when at 1.
  destruct (negb (ok r)).
  { cbn. unfold bind, console_error, emit. rewrite showToast_eq. reflexivity. }
  unfold ret at 1. cbn [app].
  unfold bind at 1. unfold json at 1, bind at 1, emit at 1.
  destruct (body_json r) as [periodJson |].
  2:{ cbn. unfold bind, console_error, emit. rewrite showToast_eq. reflexivity. }
  unfold ret at 1. cbn [app].
  unfold bind at 1. unfold setPeriodGroups at 1, modify at 1. cbn [app].
  fold (page_list periodJson). rewrite <- !app_assoc. cbn [app].
  unfold bind at 1.
  destruct (fetch_pages host 50 b _ _ 100 1 (JFin 1) [] _ _) as [[[all | | e] st2] tr].
  - cbn. rewrite ?app_nil_r. reflexivity.
  - reflexivity.
  - unfold bind, console_error, emit. rewrite showToast_eq. cbn.
    rewrite ?app_nil_r. reflexivity.
Qed.

End Loader.

(** ** The mutations, one step at a time *)

Section Mutations.

Variable host : Host.
Variable snap : State.

Lemma fetchAll_normal (st : State) (h : list Event) :
  completion_of (fetchAll host snap st h) = Normal tt.
Proof.
  destruct (base_url host) as [b |] eqn:Hb.
  - rewrite (fetchAll_run host snap b st h Hb). cbv zeta.
    destruct (net host h _) as [msg | r]; [reflexivity |].
    destruct (status r =? 401); [reflexivity |].
    destruct (negb (ok r)); [reflexivity |].
    destruct (body_json r); [| reflexivity].
    destruct (fetch_pages _ _ _ _ _ _ _ _ _ _ _) as [[[all | | e] st2] tr]; reflexivity.
  - rewrite (fetchAll_no_base host snap st h Hb). reflexivity.
Qed.

Lemma fetchAll_eta (st : State) (h : list Event) :
  fetchAll host snap st h
  = (Normal tt, state_of (fetchAll host snap st h), trace_of (fetchAll host snap st h)).
Proof.
  pose proof (fetchAll_normal st h) as Hn.
  destruct (fetchAll host snap st h) as [[c st'] tr]. cbn in Hn. subst c. reflexivity.
Qed.

Lemma closeModal_eq (st : State) (h : list Event) :
  closeModal snap st h = (Normal tt, modal_closed snap st, []).
Proof.
  unfold closeModal, modal_closed, function, bind, when.
  destruct (saving snap); reflexivity.
Qed.

(** performSaveExpense without a base URL (lines 240-243). *)
Lemma performSaveExpense_no_base (p : SaveArgs) (st : State) (h : list Event) :
  base_url host = None ->
  performSaveExpense host snap p st h
  = (Normal tt, set_formError "API base URL is not configured." st, []).
Proof.
  intros Hb. unfold performSaveExpense. rewrite Hb. reflexivity.
Qed.

(** performSaveExpense with a base URL, by the answer of the network. *)
Lemma performSaveExpense_run (b : string) (p : SaveArgs) (st : State) (h : list Event) :
  base_url host = Some b ->
  performSaveExpense host snap p st h
  = let req := save_request host b p in
    let st0 := set_saving true st in
    match net host h req with
    | NetworkError msg =>
        (Normal tt, set_saving false (save_failed (Error msg) st0),
         [EvFetch req (NetworkError msg); save_failed_log (Error msg)])
    | Responded r =>
        let ev := EvFetch req (Responded r) in
        if status r =? 401 then
          (Normal tt, set_saving false st0, ev :: unauthorized_events)
        else if negb (ok r) then
          let e := response_error host "Request" r in
          (Normal tt, set_saving false (save_failed e st0),
           [ev; EvReadJson; save_failed_log e])
        else
          let reload :=
            fetchAll host snap (modal_closed snap (set_confirmDialog None st0))
              (h ++ [ev])%list in
          (Normal tt,
           set_saving false
             (toast_shown (if isEdit p then "Expense updated successfully."
                           else "Expense created successfully.") "success"
                (state_of reload)),
           ev :: trace_of reload)
    end.
Proof.
  intros Hb. unfold performSaveExpense. rewrite Hb.
  unfold function, try_finally, try_catch. cbv zeta.
  unfold bind at 1. unfold setSaving at 1, modify at 1. cbn [app].
  rewrite app_nil_r.
  unfold bind at 1. unfold fetch at 1. cbv zeta.
  destruct (net host h _) as [msg | r].
  { unfold bind, console_error, emit, setFormError, modify.
    rewrite showToast_eq. reflexivity. }
  unfold bind at 1. unfold when at 1.
  destruct (status r =? 401); [reflexivity |].
  unfold ret at 1. cbn [app].
  unfold bind at 1. unfold when at 1.
  destruct (negb (ok r)).
  { cbn -[showToast String_ append string_of_Z].
    unfold bind, console_error, emit, setFormError, modify.
    rewrite showToast_eq. reflexivity. }
  unfold ret at 1. cbn [app].
  unfold bind at 1. unfold setConfirmDialog at 1, modify at 1. cbn [app].
  unfold bind at 1. rewrite closeModal_eq. cbn [app].
  rewrite ?app_nil_r.
  unfold bind at 1. rewrite fetchAll_eta.
  unfold bind. rewrite showToast_eq. cbn. rewrite ?app_nil_r. reflexivity.
Qed.

(** performDeleteExpense for a record without identifier (line 336). *)
Lemma performDeleteExpense_no_id (exp : JsValue) (st : State) (h : list Event) :
  truthy (expense_id exp) = false ->
  performDeleteExpense host snap exp st h = (Normal tt, st, []).
Proof.
  intros Hid. unfold performDeleteExpense, function, bind, when.
  fold (expense_id exp). rewrite Hid. reflexivity.
Qed.

(** performDeleteExpense without a base URL (lines 338-341). *)
Lemma performDeleteExpense_no_base (exp : JsValue) (st : State) (h : list Event) :
  truthy (expense_id exp) = true ->
  base_url host = None ->
  performDeleteExpense host snap exp st h
  = (Normal tt, toast_shown "API base URL is not configured." "error" st, []).
Proof.
  intros Hid Hb. unfold performDeleteExpense, function, when.
  fold (expense_id exp). rewrite Hid, Hb. unfold bind, ret. cbn [negb app].
  rewrite showToast_eq. reflexivity.
Qed.

(** performDeleteExpense with a base URL, by the answer of the network. *)
Lemma performDeleteExpense_run (b : string) (exp : JsValue) (st : State)
    (h : list Event) :
  truthy (expense_id exp) = true ->
  base_url host = Some b ->
  performDeleteExpense host snap exp st h
  = let req := delete_request host b (expense_id exp) in
    let st0 := set_saving true st in
    match net host h req with
    | NetworkError msg =>
        (Normal tt, set_saving false (delete_failed (Error msg) st0),
         [EvFetch req (NetworkError msg); delete_failed_log (Error msg)])
    | Responded r =>
        let ev := EvFetch req (Responded r) in
        if status r =? 401 then
          (Normal tt, set_saving false st0, ev :: unauthorized_events)
        else if negb (ok r) then
          let e := response_error host "Delete" r in
          (Normal tt, set_saving false (delete_failed e st0),
           [ev; EvReadJson; delete_failed_log e])
        else
          let reload :=
            fetchAll host snap (set_confirmDialog None st0) (h ++ [ev])%list in
          (Normal tt,
           set_saving false
             (toast_shown "Expense deleted successfully." "success" (state_of reload)),
           ev :: trace_of reload)
    end.
Proof.
  intros Hid Hb. unfold performDeleteExpense. fold (expense_id exp).
  rewrite Hid, Hb. cbn [negb when].
  unfold function, try_finally, try_catch. cbv zeta.
  unfold bind at 1. unfold ret at 1. cbn [app]. rewrite app_nil_r.
  unfold bind at 1. unfold setSaving at 1, modify at 1. cbn [app].
  rewrite app_nil_r.
  unfold bind at 1. unfold fetch at 1. cbv zeta.
  destruct (net host h _) as [msg | r].
  { unfold bind, console_error, emit. rewrite showToast_eq. reflexivity. }
  unfold bind at 1. unfold when at 1.
  destruct (status r =? 401); [reflexivity |].
  unfold ret at 1. cbn [app].
  unfold bind at 1. unfold when at 1.
  destruct (negb (ok r)).
  { cbn -[showToast String_ append string_of_Z].
    unfold bind, console_error, emit. rewrite showToast_eq. reflexivity. }
  unfold ret at 1. cbn [app].
  unfold bind at 1. unfold setConfirmDialog at 1, modify at 1. cbn [app].
  rewrite ?app_nil_r.
  unfold bind at 1. rewrite fetchAll_eta.
  unfold bind. rewrite showToast_eq. cbn. rewrite ?app_nil_r. reflexivity.
Qed.

End Mutations.

(** ** Traces and the 401 branch *)

Lemma clean_app (a b : list Event) : clean (a ++ b) = clean a && clean b.
Proof. apply forallb_app. Qed.

Lemma clean_cons (e : Event) (tr : list Event) :
  clean (e :: tr) = clean_event e && clean tr.
Proof. reflexivity. Qed.

Lemma Handled_cons (e : Event) (tr : list Event) :
  clean_event e = true -> Handled tr -> Handled (e :: tr).
Proof.
  intros He [tr' Hc | pre req r Hc Hs].
  - apply Handled_clean. cbn. now rewrite He.
  - change (e :: pre ++ EvFetch req (Responded r) :: unauthorized_events)
      with ((e :: pre) ++ EvFetch req (Responded r) :: unauthorized_events).
    apply Handled_401; [cbn; now rewrite He | exact Hs].
Qed.

Lemma clean_no_401 (tr pre post : list Event) (req : Request) (r : Response) :
  clean tr = true -> tr = pre ++ EvFetch req (Responded r) :: post -> status r <> 401.
Proof.
  intros Hc ->. rewrite clean_app in Hc. apply andb_true_iff in Hc as [_ Hc].
  cbn in Hc. apply andb_true_iff in Hc as [Hc _].
  apply negb_true_iff, Z.eqb_neq in Hc. exact Hc.
Qed.

(** In a handled trace, whatever follows a 401 response is the alert and the
    move to the login page, and nothing before it is either of them. *)
Lemma Handled_split (tr pre post : list Event) (req : Request) (r : Response) :
  Handled tr ->
  tr = pre ++ EvFetch req (Responded r) :: post ->
  status r = 401 ->
  post = unauthorized_events /\ clean pre = true.
Proof.
  intros [tr' Hc | pre' req' r' Hc Hs'] Heq Hs.
  - exfalso. eapply clean_no_401; eauto.
  - revert pre Heq. induction pre' as [| e pre' IH]; intros pre Heq.
    + destruct pre as [| e pre].
      * cbn in Heq. inversion Heq; subst. split; reflexivity.
      * exfalso. cbn in Heq. inversion Heq as [[He Hrest]].
        destruct pre as [| e1 pre]; [discriminate |].
        destruct pre as [| e2 pre]; [discriminate |].
        destruct pre; discriminate.
    + destruct pre as [| e0 pre].
      * exfalso. cbn in Heq. inversion Heq as [[He Hrest]]. subst e.
        cbn in Hc. rewrite Hs in Hc. discriminate.
      * cbn in Heq. inversion Heq as [[He Hrest]]. subst e0.
        cbn in Hc. apply andb_true_iff in Hc as [He Hc].
        destruct (IH Hc pre Hrest) as [Hp Hcp]. split; [exact Hp |].
        cbn. now rewrite He.
Qed.

Lemma clean_locations (tr : list Event) : clean tr = true -> filter is_location tr = [].
Proof.
  induction tr as [| e tr IH]; [reflexivity |].
  cbn. intros H. apply andb_true_iff in H as [He Hc].
  destruct e; cbn in *; auto; discriminate.
Qed.

Lemma split_locations (pre : list Event) (req : Request) (res : FetchResult) :
  clean pre = true ->
  filter is_location (pre ++ EvFetch req res :: unauthorized_events)
  = [EvLocation login_href].
Proof.
  intros Hc. rewrite filter_app, (clean_locations pre Hc). reflexivity.
Qed.

Section LoaderTraces.

Variable host : Host.

(** The pagination loop leaves the store alone; it returns early exactly
    after a 401 response, and its trace is clean up to that response. *)
Lemma fetch_pages_trace (fuel : nat) (b : string) (start end_ limit : Z) :
  forall (page : Z) (pages : jsnum) (all : list JsValue) (st : State) (h : list Event),
    let res := fetch_pages host fuel b start end_ limit page pages all st h in
    state_of res = st /\
    match completion_of res with
    | Return =>
        exists pre req r,
          trace_of res = (pre ++ EvFetch req (Responded r) :: unauthorized_events)%list
          /\ clean pre = true /\ status r = 401
    | _ => clean (trace_of res) = true
    end.
Proof.
  induction fuel as [| fuel IH]; intros page pages all st h res; subst res.
  - cbn [fetch_pages]. destruct (_ && _); cbn; auto.
  - rewrite fetch_pages_step.
    destruct (_ && _); [| cbn; auto]. cbv zeta.
    destruct (net host h _) as [msg | r]; [cbn; auto |].
    destruct (status r =? 401) eqn:E401.
    { cbn. split; [reflexivity |].
      exists [], (expenses_request host b start end_ page limit), r.
      apply Z.eqb_eq in E401. auto. }
    assert (Hev : forall req, clean_event (EvFetch req (Responded r)) = true)
      by (intros; cbn; now rewrite E401).
    destruct (negb (ok r)); [cbn; rewrite E401; auto |].
    destruct (body_json r) as [expJson |]; [| cbn; rewrite E401; auto].
    destruct (_ =? 0); [cbn; rewrite E401; auto |].
    specialize (IH (page + 1) (page_count expJson) (all ++ page_list expJson)%list st
                  (h ++ [EvFetch (expenses_request host b start end_ page limit)
                           (Responded r); EvReadJson])%list).
    cbv zeta in IH.
    destruct (fetch_pages host fuel b start end_ limit (page + 1) _ _ st _)
      as [[c st'] tr].
    cbn in IH |- *. destruct IH as [Hst Hc]. split; [exact Hst |].
    destruct c as [all' | | e].
    + rewrite E401. exact Hc.
    + destruct Hc as (pre & req & r' & -> & Hpre & Hs).
      exists (EvFetch (expenses_request host b start end_ page limit) (Responded r)
                :: EvReadJson :: pre), req, r'.
      cbn. rewrite E401. auto.
    + rewrite E401. exact Hc.
Qed.

Variable snap : State.

Lemma toast_shown_fields (message type : string) (st : State) :
  let st' := toast_shown message type st in
  selectedPeriod st' = selectedPeriod st /\ loading st' = loading st
  /\ expenses st' = expenses st /\ expensesDateRange st' = expensesDateRange st
  /\ periodGroups st' = periodGroups st /\ showExpenseModal st' = showExpenseModal st
  /\ editingExpense st' = editingExpense st /\ expenseForm st' = expenseForm st
  /\ formError st' = formError st /\ saving st' = saving st
  /\ confirmDialog st' = confirmDialog st.
Proof.
  unfold toast_shown, showToast, bind, read_store, state_of.
  destruct (toastTimeoutRef st); cbn; repeat split; reflexivity.
Qed.

(** Every trace of fetchAll is handled, and a load that met a 401 response
    stores nothing of what a load brings. *)
Lemma fetchAll_handled (st : State) (h : list Event) :
  let res := fetchAll host snap st h in
  Handled (trace_of res)
  /\ (clean (trace_of res) = false -> same_loaded_data st (state_of res)).
Proof.
  cbv zeta. destruct (base_url host) as [b |] eqn:Hb.
  2:{ rewrite (fetchAll_no_base host snap st h Hb). cbn. split.
      - apply Handled_clean. reflexivity.
      - discriminate. }
  rewrite (fetchAll_run host snap b st h Hb). cbv zeta.
  destruct (net host h _) as [msg | r].
  { cbn. split; [apply Handled_clean; reflexivity | discriminate]. }
  destruct (status r =? 401) eqn:E401.
  { cbn. split.
    - apply (Handled_401 []); [reflexivity | now apply Z.eqb_eq].
    - intros _. repeat split. }
  destruct (negb (ok r)).
  { cbn. rewrite E401. split; [apply Handled_clean; cbn; now rewrite E401 | discriminate]. }
  destruct (body_json r) as [periodJson |].
  2:{ cbn. rewrite E401.
      split; [apply Handled_clean; cbn; now rewrite E401 | discriminate]. }
  pose proof (fetch_pages_trace 50 b (startDate (resolve_range host snap periodJson))
                (endDate (resolve_range host snap periodJson)) 100 1 (JFin 1) []
                (set_periodGroups (page_list periodJson) (set_loading true st))
                (h ++ [EvFetch (period_request host snap b) (Responded r); EvReadJson])%list)
    as Hp.
  cbv zeta in Hp.
  destruct (fetch_pages host 50 b _ _ 100 1 (JFin 1) [] _ _) as [[c st2] tr].
  unfold state_of, completion_of, trace_of in *. cbn [fst snd] in *.
  destruct Hp as [Hst Hc]. subst st2.
  assert (Hev : clean_event (EvFetch (period_request host snap b) (Responded r)) = true)
    by (cbn; now rewrite E401).
  destruct c as [all | | e]; cbn [fst snd].
  - assert (Hcl : clean (EvFetch (period_request host snap b) (Responded r)
                           :: EvReadJson :: tr) = true)
      by (rewrite !clean_cons, Hev, Hc; reflexivity).
    split; [apply Handled_clean; exact Hcl | rewrite Hcl; discriminate].
  - destruct Hc as (pre & req & r' & -> & Hpre & Hs). split.
    + apply Handled_cons; [exact Hev |].
      apply Handled_cons; [reflexivity |].
      apply Handled_401; assumption.
    + intros _. repeat split.
  - assert (Hcl : clean (EvFetch (period_request host snap b) (Responded r)
                           :: EvReadJson :: tr ++ [load_failed_log e]) = true)
      by (rewrite !clean_cons, clean_app, Hev, Hc; reflexivity).
    split; [apply Handled_clean; exact Hcl | rewrite Hcl; discriminate].
Qed.

End LoaderTraces.

(** ** The form and the dialog, one step at a time *)

Section Handlers.

Variable host : Host.
Variable snap : State.

Lemma performSaveExpense_normal (p : SaveArgs) (st : State) (h : list Event) :
  completion_of (performSaveExpense host snap p st h) = Normal tt.
Proof.
  destruct (base_url host) as [b |] eqn:Hb.
  - rewrite (performSaveExpense_run host snap b p st h Hb). cbv zeta.
    destruct (net host h _) as [msg | r]; [reflexivity |].
    destruct (status r =? 401); [reflexivity |].
    destruct (negb (ok r)); reflexivity.
  - rewrite (performSaveExpense_no_base host snap p st h Hb). reflexivity.
Qed.

Lemma function_normal (m : M unit) (st : State) (h : list Event) :
  completion_of (m st h) = Normal tt -> function m st h = m st h.
Proof.
  unfold function. destruct (m st h) as [[c st'] tr]. cbn. intros ->. reflexivity.
Qed.

(** handleSaveExpense, by what the form holds. *)
Lemma handleSaveExpense_run (st : State) (h : list Event) :
  handleSaveExpense host snap st h
  = let st0 := set_formError "" st in
    match field_text (form_title (expenseForm snap)),
          field_text (form_description (expenseForm snap)) with
    | Some title, Some description =>
        let p := form_payload snap title description in
        if String.eqb title "" then
          (Normal tt, set_formError "Title is required." st0, [])
        else if String.eqb (expenseDate p) "" then
          (Normal tt, set_formError "Expense date is required." st0, [])
        else if negb (Number_isFinite (amount p)) || num_leb (amount p) (JFin 0) then
          (Normal tt, set_formError "Amount must be a positive number." st0, [])
        else if isEdit p then
          (Normal tt, set_confirmDialog (Some (update_dialog host p)) st0, [])
        else performSaveExpense host snap p st0 h
    | _, _ => (Throw type_error, st0, [])
    end.
Proof.
  unfold handleSaveExpense, field_text. cbv zeta.
  unfold function at 1. unfold bind at 1. unfold setFormError at 1, modify at 1.
  cbn [app]. rewrite app_nil_r.
  unfold bind at 1.
  destruct (js_or (form_title (expenseForm snap)) (VStr "")) as [| | ? | ? | t | ? | ?];
    try reflexivity.
  unfold trim_method at 1, ret at 1. cbn [app]. rewrite app_nil_r.
  unfold bind at 1.
  destruct (js_or (form_description (expenseForm snap)) (VStr "")) as [| | ? | ? | d | ? | ?];
    try reflexivity.
  unfold trim_method at 1, ret at 1. cbn [app]. rewrite app_nil_r.
  unfold bind at 1. unfold when at 1.
  destruct (String.eqb (trim t) ""); [reflexivity |].
  unfold ret at 1. cbn [app]. rewrite app_nil_r.
  unfold bind at 1. unfold when at 1.
  change (expenseDate (form_payload snap (trim t) (trim d)))
    with (form_expenseDate (expenseForm snap)).
  destruct (String.eqb (form_expenseDate (expenseForm snap)) ""); [reflexivity |].
  unfold ret at 1. cbn [app]. rewrite app_nil_r.
  unfold bind at 1. unfold when at 1.
  change (amount (form_payload snap (trim t) (trim d)))
    with (toNumber (VStr (form_amount (expenseForm snap)))).
  destruct (negb (Number_isFinite _) || num_leb _ (JFin 0)); [reflexivity |].
  unfold ret at 1. cbn [app]. rewrite app_nil_r.
  unfold bind at 1. unfold when at 1.
  change (isEdit (form_payload snap (trim t) (trim d)))
    with (truthy (expense_id (editingExpense snap))).
  fold (expense_id (editingExpense snap)).
  destruct (truthy (expense_id (editingExpense snap))) eqn:Hedit;
    [unfold form_payload; rewrite Hedit; reflexivity |].
  unfold ret at 1. cbn [app]. rewrite app_nil_r.
  set (p := {| isEdit := false |}).
  replace (form_payload snap (trim t) (trim d)) with p
    by (unfold p, form_payload; rewrite Hedit; reflexivity).
  pose proof (performSaveExpense_normal p (set_formError "" st) h) as Hn.
  destruct (performSaveExpense host snap p (set_formError "" st) h) as [[c st'] tr].
  cbn in Hn. subst c. reflexivity.
Qed.

(** handleDeleteExpense (lines 372-382). *)
Lemma handleDeleteExpense_run (exp : JsValue) (st : State) (h : list Event) :
  handleDeleteExpense host exp st h
  = if truthy exp
    then (Normal tt, set_confirmDialog (Some (delete_dialog host exp)) st, [])
    else (Normal tt, st, []).
Proof.
  unfold handleDeleteExpense, function, bind, when.
  destruct (truthy exp); reflexivity.
Qed.

End Handlers.

(** ** The requests of a run *)

Lemma requests_app (a b : list Event) : requests (a ++ b) = requests a ++ requests b.
Proof.
  induction a as [| e a IH]; [reflexivity |].
  destruct e; cbn; rewrite ?IH; reflexivity.
Qed.

Lemma In_requests (req : Request) (res : FetchResult) (tr : list Event) :
  In (EvFetch req res) tr -> In req (requests tr).
Proof.
  induction tr as [| e tr IH]; [auto |].
  intros [-> | Hin]; [now left |].
  destruct e; cbn; auto.
Qed.

Section LoaderRequests.

Variable host : Host.

(** The pagination loop asks for pages of the one range, and for nothing
    else. *)
Lemma fetch_pages_requests (fuel : nat) (b : string) (start end_ limit : Z) :
  forall (page : Z) (pages : jsnum) (all : list JsValue) (st : State) (h : list Event),
    Forall (fun q => exists k, q = expenses_request host b start end_ k limit)
      (requests (trace_of (fetch_pages host fuel b start end_ limit page pages all st h))).
Proof.
  induction fuel as [| fuel IH]; intros page pages all st h.
  - cbn [fetch_pages]. destruct (_ && _); constructor.
  - rewrite fetch_pages_step.
    destruct (_ && _); [| constructor]. cbv zeta.
    assert (Hq : exists k, expenses_request host b start end_ page limit
                           = expenses_request host b start end_ k limit)
      by (now exists page).
    destruct (net host h _) as [msg | r]; [repeat constructor; exact Hq |].
    destruct (status r =? 401); [repeat constructor; exact Hq |].
    destruct (negb (ok r)); [repeat constructor; exact Hq |].
    destruct (body_json r) as [expJson |]; [| repeat constructor; exact Hq].
    destruct (_ =? 0); [repeat constructor; exact Hq |].
    specialize (IH (page + 1) (page_count expJson) (all ++ page_list expJson) st
                  (h ++ [EvFetch (expenses_request host b start end_ page limit)
                           (Responded r); EvReadJson])).
    destruct (fetch_pages host fuel b start end_ limit (page + 1) _ _ st _)
      as [[c st'] tr].
    cbn in IH |- *. constructor; assumption.
Qed.

Variable snap : State.

(** A load asks for the period summary first, then for pages of the range
    resolved from the summary. *)
Lemma fetchAll_requests (b : string) (st : State) (h : list Event) :
  base_url host = Some b ->
  exists rest,
    requests (trace_of (fetchAll host snap st h)) = period_request host snap b :: rest
    /\ forall q, In q rest ->
         exists r periodJson k,
           net host h (period_request host snap b) = Responded r
           /\ body_json r = Some periodJson
           /\ q = expenses_request host b
                    (startDate (resolve_range host snap periodJson))
                    (endDate (resolve_range host snap periodJson)) k 100.
Proof.
  intros Hb. rewrite (fetchAll_run host snap b st h Hb). cbv zeta.
  destruct (net host h _) as [msg | r] eqn:Hnet.
  { exists []. split; [reflexivity | intros q []]. }
  destruct (status r =? 401); [exists []; split; [reflexivity | intros q []] |].
  destruct (negb (ok r)); [exists []; split; [reflexivity | intros q []] |].
  destruct (body_json r) as [periodJson |] eqn:Hj;
    [| exists []; split; [reflexivity | intros q []]].
  pose proof (fetch_pages_requests 50 b (startDate (resolve_range host snap periodJson))
                (endDate (resolve_range host snap periodJson)) 100 1 (JFin 1) []
                (set_periodGroups (page_list periodJson) (set_loading true st))
                (h ++ [EvFetch (period_request host snap b) (Responded r); EvReadJson]))
    as Hp.
  destruct (fetch_pages host 50 b _ _ 100 1 (JFin 1) [] _ _) as [[c st2] tr].
  unfold trace_of in *. cbn [snd] in Hp.
  rewrite Forall_forall in Hp.
  exists (requests tr). split.
  - destruct c; cbn [snd requests]; rewrite ?requests_app; cbn;
      rewrite ?app_nil_r; reflexivity.
  - intros q Hq. destruct (Hp q Hq) as [k ->]. exists r, periodJson, k. auto.
Qed.

Lemma fetchAll_requests_none (st : State) (h : list Event) :
  base_url host = None ->
  requests (trace_of (fetchAll host snap st h)) = [].
Proof.
  intros Hb. rewrite (fetchAll_no_base host snap st h Hb). reflexivity.
Qed.

Lemma fetchAll_requests_get (st : State) (h : list Event) (q : Request) :
  In q (requests (trace_of (fetchAll host snap st h))) ->
  req_method q = GET /\ (is_period_request q = true \/ is_page_request q = true).
Proof.
  destruct (base_url host) as [b |] eqn:Hb.
  - destruct (fetchAll_requests b st h Hb) as (rest & -> & Hrest).
    intros [<- | Hin]; [split; [reflexivity | now left] |].
    destruct (Hrest q Hin) as (r & pj & k & _ & _ & ->).
    split; [reflexivity | now right].
  - rewrite (fetchAll_requests_none st h Hb). intros [].
Qed.

(** A save asks for its own request, then for what the reload asks. *)
Lemma performSaveExpense_requests (p : SaveArgs) (st : State) (h : list Event)
    (q : Request) :
  In q (requests (trace_of (performSaveExpense host snap p st h))) ->
  (exists b, base_url host = Some b /\ q = save_request host b p)
  \/ req_method q = GET.
Proof.
  destruct (base_url host) as [b |] eqn:Hb.
  - rewrite (performSaveExpense_run host snap b p st h Hb). cbv zeta.
    assert (Hq : forall q', save_request host b p = q' ->
              (exists b0, Some b = Some b0 /\ q' = save_request host b0 p)
              \/ req_method q' = GET)
      by (intros q' <-; left; now exists b).
    destruct (net host h _) as [msg | r].
    { intros [H | []]. now apply Hq. }
    destruct (status r =? 401).
    { intros [H | []]. now apply Hq. }
    destruct (negb (ok r)).
    { intros [H | []]. now apply Hq. }
    cbn. intros [H | Hin]; [now apply Hq |].
    right. eapply fetchAll_requests_get; eauto.
  - rewrite (performSaveExpense_no_base host snap p st h Hb). intros [].
Qed.

(** A delete asks for its own request, then for what the reload asks. *)
Lemma performDeleteExpense_requests (exp : JsValue) (st : State) (h : list Event)
    (q : Request) :
  In q (requests (trace_of (performDeleteExpense host snap exp st h))) ->
  (exists b, base_url host = Some b /\ q = delete_request host b (expense_id exp))
  \/ req_method q = GET.
Proof.
  destruct (truthy (expense_id exp)) eqn:Hid.
  2:{ rewrite (performDeleteExpense_no_id host snap exp st h Hid). intros []. }
  destruct (base_url host) as [b |] eqn:Hb.
  - rewrite (performDeleteExpense_run host snap b exp st h Hid Hb). cbv zeta.
    assert (Hq : forall q', delete_request host b (expense_id exp) = q' ->
              (exists b0, Some b = Some b0 /\ q' = delete_request host b0 (expense_id exp))
              \/ req_method q' = GET)
      by (intros q' <-; left; now exists b).
    destruct (net host h _) as [msg | r].
    { intros [H | []]. now apply Hq. }
    destruct (status r =? 401).
    { intros [H | []]. now apply Hq. }
    destruct (negb (ok r)).
    { intros [H | []]. now apply Hq. }
    cbn. intros [H | Hin]; [now apply Hq |].
    right. eapply fetchAll_requests_get; eauto.
  - rewrite (performDeleteExpense_no_base host snap exp st h Hid Hb). intros [].
Qed.

End LoaderRequests.

(** ** Every event of the page *)

Section Events.

Variable host : Host.

Lemma performSaveExpense_handled (snap : State) (p : SaveArgs) (st : State)
    (h : list Event) :
  Handled (trace_of (performSaveExpense host snap p st h)).
Proof.
  destruct (base_url host) as [b |] eqn:Hb.
  2:{ rewrite (performSaveExpense_no_base host snap p st h Hb).
      apply Handled_clean. reflexivity. }
  rewrite (performSaveExpense_run host snap b p st h Hb). cbv zeta.
  destruct (net host h _) as [msg | r]; [apply Handled_clean; reflexivity |].
  destruct (status r =? 401) eqn:E401.
  { apply (Handled_401 []); [reflexivity | now apply Z.eqb_eq]. }
  assert (Hev : clean_event (EvFetch (save_request host b p) (Responded r)) = true)
    by (cbn; now rewrite E401).
  destruct (negb (ok r)).
  { apply Handled_clean. unfold trace_of. cbn [snd]. rewrite clean_cons, Hev. reflexivity. }
  apply Handled_cons; [exact Hev |]. apply fetchAll_handled.
Qed.

Lemma performDeleteExpense_handled (snap : State) (exp : JsValue) (st : State)
    (h : list Event) :
  Handled (trace_of (performDeleteExpense host snap exp st h)).
Proof.
  destruct (truthy (expense_id exp)) eqn:Hid.
  2:{ rewrite (performDeleteExpense_no_id host snap exp st h Hid).
      apply Handled_clean. reflexivity. }
  destruct (base_url host) as [b |] eqn:Hb.
  2:{ rewrite (performDeleteExpense_no_base host snap exp st h Hid Hb).
      apply Handled_clean. reflexivity. }
  rewrite (performDeleteExpense_run host snap b exp st h Hid Hb). cbv zeta.
  destruct (net host h _) as [msg | r]; [apply Handled_clean; reflexivity |].
  destruct (status r =? 401) eqn:E401.
  { apply (Handled_401 []); [reflexivity | now apply Z.eqb_eq]. }
  assert (Hev : clean_event (EvFetch (delete_request host b (expense_id exp))
                               (Responded r)) = true)
    by (cbn; now rewrite E401).
  destruct (negb (ok r)).
  { apply Handled_clean. unfold trace_of. cbn [snd]. rewrite clean_cons, Hev. reflexivity. }
  apply Handled_cons; [exact Hev |]. apply fetchAll_handled.
Qed.

Lemma handleSaveExpense_handled (snap st : State) (h : list Event) :
  Handled (trace_of (handleSaveExpense host snap st h)).
Proof.
  rewrite handleSaveExpense_run. cbv zeta.
  destruct (field_text _) as [t |]; [| apply Handled_clean; reflexivity].
  destruct (field_text _) as [d |]; [| apply Handled_clean; reflexivity].
  repeat (match goal with
          | |- context [if ?c then _ else _] => destruct c
          end; [apply Handled_clean; reflexivity |]).
  apply performSaveExpense_handled.
Qed.

Lemma handleSaveExpense_requests (snap st : State) (h : list Event) (q : Request) :
  In q (requests (trace_of (handleSaveExpense host snap st h))) ->
  req_method q = POST \/ req_method q = GET.
Proof.
  rewrite handleSaveExpense_run. cbv zeta.
  destruct (field_text _) as [t |]; [| intros []].
  destruct (field_text _) as [d |]; [| intros []].
  repeat (match goal with
          | |- context [if ?c then _ else _] => destruct c eqn:?
          end; [intros [] |]).
  intros Hin. apply performSaveExpense_requests in Hin.
  destruct Hin as [(b & _ & ->) | Hget]; [left | now right].
  unfold save_request. cbn [req_method].
  match goal with H : isEdit _ = false |- _ => rewrite H end. reflexivity.
Qed.

(** What an event of the page emits: a handled trace, or the move to the
    login page alone (Logout). *)
Lemma dispatch_trace (a : Action) (s : State) (h : list Event) :
  Handled (trace_of (dispatch host a s h))
  \/ trace_of (dispatch host a s h) = [EvLocation login_href].
Proof.
  assert (Hnil : forall (c : Completion unit) (st : State),
             Handled (trace_of (c, st, @nil Event)))
    by (intros; apply Handled_clean; reflexivity).
  destruct a; unfold dispatch.
  - left. apply fetchAll_handled.
  - left. unfold bind, setSelectedPeriod, modify.
    destruct (negb _); cbn [when app].
    + rewrite fetchAll_eta. apply fetchAll_handled.
    + apply Hnil.
  - right. reflexivity.
  - left. apply Hnil.
  - left. destruct (table_rendered s); apply Hnil.
  - left. destruct (table_rendered s); cbn [when]; [| apply Hnil].
    rewrite handleDeleteExpense_run. destruct (truthy exp); apply Hnil.
  - left. destruct (showExpenseModal s); apply Hnil.
  - left. destruct (showExpenseModal s); apply Hnil.
  - left. destruct (showExpenseModal s); apply Hnil.
  - left. destruct (showExpenseModal s); apply Hnil.
  - left. destruct (_ && _); cbn [when]; [| apply Hnil].
    rewrite closeModal_eq. apply Hnil.
  - left. destruct (_ && _); cbn [when]; [| apply Hnil].
    apply handleSaveExpense_handled.
  - left. destruct (confirmDialog s); [| apply Hnil].
    destruct (negb (saving s)); apply Hnil.
  - left. destruct (confirmDialog s) as [d |]; [| apply Hnil].
    destruct (negb (saving s)); cbn [when]; [| apply Hnil].
    unfold confirm_onClick. destruct (dialog_action d).
    + apply performSaveExpense_handled.
    + apply performDeleteExpense_handled.
  - left. destruct (existsb _ _); apply Hnil.
Qed.

(** An event of the page that emits anything ends normally: only the
    form handler can throw, before it emits. *)
Lemma dispatch_completion (a : Action) (s : State) (h : list Event) :
  completion_of (dispatch host a s h) = Normal tt
  \/ trace_of (dispatch host a s h) = [].
Proof.
  destruct a; unfold dispatch.
  - left. apply fetchAll_normal.
  - left. unfold bind, setSelectedPeriod, modify.
    destruct (negb _); cbn [when app]; [| reflexivity].
    rewrite fetchAll_eta. reflexivity.
  - left. reflexivity.
  - left. reflexivity.
  - left. destruct (table_rendered s); reflexivity.
  - left. destruct (table_rendered s); cbn [when]; [| reflexivity].
    rewrite handleDeleteExpense_run. destruct (truthy exp); reflexivity.
  - left. destruct (showExpenseModal s); reflexivity.
  - left. destruct (showExpenseModal s); reflexivity.
  - left. destruct (showExpenseModal s); reflexivity.
  - left. destruct (showExpenseModal s); reflexivity.
  - left. destruct (_ && _); cbn [when]; [| reflexivity].
    rewrite closeModal_eq. reflexivity.
  - destruct (_ && _); cbn [when]; [| left; reflexivity].
    rewrite handleSaveExpense_run. cbv zeta.
    destruct (field_text _) as [t |]; [| right; reflexivity].
    destruct (field_text _) as [d |]; [| right; reflexivity].
    left.
    repeat (match goal with
            | |- context [if ?c then _ else _] => destruct c
            end; [reflexivity |]).
    apply performSaveExpense_normal.
  - left. destruct (confirmDialog s); [| reflexivity].
    destruct (negb (saving s)); reflexivity.
  - left. destruct (confirmDialog s) as [d |]; [| reflexivity].
    destruct (negb (saving s)); cbn [when]; [| reflexivity].
    unfold confirm_onClick. destruct (dialog_action d).
    + apply performSaveExpense_normal.
    + destruct (truthy (expense_id payload)) eqn:Hid.
      2:{ rewrite (performDeleteExpense_no_id host s payload s h Hid). reflexivity. }
      destruct (base_url host) as [b |] eqn:Hb.
      2:{ rewrite (performDeleteExpense_no_base host s payload s h Hid Hb). reflexivity. }
      rewrite (performDeleteExpense_run host s b payload s h Hid Hb). cbv zeta.
      destruct (net host h _) as [msg | r]; [reflexivity |].
      destruct (status r =? 401); [reflexivity |].
      destruct (negb (ok r)); reflexivity.
  - left. destruct (existsb _ _); reflexivity.
Qed.

(** The requests an event of the page issues: reads (GET), the create of a
    submitted form (POST), or the request of the staged action the confirm
    button runs. *)
Lemma dispatch_requests (a : Action) (s : State) (h : list Event) (q : Request) :
  In q (requests (trace_of (dispatch host a s h))) ->
  req_method q = GET
  \/ (a = SubmitForm /\ req_method q = POST)
  \/ (a = ClickConfirm /\
      exists d b,
        confirmDialog s = Some d /\ base_url host = Some b /\
        match dialog_action d with
        | PendingUpdate payload => q = save_request host b payload
        | PendingDelete payload => q = delete_request host b (expense_id payload)
        end).
Proof.
  destruct a; unfold dispatch.
  - intros Hin. left. eapply fetchAll_requests_get; eauto.
  - unfold bind, setSelectedPeriod, modify.
    destruct (negb _); cbn [when app]; [| intros []].
    rewrite fetchAll_eta. cbn [trace_of snd app].
    intros Hin. left. eapply fetchAll_requests_get; eauto.
  - intros [].
  - intros [].
  - destruct (table_rendered s); intros [].
  - destruct (table_rendered s); cbn [when]; [| intros []].
    rewrite handleDeleteExpense_run. destruct (truthy exp); intros [].
  - destruct (showExpenseModal s); intros [].
  - destruct (showExpenseModal s); intros [].
  - destruct (showExpenseModal s); intros [].
  - destruct (showExpenseModal s); intros [].
  - destruct (_ && _); cbn [when]; [| intros []].
    rewrite closeModal_eq. intros [].
  - destruct (_ && _); cbn [when]; [| intros []].
    intros Hin. apply handleSaveExpense_requests in Hin.
    destruct Hin; [right; left; auto | now left].
  - destruct (confirmDialog s); [| intros []].
    destruct (negb (saving s)); intros [].
  - destruct (confirmDialog s) as [d |] eqn:Hd; [| intros []].
    destruct (negb (saving s)); cbn [when]; [| intros []].
    unfold confirm_onClick. intros Hin.
    destruct (dialog_action d) as [payload | payload] eqn:Hact.
    + apply performSaveExpense_requests in Hin.
      destruct Hin as [(b & Hb & ->) | Hget]; [| now left].
      right; right. split; [reflexivity |]. exists d, b. rewrite Hact. auto.
    + apply performDeleteExpense_requests in Hin.
      destruct Hin as [(b & Hb & ->) | Hget]; [| now left].
      right; right. split; [reflexivity |]. exists d, b. rewrite Hact. auto.
  - destruct (existsb _ _); intros [].
Qed.

End Events.

(** ** The confirmation dialog *)

Section Dialog.

Variable host : Host.

Lemma toast_shown_confirmDialog (message type : string) (st : State) :
  confirmDialog (toast_shown message type st) = confirmDialog st.
Proof. apply toast_shown_fields. Qed.

(** A load leaves the dialog as it is. *)
Lemma fetchAll_confirmDialog (snap st : State) (h : list Event) :
  confirmDialog (state_of (fetchAll host snap st h)) = confirmDialog st.
Proof.
  destruct (base_url host) as [b |] eqn:Hb.
  2:{ rewrite (fetchAll_no_base host snap st h Hb). reflexivity. }
  rewrite (fetchAll_run host snap b st h Hb). cbv zeta.
  destruct (net host h _) as [msg | r].
  { unfold state_of, load_failed. cbn. rewrite toast_shown_confirmDialog. reflexivity. }
  destruct (status r =? 401); [reflexivity |].
  destruct (negb (ok r)).
  { unfold state_of, load_failed. cbn. rewrite toast_shown_confirmDialog. reflexivity. }
  destruct (body_json r) as [periodJson |].
  2:{ unfold state_of, load_failed. cbn. rewrite toast_shown_confirmDialog. reflexivity. }
  pose proof (fetch_pages_trace host 50 b (startDate (resolve_range host snap periodJson))
                (endDate (resolve_range host snap periodJson)) 100 1 (JFin 1) []
                (set_periodGroups (page_list periodJson) (set_loading true st))
                (h ++ [EvFetch (period_request host snap b) (Responded r); EvReadJson]))
    as [Hst _].
  destruct (fetch_pages host 50 b _ _ 100 1 (JFin 1) [] _ _) as [[c st2] tr].
  unfold state_of in *. cbn [fst snd] in *. subst st2.
  destruct c as [all | | e]; cbn [fst snd]; try reflexivity.
  unfold load_failed. cbn. rewrite toast_shown_confirmDialog. reflexivity.
Qed.

(** A save clears the dialog or leaves it as it is. *)
Lemma performSaveExpense_confirmDialog (snap : State) (p : SaveArgs) (st : State)
    (h : list Event) :
  let st' := state_of (performSaveExpense host snap p st h) in
  confirmDialog st' = None \/ confirmDialog st' = confirmDialog st.
Proof.
  cbv zeta. destruct (base_url host) as [b |] eqn:Hb.
  2:{ rewrite (performSaveExpense_no_base host snap p st h Hb). now right. }
  rewrite (performSaveExpense_run host snap b p st h Hb). cbv zeta.
  destruct (net host h _) as [msg | r].
  { right. unfold state_of, save_failed. cbn. rewrite toast_shown_confirmDialog. reflexivity. }
  destruct (status r =? 401); [now right |].
  destruct (negb (ok r)).
  { right. unfold state_of, save_failed. cbn. rewrite toast_shown_confirmDialog. reflexivity. }
  left. unfold state_of at 1. cbn [fst snd set_saving confirmDialog].
  rewrite toast_shown_confirmDialog, fetchAll_confirmDialog.
  unfold modal_closed. destruct (saving snap); reflexivity.
Qed.

(** A delete clears the dialog or leaves it as it is. *)
Lemma performDeleteExpense_confirmDialog (snap : State) (exp : JsValue) (st : State)
    (h : list Event) :
  let st' := state_of (performDeleteExpense host snap exp st h) in
  confirmDialog st' = None \/ confirmDialog st' = confirmDialog st.
Proof.
  cbv zeta. destruct (truthy (expense_id exp)) eqn:Hid.
  2:{ rewrite (performDeleteExpense_no_id host snap exp st h Hid). now right. }
  destruct (base_url host) as [b |] eqn:Hb.
  2:{ rewrite (performDeleteExpense_no_base host snap exp st h Hid Hb).
      right. unfold state_of. cbn [fst snd]. rewrite toast_shown_confirmDialog. reflexivity. }
  rewrite (performDeleteExpense_run host snap b exp st h Hid Hb). cbv zeta.
  destruct (net host h _) as [msg | r].
  { right. unfold state_of, delete_failed. cbn. rewrite toast_shown_confirmDialog. reflexivity. }
  destruct (status r =? 401); [now right |].
  destruct (negb (ok r)).
  { right. unfold state_of, delete_failed. cbn. rewrite toast_shown_confirmDialog. reflexivity. }
  left. unfold state_of at 1. cbn [fst snd set_saving confirmDialog].
  rewrite toast_shown_confirmDialog, fetchAll_confirmDialog. reflexivity.
Qed.

(** After an event the dialog is gone, unchanged, or freshly staged. *)
Lemma dispatch_confirmDialog (a : Action) (s : State) (h : list Event) :
  let s' := state_of (dispatch host a s h) in
  confirmDialog s' = None
  \/ confirmDialog s' = confirmDialog s
  \/ exists d, confirmDialog s' = Some d /\ staged_by_page host d.
Proof.
  cbv zeta. destruct a; unfold dispatch.
  - right; left. apply fetchAll_confirmDialog.
  - right; left. unfold bind, setSelectedPeriod, modify.
    destruct (negb _); cbn [when app]; [| reflexivity].
    rewrite fetchAll_eta. unfold state_of at 1. cbn [fst snd].
    rewrite fetchAll_confirmDialog. reflexivity.
  - right; left. reflexivity.
  - right; left. reflexivity.
  - right; left. destruct (table_rendered s); reflexivity.
  - destruct (table_rendered s); cbn [when]; [| right; left; reflexivity].
    rewrite handleDeleteExpense_run. destruct (truthy exp) eqn:Hexp.
    + right; right. exists (delete_dialog host exp). split; [reflexivity |].
      right. exists exp. auto.
    + right; left. reflexivity.
  - right; left. destruct (showExpenseModal s); reflexivity.
  - right; left. destruct (showExpenseModal s); reflexivity.
  - right; left. destruct (showExpenseModal s); reflexivity.
  - right; left. destruct (showExpenseModal s); reflexivity.
  - right; left. destruct (_ && _); cbn [when]; [| reflexivity].
    rewrite closeModal_eq. unfold modal_closed, state_of. cbn [fst snd].
    destruct (saving s); reflexivity.
  - destruct (_ && _); cbn [when]; [| right; left; reflexivity].
    rewrite handleSaveExpense_run. cbv zeta.
    destruct (field_text _) as [t |]; [| right; left; reflexivity].
    destruct (field_text _) as [d |]; [| right; left; reflexivity].
    destruct (String.eqb t ""); [right; left; reflexivity |].
    destruct (String.eqb _ ""); [right; left; reflexivity |].
    destruct (negb _ || _); [right; left; reflexivity |].
    destruct (isEdit (form_payload s t d)) eqn:Hedit.
    + right; right. exists (update_dialog host (form_payload s t d)).
      split; [reflexivity |]. left. exists (form_payload s t d). auto.
    + destruct (performSaveExpense_confirmDialog s (form_payload s t d)
                  (set_formError "" s) h) as [Hn | Hsame]; [now left |].
      right; left. rewrite Hsame. reflexivity.
  - destruct (confirmDialog s) eqn:Hd; [| right; left; cbn; now rewrite Hd].
    destruct (negb (saving s)); [left; reflexivity |].
    right; left. cbn. now rewrite Hd.
  - destruct (confirmDialog s) as [d |] eqn:Hd; [| right; left; cbn; now rewrite Hd].
    destruct (negb (saving s)); cbn [when]; [| right; left; cbn; now rewrite Hd].
    unfold confirm_onClick. rewrite <- Hd. destruct (dialog_action d).
    + destruct (performSaveExpense_confirmDialog s payload s h); auto.
    + destruct (performDeleteExpense_confirmDialog s payload s h); auto.
  - right; left. destruct (existsb _ _); reflexivity.
Qed.

(** Whatever dialog a reachable state holds was staged by the page. *)
Lemma reachable_dialog_staged (s : State) :
  reachable host s ->
  forall d, confirmDialog s = Some d -> staged_by_page host d.
Proof.
  induction 1 as [| s a h Hreach IH]; intros d Hd.
  - discriminate.
  - destruct (dispatch_confirmDialog a s h) as [Hn | [Hsame | (d' & Hd' & Hst)]].
    + rewrite Hn in Hd. discriminate.
    + rewrite Hsame in Hd. exact (IH d Hd).
    + rewrite Hd' in Hd. inversion Hd; subst. exact Hst.
Qed.

End Dialog.

(** ** The specification *)

(** Without a base URL a save reports the condition in the form and a
    delete in a toast; neither writes to the console, only the load does. *)
Lemma no_base_url_save_not_logged :
  base_url offline_host = None
  /\ existsb is_console
       (trace_of (performSaveExpense offline_host ready_state sample_update ready_state []))
     = false
  /\ existsb is_console
       (trace_of (performDeleteExpense offline_host ready_state (record 7) ready_state []))
     = false.
Proof. repeat split. Qed.

(** C8: without a base URL no operation issues a request and none throws;
    each returns early with at most a local message.  The load writes a
    warning to the console and clears [loading]; the save sets the form
    error; the delete shows an error toast (nothing at all for a record
    without identifier). *)
Theorem no_base_url_no_network (host : Host) (snap st : State) (h : list Event) :
  base_url host = None ->
  fetchAll host snap st h
  = (Normal tt, set_loading false st,
     [EvConsoleWarn "API base URL is not set. Cannot fetch money manager data."])
  /\ (forall p,
        performSaveExpense host snap p st h
        = (Normal tt, set_formError "API base URL is not configured." st, []))
  /\ (forall exp,
        performDeleteExpense host snap exp st h
        = (Normal tt,
           if truthy (expense_id exp)
           then toast_shown "API base URL is not configured." "error" st
           else st,
           [])).
Proof.
  intros Hb. split; [| split].
  - apply fetchAll_no_base; exact Hb.
  - intros p. apply performSaveExpense_no_base; exact Hb.
  - intros exp. destruct (truthy (expense_id exp)) eqn:Hid.
    + apply performDeleteExpense_no_base; assumption.
    + apply performDeleteExpense_no_id; assumption.
Qed.

Lemma no_base_url_no_network_witness :
  requests (trace_of (fetchAll offline_host ready_state ready_state [])) = []
  /\ requests (trace_of
       (performSaveExpense offline_host ready_state sample_update ready_state [])) = []
  /\ requests (trace_of
       (performDeleteExpense offline_host ready_state (record 7) ready_state [])) = [].
Proof.
  destruct (no_base_url_no_network offline_host ready_state ready_state [] eq_refl)
    as (Hload & Hsave & Hdelete).
  rewrite Hload, (Hsave sample_update), (Hdelete (record 7)).
  repeat split.
Defined.

(** C2 fails on the 401 branch: a load that is answered 401 returns with
    [loading] true, as line 148 set it, though it was false before. *)
Lemma fetchAll_unauthorized_keeps_loading :
  loading ready_state = false
  /\ fetchAll expired_host ready_state ready_state []
     = (Normal tt, set_loading true ready_state,
        EvFetch (period_request expired_host ready_state "https://api.test")
          (Responded (status_response 401)) :: unauthorized_events).
Proof.
  split; [reflexivity |].
  rewrite (fetchAll_run expired_host ready_state "https://api.test" _ _ eq_refl).
  reflexivity.
Qed.

(** On every other path the load ends with [loading] false. *)
Lemma fetchAll_clears_loading (host : Host) (snap st : State) (h : list Event) :
  clean (trace_of (fetchAll host snap st h)) = true ->
  loading (state_of (fetchAll host snap st h)) = false.
Proof.
  destruct (base_url host) as [b |] eqn:Hb.
  2:{ rewrite (fetchAll_no_base host snap st h Hb). reflexivity. }
  rewrite (fetchAll_run host snap b st h Hb). cbv zeta.
  destruct (net host h _) as [msg | r]; [reflexivity |].
  destruct (status r =? 401) eqn:E401.
  { unfold trace_of. cbn [snd]. rewrite clean_cons. cbn [clean_event].
    rewrite E401. discriminate. }
  destruct (negb (ok r)); [reflexivity |].
  destruct (body_json r) as [periodJson |]; [| reflexivity].
  pose proof (fetch_pages_trace host 50 b (startDate (resolve_range host snap periodJson))
                (endDate (resolve_range host snap periodJson)) 100 1 (JFin 1) []
                (set_periodGroups (page_list periodJson) (set_loading true st))
                (h ++ [EvFetch (period_request host snap b) (Responded r); EvReadJson]))
    as Hp.
  cbv zeta in Hp.
  destruct (fetch_pages host 50 b _ _ 100 1 (JFin 1) [] _ _) as [[c st2] tr].
  unfold state_of, completion_of, trace_of in *. cbn [fst snd] in *.
  destruct Hp as [Hst Hc].
  destruct c as [all | | e]; cbn [fst snd]; try reflexivity.
  destruct Hc as (pre & req & r' & -> & Hpre & Hs).
  rewrite !clean_cons, clean_app, clean_cons. cbn [clean_event].
  apply Z.eqb_eq in Hs. rewrite Hs, !andb_false_r. discriminate.
Qed.







Lemma ok_not_unauthorized (r : Response) : ok r = true -> (status r =? 401) = false.
Proof.
  unfold ok. intros H. apply andb_true_iff in H as [_ H].
  apply Z.leb_le in H. apply Z.eqb_neq. lia.
Qed.



(** ** Pagination against a server that serves its pages *)

Lemma num_leb_inject (a b : Z) : num_leb (num_of_Z a) (JFin (inject_Z b)) = (a <=? b).
Proof.
  unfold num_leb, num_of_Z, Qle_bool, inject_Z. cbn [Qnum Qden].
  rewrite !Z.mul_1_r. reflexivity.
Qed.

Lemma num_or_count (p : Z) : 0 < p -> num_or (num_of_Z p) (JFin 1) = num_of_Z p.
Proof.
  intros Hp. unfold num_or, num_of_Z. cbn [truthy].
  unfold Qeq_bool, inject_Z. cbn [Qnum Qden].
  destruct (Z.eqb_spec (p * 1) (0 * 1)); [lia | reflexivity].
Qed.

Lemma skipn_nth {A} (d : A) (l : list A) (k : nat) :
  (k < List.length l)%nat -> skipn k l = nth k l d :: skipn (S k) l.
Proof.
  revert l. induction k as [| k IH]; intros [| x l] Hk; cbn in Hk; try lia.
  - reflexivity.
  - cbn [skipn nth]. rewrite (IH l) by lia. reflexivity.
Qed.

Section Paged.

Variable host : Host.
Variable b : string.
Variable pgs : list (list JsValue).

Hypothesis serves : serves_pages host b pgs.

(** From page [k + 1] on, the loop requests the pages the specification
    counts and appends them in order. *)
Lemma fetch_pages_served (start end_ : Z) (fuel : nat) :
  forall (k : nat) (pages : jsnum) (all : list JsValue) (st : State) (h : list Event),
    (50 - k <= fuel)%nat ->
    num_leb (num_of_Z (Z.of_nat k + 1)) pages
    = (Z.of_nat k + 1 <=? Z.of_nat (List.length pgs)) ->
    let n := pages_served (50 - k) (skipn k pgs) in
    exists tr,
      fetch_pages host fuel b start end_ 100 (Z.of_nat k + 1) pages all st h
      = (Normal (all ++ List.concat (firstn n (skipn k pgs))), st, tr)
      /\ requests tr
         = map (fun i => expenses_request host b start end_ (Z.of_nat i) 100)
             (seq (S k) n).
Proof.
  induction fuel as [| fuel IH]; intros k pages all st h Hfuel Hpages n; subst n.
  - assert (Hk : (50 - k = 0)%nat) by lia. rewrite Hk.
    cbn [fetch_pages pages_served firstn List.concat seq map]. rewrite app_nil_r.
    exists []. destruct (_ && _); split; reflexivity.
  - rewrite fetch_pages_step, Hpages.
    destruct (Z.leb_spec (Z.of_nat k + 1) (Z.of_nat (List.length pgs))) as [Hlt | Hge].
    2:{ cbn [andb]. rewrite skipn_all2 by lia. exists [].
        destruct (50 - k)%nat; cbn; rewrite app_nil_r; split; reflexivity. }
    destruct (Z.leb_spec (Z.of_nat k + 1) 50) as [Hlt50 | Hge50].
    2:{ cbn [andb]. replace (50 - k)%nat with 0%nat by lia. exists [].
        cbn. rewrite app_nil_r. split; reflexivity. }
    cbn [andb]. cbv zeta.
    destruct (serves h start end_ (Z.of_nat k + 1) 100)
      as (r & expJson & Hnet & Hok & Hjson & Hlist & Hcount).
    rewrite Hnet, (ok_not_unauthorized r Hok), Hok, Hjson. cbn [negb].
    replace (Z.to_nat (Z.of_nat k + 1 - 1)) with k in Hlist by lia.
    assert (Hpc : page_count expJson = JFin (inject_Z (Z.of_nat (List.length pgs)))).
    { unfold page_count. rewrite Hcount. apply num_or_count. lia. }
    rewrite Hlist, Hpc.
    rewrite (skipn_nth [] pgs k) by lia.
    replace (50 - k)%nat with (S (50 - S k)) by lia.
    cbn [pages_served].
    destruct (nth k pgs []) as [| x p] eqn:Hp.
    + change (Z.of_nat (@List.length JsValue []) =? 0) with true. cbv iota.
      eexists. split; [reflexivity |].
      cbn [requests seq map firstn List.concat app].
      replace (Z.of_nat (S k)) with (Z.of_nat k + 1) by lia. reflexivity.
    + destruct (Z.eqb_spec (Z.of_nat (List.length (x :: p))) 0) as [E | _];
        [cbn [List.length] in E; lia |].
      replace (Z.of_nat k + 1 + 1) with (Z.of_nat (S k) + 1) by lia.
      destruct (IH (S k) (JFin (inject_Z (Z.of_nat (List.length pgs))))
                  (all ++ x :: p) st
                  (h ++ [EvFetch (expenses_request host b start end_ (Z.of_nat k + 1) 100)
                           (Responded r); EvReadJson]))
        as (tr & Hrun & Hreq); [lia | apply num_leb_inject |].
      rewrite Hrun. eexists. split.
      * cbn [firstn List.concat]. rewrite <- app_assoc. reflexivity.
      * cbn [requests seq map]. rewrite Hreq.
        replace (Z.of_nat (S k)) with (Z.of_nat k + 1) by lia. reflexivity.
Qed.

End Paged.

Lemma pages_served_bounds (budget : nat) (l : list (list JsValue)) :
  (pages_served budget l <= budget)%nat
  /\ (pages_served budget l <= List.length l)%nat
  /\ (l <> [] -> (0 < budget)%nat -> (1 <= pages_served budget l)%nat)
  /\ (Forall (fun p => p <> []) l -> pages_served budget l = Nat.min (List.length l) budget).
Proof.
  revert l. induction budget as [| budget IH]; intros l.
  - cbn. repeat split; lia.
  - destruct l as [| p l];
      [cbn; repeat split; try lia; congruence |].
    destruct (IH l) as (H1 & H2 & _ & H4).
    cbn [pages_served List.length]. destruct p as [| x p].
    + repeat split; try lia. intros Hall. inversion Hall; congruence.
    + repeat split; try lia. intros Hall. inversion Hall; subst.
      rewrite H4 by assumption. reflexivity.
Qed.

Lemma paged_host_serves (pgs : list (list JsValue)) :
  serves_pages (paged_host pgs) "https://api.test" pgs.
Proof.
  intros h start end_ page limit.
  exists (page_response pgs page), 
    (VObj [("data", VArr (nth (Z.to_nat (page - 1)) pgs []));
           ("pagination", VObj [("pages", VNum (num_of_Z (Z.of_nat (List.length pgs))))])]).
  repeat split.
Qed.

Lemma filter_page_requests (host : Host) (b : string) (start end_ : Z) (l : list nat) :
  filter is_page_request
    (map (fun i => expenses_request host b start end_ (Z.of_nat i) 100) l)
  = map (fun i => expenses_request host b start end_ (Z.of_nat i) 100) l.
Proof.
  induction l as [| i l IH]; [reflexivity |].
  cbn [map filter]. unfold is_page_request at 1. cbn [expenses_request req_resource].
  rewrite IH. reflexivity.
Qed.

(** The fuel of the loop is never what stops it: from page 1 on, fifty turns
    are all the guard [page <= 50] allows. *)
Lemma fetch_pages_fuel (host : Host) (b : string) (start end_ limit : Z) (fuel : nat) :
  forall (page : Z) (pages : jsnum) (all : list JsValue) (st : State) (h : list Event),
    51 - page <= Z.of_nat fuel ->
    fetch_pages host (S fuel) b start end_ limit page pages all st h
    = fetch_pages host fuel b start end_ limit page pages all st h.
Proof.
  induction fuel as [| fuel IH]; intros page pages all st h Hfuel.
  - rewrite fetch_pages_step. cbn [fetch_pages].
    destruct (Z.leb_spec page 50); [lia |]. rewrite andb_false_r. reflexivity.
  - rewrite (fetch_pages_step host (S fuel)), (fetch_pages_step host fuel).
    destruct (_ && _); [| reflexivity]. cbv zeta.
    destruct (net host h _) as [msg | r]; [reflexivity |].
    destruct (status r =? 401); [reflexivity |].
    destruct (negb (ok r)); [reflexivity |].
    destruct (body_json r) as [expJson |]; [| reflexivity].
    destruct (_ =? 0); [reflexivity |].
    rewrite IH by lia. reflexivity.
Qed.

Lemma fetch_pages_enough_fuel (host : Host) (b : string) (start end_ limit : Z)
    (extra : nat) (pages : jsnum) (all : list JsValue) (st : State) (h : list Event) :
  fetch_pages host (50 + extra) b start end_ limit 1 pages all st h
  = fetch_pages host 50 b start end_ limit 1 pages all st h.
Proof.
  induction extra as [| extra IH].
  - rewrite Nat.add_0_r. reflexivity.
  - rewrite Nat.add_succ_r, fetch_pages_fuel by lia. exact IH.
Qed.




(** ** The range of the expenses query *)




(** Where a clock change skips the midnight that opens the month, the range
    starts at 01:00 of that day: the condition on the zone is needed. *)
Example getPeriodDateRange_skipped_midnight :
  let r := getPeriodDateRange skipped_midnight 1508068800000 "monthly" in
  startDate r = 1506830400000
  /\ TimeWithinDay (LocalTime skipped_midnight (startDate r)) = MakeTime 1 0 0 0.
Proof. vm_compute. split; reflexivity. Qed.

(** * Further properties *)

(** ** getPeriodDateRange and formatDateInput *)

(** X1: in a zone of fixed offset, the range computed on the page contains
    the present moment, and its end lies on the current local day. *)
Theorem getPeriodDateRange_contains_now (tza now : Z) (period : string) :
  0 <= LocalTime (fixed tza) now ->
  let r := getPeriodDateRange (fixed tza) now period in
  startDate r <= now <= endDate r
  /\ Day (LocalTime (fixed tza) (endDate r)) = Day (LocalTime (fixed tza) now).
Proof.
  intros Hnow r. unfold r.
  rewrite (getPeriodDateRange_start_day (fixed tza) (fixed_regular tza)) by exact Hnow.
  pose proof (getPeriodDateRange_start_le (fixed tza) now period) as Hle.
  set (dd := MakeDay _ _ 1) in *.
  unfold getPeriodDateRange. cbn [endDate]. unfold setHours.
  rewrite (shown_day_end (fixed tza) (fixed_regular tza)).
  rewrite Day_MakeDate by (unfold MakeTime, msPerDay; lia).
  split; [| reflexivity].
  unfold LocalTime, UTC, fixed, MakeDate, MakeTime, Day, msPerDay in *.
  Z.div_mod_to_equations. lia.
Qed.

Lemma getPeriodDateRange_contains_now_witness :
  1709226000000 <= 1710498600000 <= 1710521999999.
Proof.
  apply (getPeriodDateRange_contains_now 25200000 1710498600000 "monthly").
  vm_compute. discriminate.
Defined.

(** X2: in a zone whose clock changes skip neither the first nor the last
    millisecond of a day and whose offsets differ by less than a day, the
    computed range starts on the first day of a month: of the current month for "monthly", of the month five months
    earlier (in the year before when that crosses January) for "6months", of
    January of the current year otherwise. *)
Theorem getPeriodDateRange_start_fields
    (zone : Z -> bool -> Z) (now : Z) (period : string) :
  regular_days zone ->
  0 <= LocalTime zone now ->
  let s := startDate (getPeriodDateRange zone now period) in
  let y := getFullYear zone now in
  let m := getMonth zone now in
  getDate zone s = 1
  /\ getMonth zone s
     = (if String.eqb period "monthly" then m
        else if String.eqb period "6months" then (m - 5) mod 12
        else 0)
  /\ getFullYear zone s
     = (if String.eqb period "monthly" then y
        else if String.eqb period "6months" then y + (m - 5) / 12
        else y).
Proof.
  intros Hzone Hnow s y m.
  pose proof (MonthFromTime_range (LocalTime zone now)) as Hm.
  fold (getMonth zone now) in Hm. fold m in Hm.
  unfold s. rewrite (getPeriodDateRange_start_day zone Hzone) by exact Hnow.
  fold y m. unfold getDate, getMonth, getFullYear.
  rewrite (shown_midnight zone Hzone).
  destruct (String.eqb period "monthly").
  { destruct (MakeDay_first y m Hm) as (H1 & H2 & H3). auto. }
  destruct (String.eqb period "6months").
  - rewrite MakeDay_carry.
    destruct (MakeDay_first (y + (m - 5) / 12) ((m - 5) mod 12)
                ltac:(pose proof (Z.mod_pos_bound (m - 5) 12); lia)) as (H1 & H2 & H3).
    auto.
  - destruct (MakeDay_first y 0 ltac:(lia)) as (H1 & H2 & H3). auto.
Qed.

(** In Central European Time the six months before 15 March 2024 start on
    1 October 2023, in summer time. *)
Lemma getPeriodDateRange_start_fields_witness :
  getDate central_european
    (startDate (getPeriodDateRange central_european 1710498600000 "6months")) = 1
  /\ getMonth central_european
       (startDate (getPeriodDateRange central_european 1710498600000 "6months")) = 9
  /\ getFullYear central_european
       (startDate (getPeriodDateRange central_european 1710498600000 "6months")) = 2023.
Proof.
  apply (getPeriodDateRange_start_fields central_european 1710498600000 "6months").
  - exact central_european_regular.
  - vm_compute. discriminate.
Defined.

Lemma pad2_length (z : Z) : 0 <= z < 100 -> String.length (pad2 z) = 2%nat.
Proof.
  intros Hz.
  assert (Hall : forallb (fun n => Nat.eqb (String.length (pad2 (Z.of_nat n))) 2)
                   (seq 0 100) = true) by (vm_compute; reflexivity).
  rewrite forallb_forall in Hall.
  specialize (Hall (Z.to_nat z)). rewrite Z2Nat.id in Hall by lia.
  apply Nat.eqb_eq, Hall, in_seq. lia.
Qed.

Lemma DaysInMonth_range (y m : Z) : 28 <= DaysInMonth y m <= 31.
Proof.
  unfold DaysInMonth. destruct (m =? 2); [destruct (is_leap y); lia |].
  destruct (_ || _); lia.
Qed.

(** The day of the month is a day of that month. *)
Lemma DateFromTime_in_month (t : Z) :
  1 <= DateFromTime t <= DaysInMonth (YearFromTime t) (MonthFromTime t + 1).
Proof.
  pose proof (DayWithinYear_range t) as Hd.
  pose proof (month_start_MonthFromTime t) as Hs.
  unfold DateFromTime, DaysInMonth, InLeapYear in *.
  revert Hd Hs. unfold MonthFromTime, month_start, InLeapYear.
  generalize (DayWithinYear t). intros d.
  destruct (is_leap (YearFromTime t));
    repeat match goal with
           | |- context [?a <? ?b] => destruct (Z.ltb_spec a b)
           end;
    cbn; lia.
Qed.

(** A month ends where the next one starts, and December with the year. *)
Lemma month_span (y k : Z) :
  0 <= k <= 11 ->
  month_start (if is_leap y then 1 else 0) k + DaysInMonth y (k + 1)
  = if k =? 11 then DaysInYear y else month_start (if is_leap y then 1 else 0) (k + 1).
Proof.
  intros Hk.
  assert (Hks : k = 0 \/ k = 1 \/ k = 2 \/ k = 3 \/ k = 4 \/ k = 5 \/ k = 6
                \/ k = 7 \/ k = 8 \/ k = 9 \/ k = 10 \/ k = 11) by lia.
  unfold DaysInMonth, DaysInYear.
  destruct (is_leap y);
    repeat (destruct Hks as [-> | Hks]; [vm_compute; reflexivity |]);
    subst k; vm_compute; reflexivity.
Qed.

Lemma month_end_le (y k : Z) :
  0 <= k <= 11 ->
  month_start (if is_leap y then 1 else 0) k + DaysInMonth y (k + 1) <= DaysInYear y
  /\ forall k', k < k' <= 11 ->
       month_start (if is_leap y then 1 else 0) k + DaysInMonth y (k + 1)
       <= month_start (if is_leap y then 1 else 0) k'.
Proof.
  intros Hk. rewrite month_span by exact Hk.
  pose proof (leap_flag_range y) as Hl.
  destruct (Z.eqb_spec k 11) as [-> | Hne].
  - split; [lia | intros k' Hk'; lia].
  - split.
    + pose proof (month_start_mono (if is_leap y then 1 else 0) (k + 1) 11 Hl
                    ltac:(lia)) as Hmono.
      change (month_start (if is_leap y then 1 else 0) 11)
        with (334 + (if is_leap y then 1 else 0)) in Hmono.
      unfold DaysInYear. destruct (is_leap y); lia.
    + intros k' Hk'. apply month_start_mono; [exact Hl | lia].
Qed.

(** A calendar date is the only one of its day. *)
Lemma calendar_date_unique (t y m d : Z) :
  1 <= m <= 12 -> 1 <= d <= DaysInMonth y m -> MakeDay y (m - 1) d = Day t ->
  y = YearFromTime t /\ m = MonthFromTime t + 1 /\ d = DateFromTime t.
Proof.
  intros Hm Hd Hday.
  unfold MakeDay in Hday.
  rewrite Z.div_small, Z.mod_small, Z.add_0_r in Hday by lia.
  pose proof (leap_flag_range y) as Hl.
  pose proof (month_start_range (if is_leap y then 1 else 0) (m - 1) Hl) as Hms.
  destruct (month_end_le y (m - 1) ltac:(lia)) as [Hend Hnext].
  replace (m - 1 + 1) with m in Hend, Hnext by lia.
  assert (Hy : YearFromTime t = y).
  { apply YearFromDay_unique. rewrite DayFromYear_succ. lia. }
  split; [symmetry; exact Hy |].
  pose proof (MonthFromTime_range t) as Hmt.
  pose proof (month_start_MonthFromTime t) as Hlo.
  pose proof (DateFromTime_in_month t) as Hdt.
  destruct (month_end_le (YearFromTime t) (MonthFromTime t) Hmt) as [_ Hnext'].
  unfold DateFromTime, DayWithinYear, InLeapYear in *. rewrite Hy in *.
  assert (Hmonth : MonthFromTime t = m - 1).
  { destruct (Z.lt_trichotomy (MonthFromTime t) (m - 1)) as [Hlt | [E | Hgt]];
      [exfalso | exact E | exfalso].
    - pose proof (Hnext' (m - 1) ltac:(lia)). lia.
    - pose proof (Hnext (MonthFromTime t) ltac:(lia)). lia. }
  rewrite Hmonth in *. lia.
Qed.

(** X3: formatDateInput gives the empty string for a missing or invalid
    date, and otherwise the local year, a two-character local month and a
    two-character local day of the month, joined by dashes.  They are the
    calendar date of the local day of the date: a day of that month of that
    year, and the only such date whose day number is that of the local day
    (in any zone). *)
Theorem formatDateInput_names_day (host : Host) (value : DateInput) :
  let dt :=
    match value with
    | OfValue v => if truthy v then Date_parse host v else None
    | OfDate t => Some t
    end in
  match dt with
  | None => formatDateInput host value = ""
  | Some t =>
      let day := Day (LocalTime (LocalTZA host) t) in
      exists y m d,
        formatDateInput host value = (string_of_Z y ++ "-" ++ pad2 m ++ "-" ++ pad2 d)%string
        /\ y = getFullYear (LocalTZA host) t
        /\ m = getMonth (LocalTZA host) t + 1
        /\ d = getDate (LocalTZA host) t
        /\ 1 <= m <= 12 /\ 1 <= d <= DaysInMonth y m
        /\ String.length (pad2 m) = 2%nat /\ String.length (pad2 d) = 2%nat
        /\ MakeDay y (m - 1) d = day
        /\ (forall y' m' d',
              1 <= m' <= 12 -> 1 <= d' <= DaysInMonth y' m' ->
              MakeDay y' (m' - 1) d' = day ->
              y' = y /\ m' = m /\ d' = d)
  end.
Proof.
  intros dt. unfold formatDateInput. fold dt.
  destruct dt as [t |]; [| reflexivity].
  cbv zeta.
  set (T := LocalTime (LocalTZA host) t).
  pose proof (MonthFromTime_range T) as Hm.
  pose proof (DateFromTime_in_month T) as Hd.
  pose proof (DaysInMonth_range (YearFromTime T) (MonthFromTime T + 1)) as Hr.
  exists (YearFromTime T), (MonthFromTime T + 1), (DateFromTime T).
  split; [reflexivity |].
  split; [reflexivity |]. split; [reflexivity |]. split; [reflexivity |].
  split; [lia |]. split; [exact Hd |].
  split; [apply pad2_length; lia |]. split; [apply pad2_length; lia |].
  split.
  - replace (MonthFromTime T + 1 - 1) with (MonthFromTime T) by lia.
    apply MakeDay_fields.
  - intros y' m' d' Hm' Hd' Hday.
    destruct (calendar_date_unique T y' m' d' Hm' Hd' Hday) as (-> & -> & ->). auto.
Qed.

(** X4: in a zone whose clock changes skip neither the first nor the last
    millisecond of a day and whose offsets differ by less than a day, the
    three ranges end at the same instant, and the six-month and yearly
    ranges start no later than the monthly one, so they contain it; a period
    name other than [monthly] and [6months], the unmapped [sixMonths] of the
    period buttons included, gives the yearly range (in any zone). *)
Theorem getPeriodDateRange_nested (zone : Z -> bool -> Z) (now : Z) (period : string) :
  let monthly := getPeriodDateRange zone now "monthly" in
  let r := getPeriodDateRange zone now period in
  (regular_days zone -> 0 <= LocalTime zone now ->
   startDate r <= startDate monthly)
  /\ endDate r = endDate monthly
  /\ (String.eqb period "monthly" = false -> String.eqb period "6months" = false ->
      r = getPeriodDateRange zone now "yearly").
Proof.
  intros monthly r.
  pose proof (MonthFromTime_range (LocalTime zone now)) as Hm.
  split; [| split].
  - intros Hzone Hnow. unfold r, monthly.
    rewrite !(getPeriodDateRange_start_day zone Hzone) by exact Hnow.
    change (String.eqb "monthly" "monthly") with true. cbv iota.
    unfold getFullYear, getMonth.
    assert (Hdays : forall d1 d2, d1 <= d2 ->
              UTC zone (MakeDate d1 0) <= UTC zone (MakeDate d2 0)).
    { intros d1 d2 Hd. destruct (Z.eq_dec d1 d2) as [-> | Hne]; [lia |].
      apply (UTC_le zone Hzone). unfold MakeDate, msPerDay. lia. }
    apply Hdays.
    destruct (String.eqb period "monthly"); [lia |].
    destruct (String.eqb period "6months").
    + pose proof (MakeDay_back_le (YearFromTime (LocalTime zone now))
                    (MonthFromTime (LocalTime zone now)) 5 Hm). lia.
    + pose proof (MakeDay_back_le (YearFromTime (LocalTime zone now))
                    (MonthFromTime (LocalTime zone now))
                    (MonthFromTime (LocalTime zone now)) Hm) as Hb.
      rewrite Z.sub_diag in Hb. lia.
  - reflexivity.
  - intros H1 H2. unfold r, getPeriodDateRange. rewrite H1, H2.
    change (String.eqb "yearly" "monthly") with false.
    change (String.eqb "yearly" "6months") with false.
    cbv iota. reflexivity.
Qed.

Lemma getPeriodDateRange_nested_witness :
  startDate (getPeriodDateRange central_european 1710498600000 "6months")
  <= startDate (getPeriodDateRange central_european 1710498600000 "monthly").
Proof.
  refine (proj1 (getPeriodDateRange_nested central_european 1710498600000 "6months")
            central_european_regular _).
  vm_compute. discriminate.
Defined.

(** ** getExpenseDate *)

Lemma nullish_or_truthy_or (a b : JsValue) :
  nullish_or_truthy a = true -> js_nullish a b = js_or a b.
Proof.
  unfold js_nullish, js_or. destruct a as [| | ? | ? | ? | ? | ?]; cbn; try reflexivity;
    intros ->; reflexivity.
Qed.

Lemma nullish_or_truthy_js_or (a b : JsValue) :
  nullish_or_truthy a = true -> nullish_or_truthy b = true ->
  nullish_or_truthy (js_or a b) = true.
Proof.
  unfold js_or. destruct (truthy a); auto.
Qed.

(** X5: on a record whose three date fields are each missing, null or
    truthy, getExpenseDate is the date of the value the table and the edit
    form read, so the form shows its day; a first field that is present but
    falsy (an empty text, say) makes it null and hides the later fields
    from it, which the table and the form would use. *)
Theorem getExpenseDate_agrees (host : Host) (exp : JsValue) :
  (nullish_or_truthy (get exp "expenseDate") = true ->
   nullish_or_truthy (get exp "date") = true ->
   nullish_or_truthy (get exp "createdAt") = true ->
   getExpenseDate host exp = server_date host (displayed_date exp)
   /\ formatDateInput host (OfValue (displayed_date exp))
      = match getExpenseDate host exp with
        | Some t => formatDateInput host (OfDate t)
        | None => ""
        end)
  /\ (nullish_or_truthy (get exp "expenseDate") = false ->
      getExpenseDate host exp = None
      /\ displayed_date exp = js_or (get exp "date") (get exp "createdAt")).
Proof.
  split.
  - intros H1 H2 H3. unfold getExpenseDate, displayed_date, server_date. cbv zeta.
    rewrite (nullish_or_truthy_or _ _ H1).
    rewrite (nullish_or_truthy_or _ _ (nullish_or_truthy_js_or _ _ H1 H2)).
    pose proof (nullish_or_truthy_js_or _ _ (nullish_or_truthy_js_or _ _ H1 H2) H3) as H4.
    set (raw := js_or (js_or (get exp "expenseDate") (get exp "date")) (get exp "createdAt"))
      in *.
    assert (Hraw : truthy (js_nullish raw VNull) = truthy raw
                   /\ (truthy raw = true -> js_nullish raw VNull = raw)).
    { clearbody raw.
      destruct raw as [| | ? | ? | ? | ? | ?]; cbn;
        (split; [reflexivity | intros; (reflexivity || discriminate)]). }
    destruct Hraw as [Ht Hr]. rewrite Ht.
    unfold formatDateInput.
    destruct (truthy raw) eqn:E; [| split; reflexivity].
    rewrite (Hr eq_refl). split; [reflexivity |].
    destruct (Date_parse host raw); reflexivity.
  - intros H1. unfold getExpenseDate, displayed_date. cbv zeta.
    destruct (get exp "expenseDate") as [| | ? | n | s | ? | ?] eqn:E;
      try discriminate; cbn in H1; unfold js_or at 2; cbn [js_nullish truthy];
      rewrite H1; auto.
Qed.

Lemma getExpenseDate_agrees_witness :
  getExpenseDate offline_host
    (VObj [("expenseDate", VStr ""); ("date", VNum (num_of_Z 1710498600000))])
  = None
  /\ displayed_date
       (VObj [("expenseDate", VStr ""); ("date", VNum (num_of_Z 1710498600000))])
     = VNum (num_of_Z 1710498600000).
Proof.
  apply (proj2 (getExpenseDate_agrees offline_host
                  (VObj [("expenseDate", VStr "");
                         ("date", VNum (num_of_Z 1710498600000))]))).
  reflexivity.
Defined.

(** ** toNumber, again *)


(** ** toNumber on the numerals of integers *)

Lemma read_digits_numeral (d : Decimal.uint) :
  forall acc len,
    read_digits 10 (NilEmpty.string_of_uint d) acc len
    = (horner acc d, len + Z.of_nat (Decimal.nb_digits d), EmptyString).
Proof.
  induction d; intros acc len; cbn [NilEmpty.string_of_uint read_digits horner Decimal.nb_digits];
    [now rewrite Z.add_0_r | ..];
    (change (digit_of 10 _) with (Some 0) || change (digit_of 10 _) with (Some 1)
     || change (digit_of 10 _) with (Some 2) || change (digit_of 10 _) with (Some 3)
     || change (digit_of 10 _) with (Some 4) || change (digit_of 10 _) with (Some 5)
     || change (digit_of 10 _) with (Some 6) || change (digit_of 10 _) with (Some 7)
     || change (digit_of 10 _) with (Some 8) || change (digit_of 10 _) with (Some 9));
    cbv beta iota; rewrite IHd; f_equal; f_equal; lia.
Qed.

Lemma horner_acc (d : Decimal.uint) :
  forall acc, 0 < acc -> horner acc d = Zpos (Pos.of_uint_acc d (Z.to_pos acc)).
Proof.
  induction d; intros acc Hacc; cbn [horner Pos.of_uint_acc];
    [rewrite Z2Pos.id by lia; reflexivity | ..];
    rewrite IHd by lia; f_equal; f_equal; lia.
Qed.

Lemma horner_zero (d : Decimal.uint) : horner 0 d = Z.of_N (Pos.of_uint d).
Proof.
  induction d; cbn [horner Pos.of_uint]; try exact IHd; try reflexivity;
    cbn [Z.mul Z.add Z.of_N]; rewrite horner_acc by lia; reflexivity.
Qed.

Lemma horner_to_uint (p : positive) : horner 0 (Pos.to_uint p) = Zpos p.
Proof.
  rewrite horner_zero, DecimalPos.Unsigned.of_to. reflexivity.
Qed.

Lemma numeral_no_space (d : Decimal.uint) : no_space (NilEmpty.string_of_uint d) = true.
Proof.
  unfold no_space, chars.
  induction d; cbn [NilEmpty.string_of_uint list_ascii_of_string forallb];
    [reflexivity | ..]; rewrite IHd; reflexivity.
Qed.

Lemma nb_digits_pos (d : Decimal.uint) :
  d <> Decimal.Nil -> 0 < Z.of_nat (Decimal.nb_digits d).
Proof.
  destruct d; [contradiction | ..]; intros _; cbn [Decimal.nb_digits]; lia.
Qed.

(** A decimal numeral with an optional minus sign converts to the integer
    it writes, when binary64 holds that integer. *)
Lemma StringToNumber_numeral (neg : bool) (d : Decimal.uint) :
  d <> Decimal.Nil ->
  Z.abs (signed neg (horner 0 d)) <= 2 ^ 53 ->
  StringToNumber ((if neg then "-" else "") ++ NilEmpty.string_of_uint d)%string
  = JFin (inject_Z (signed neg (horner 0 d))).
Proof.
  intros Hd Hbound.
  assert (Hdec : parse_decimal ((if neg then "-" else "") ++ NilEmpty.string_of_uint d)%string
                 = JFin (inject_Z (signed neg (horner 0 d)))).
  { unfold parse_decimal.
    assert (Hsign : read_sign ((if neg then "-" else "") ++ NilEmpty.string_of_uint d)%string
                    = (neg, NilEmpty.string_of_uint d)).
    { destruct neg; [reflexivity |]. destruct d; [contradiction | ..]; reflexivity. }
    rewrite Hsign.
    assert (Hinf : String.eqb (NilEmpty.string_of_uint d) "Infinity" = false)
      by (destruct d; reflexivity).
    rewrite Hinf, read_digits_numeral.
    pose proof (nb_digits_pos d Hd) as Hn.
    replace (0 + Z.of_nat (Decimal.nb_digits d) + 0 =? 0) with false
      by (symmetry; apply Z.eqb_neq; lia).
    unfold scale10. cbn [Z.opp Z.leb Z.compare].
    rewrite Z.pow_0_r, Z.mul_1_r. apply round64_integer, Hbound. }
  rewrite <- Hdec. unfold StringToNumber.
  rewrite trim_no_space.
  2:{ destruct neg; [| apply numeral_no_space].
      unfold no_space, chars. cbn [append list_ascii_of_string forallb].
      apply (numeral_no_space d). }
  destruct neg; cbn [append];
    (destruct d as [| d' | d' | d' | d' | d' | d' | d' | d' | d' | d'];
     [contradiction | ..]); try reflexivity.
  all: destruct d'; reflexivity.
Qed.

Lemma string_of_Z_numeral (z : Z) :
  exists (neg : bool) (d : Decimal.uint),
    d <> Decimal.Nil
    /\ string_of_Z z = ((if neg then "-" else "") ++ NilEmpty.string_of_uint d)%string
    /\ signed neg (horner 0 d) = z.
Proof.
  assert (Hp : forall p, Pos.to_uint p <> Decimal.Nil).
  { intros p Hnil. pose proof (DecimalPos.Unsigned.of_to p) as H.
    rewrite Hnil in H. discriminate. }
  assert (Hz : forall d, d <> Decimal.Nil ->
                 NilZero.string_of_uint d = NilEmpty.string_of_uint d)
    by (intros d Hd; destruct d; [contradiction | ..]; reflexivity).
  unfold string_of_Z. destruct z as [| p | p].
  - exists false, (Decimal.D0 Decimal.Nil). repeat split. discriminate.
  - exists false, (Pos.to_uint p). split; [apply Hp |]. split.
    + cbn [Z.to_int NilZero.string_of_int]. rewrite Hz by apply Hp. reflexivity.
    + apply horner_to_uint.
  - exists true, (Pos.to_uint p). split; [apply Hp |]. split.
    + cbn [Z.to_int NilZero.string_of_int]. rewrite Hz by apply Hp. reflexivity.
    + cbn [signed]. rewrite horner_to_uint. reflexivity.
Qed.

(** X7: a text that, once its commas are dropped, is the decimal numeral
    of an integer of at most 53 bits (with a minus sign when negative)
    converts to that integer, which binary64 holds exactly. *)
Theorem toNumber_numeral (s : string) (z : Z) :
  Z.abs z <= 2 ^ 53 ->
  remove_commas s = string_of_Z z ->
  toNumber (VStr s) = JFin (inject_Z z).
Proof.
  intros Hz Hs. unfold toNumber. cbn [Number_]. rewrite Hs.
  destruct (string_of_Z_numeral z) as (neg & d & Hd & -> & <-).
  rewrite (StringToNumber_numeral neg d Hd Hz). reflexivity.
Qed.

Lemma toNumber_numeral_witness :
  toNumber (VStr "-1,234,567") = JFin (inject_Z (-1234567)).
Proof.
  apply (toNumber_numeral "-1,234,567" (-1234567)).
  - vm_compute. discriminate.
  - reflexivity.
Defined.

(** ** The states fetchAll leaves *)

Lemma run_completion {A} (c : Completion A) (s : State) (tr : list Event) :
  completion_of (c, s, tr) = c.
Proof. reflexivity. Qed.

Lemma run_state {A} (c : Completion A) (s : State) (tr : list Event) :
  state_of (c, s, tr) = s.
Proof. reflexivity. Qed.

Lemma run_trace {A} (c : Completion A) (s : State) (tr : list Event) :
  trace_of (c, s, tr) = tr.
Proof. reflexivity. Qed.

Lemma fetchAll_loaded (host : Host) (snap st : State) (h : list Event) :
  loaded host snap st (state_of (fetchAll host snap st h)).
Proof.
  destruct (base_url host) as [b |] eqn:Hb.
  2:{ rewrite fetchAll_no_base by exact Hb. apply loaded_no_base. }
  rewrite (fetchAll_run host snap b st h Hb). cbv zeta.
  destruct (net host h _) as [msg | r]; [apply loaded_failed |].
  destruct (status r =? 401); [apply loaded_unauthorized |].
  destruct (negb (ok r)); [apply loaded_failed |].
  destruct (body_json r) as [periodJson |]; [| apply loaded_failed].
  match goal with
  | |- context [fetch_pages ?a ?f ?b ?s ?e ?l ?p ?ps ?al ?st1 ?h1] =>
      pose proof (fetch_pages_trace a f b s e l p ps al st1 h1) as Hp;
      destruct (fetch_pages a f b s e l p ps al st1 h1) as [[c st2] tr]
  end.
  cbn in Hp. destruct Hp as [Hst _]. unfold state_of in Hst. cbn in Hst. subst st2.
  destruct c; unfold state_of; cbn.
  - apply loaded_all.
  - apply loaded_pages_unauthorized.
  - apply loaded_pages_failed.
Qed.

(** ** The toast and its timer *)

Lemma toast_consistent_ext (s s' : State) :
  toast s' = toast s -> toastTimeoutRef s' = toastTimeoutRef s ->
  timers s' = timers s -> nextTimer s' = nextTimer s ->
  toast_consistent s -> toast_consistent s'.
Proof.
  unfold toast_consistent. intros -> -> -> ->. exact (fun H => H).
Qed.

Lemma toast_consistent_setter (f : State -> State) :
  (forall s, toast (f s) = toast s) ->
  (forall s, toastTimeoutRef (f s) = toastTimeoutRef s) ->
  (forall s, timers (f s) = timers s) ->
  (forall s, nextTimer (f s) = nextTimer s) ->
  forall s, toast_consistent s -> toast_consistent (f s).
Proof.
  intros H1 H2 H3 H4 s. apply toast_consistent_ext; auto.
Qed.

Lemma toast_shown_consistent (message type : string) (st : State) :
  toast_consistent st -> toast_consistent (toast_shown message type st).
Proof.
  unfold toast_consistent, toast_shown, showToast, bind, read_store, state_of.
  destruct (toastTimeoutRef st) as [i |]; cbn.
  - intros (Ht & _ & _). rewrite Ht. cbn.
    destruct (Nat.eq_dec i i) as [_ | Hne]; [| contradiction]. cbn.
    repeat split; [discriminate | lia].
  - intros (Ht & _). rewrite Ht. cbn. repeat split; [discriminate | lia].
Qed.

Ltac keep_toast :=
  repeat first
    [ match goal with
      | |- toast_consistent (toast_shown _ _ _) => apply toast_shown_consistent
      | |- toast_consistent (load_failed _ _) => unfold load_failed
      | |- toast_consistent (save_failed _ _) => unfold save_failed
      | |- toast_consistent (delete_failed _ _) => unfold delete_failed
      | |- toast_consistent (modal_closed ?snap _) =>
          unfold modal_closed; destruct (saving snap)
      | |- toast_consistent (?f ?v ?s) =>
          apply (toast_consistent_setter (f v));
          [intro; reflexivity | intro; reflexivity | intro; reflexivity
          | intro; reflexivity |]
      end ];
  try assumption.

Lemma loaded_consistent (host : Host) (snap st st' : State) :
  loaded host snap st st' -> toast_consistent st -> toast_consistent st'.
Proof.
  intros Hl Hc. destruct Hl; keep_toast.
Qed.

Lemma fetchAll_consistent (host : Host) (snap st : State) (h : list Event) :
  toast_consistent st -> toast_consistent (state_of (fetchAll host snap st h)).
Proof.
  apply loaded_consistent with (host := host) (snap := snap), fetchAll_loaded.
Qed.

Lemma performSaveExpense_consistent
    (host : Host) (snap : State) (p : SaveArgs) (st : State) (h : list Event) :
  toast_consistent st ->
  toast_consistent (state_of (performSaveExpense host snap p st h)).
Proof.
  intros Hc. destruct (base_url host) as [b |] eqn:Hb.
  2:{ rewrite performSaveExpense_no_base by exact Hb. rewrite ?run_state. keep_toast. }
  rewrite (performSaveExpense_run host snap b p st h Hb). cbv zeta.
  destruct (net host h _) as [msg | r]; [rewrite run_state; keep_toast |].
  destruct (status r =? 401); [rewrite run_state; keep_toast |].
  destruct (negb (ok r)); [rewrite run_state; keep_toast |].
  rewrite run_state. keep_toast.
  apply fetchAll_consistent. keep_toast.
Qed.

Lemma performDeleteExpense_consistent
    (host : Host) (snap : State) (exp : JsValue) (st : State) (h : list Event) :
  toast_consistent st ->
  toast_consistent (state_of (performDeleteExpense host snap exp st h)).
Proof.
  intros Hc. destruct (truthy (expense_id exp)) eqn:Hid.
  2:{ rewrite performDeleteExpense_no_id by exact Hid. exact Hc. }
  destruct (base_url host) as [b |] eqn:Hb.
  2:{ rewrite performDeleteExpense_no_base by assumption. rewrite ?run_state. keep_toast. }
  rewrite (performDeleteExpense_run host snap b exp st h Hid Hb). cbv zeta.
  destruct (net host h _) as [msg | r]; [rewrite run_state; keep_toast |].
  destruct (status r =? 401); [rewrite run_state; keep_toast |].
  destruct (negb (ok r)); [rewrite run_state; keep_toast |].
  rewrite run_state. keep_toast.
  apply fetchAll_consistent. keep_toast.
Qed.

Lemma handleSaveExpense_consistent (host : Host) (snap st : State) (h : list Event) :
  toast_consistent st ->
  toast_consistent (state_of (handleSaveExpense host snap st h)).
Proof.
  intros Hc. rewrite handleSaveExpense_run. cbv zeta.
  destruct (field_text (form_title (expenseForm snap))) as [title |];
    [| rewrite run_state; keep_toast].
  destruct (field_text (form_description (expenseForm snap))) as [description |];
    [| rewrite run_state; keep_toast].
  destruct (String.eqb title ""); [rewrite run_state; keep_toast |].
  destruct (String.eqb _ ""); [rewrite run_state; keep_toast |].
  destruct (_ || _); [rewrite run_state; keep_toast |].
  destruct (isEdit _); [rewrite run_state; keep_toast |].
  apply performSaveExpense_consistent. keep_toast.
Qed.

Lemma dispatch_consistent (host : Host) (a : Action) (s : State) (h : list Event) :
  toast_consistent s -> toast_consistent (state_of (dispatch host a s h)).
Proof.
  intros Hc. destruct a; unfold dispatch.
  - apply fetchAll_consistent, Hc.
  - unfold bind, setSelectedPeriod, modify, when.
    destruct (negb _).
    + rewrite (fetchAll_eta host (set_selectedPeriod p s)). unfold state_of at 1. cbn [fst snd].
      apply fetchAll_consistent. keep_toast.
    + rewrite ?run_state. keep_toast.
  - exact Hc.
  - rewrite ?run_state. keep_toast.
  - unfold when. destruct (table_rendered s); [| exact Hc].
    rewrite ?run_state. keep_toast.
  - unfold when. destruct (table_rendered s); [| exact Hc].
    rewrite handleDeleteExpense_run. destruct (truthy exp); [| exact Hc].
    rewrite ?run_state. keep_toast.
  - unfold when. destruct (showExpenseModal s); [| exact Hc].
    rewrite ?run_state. keep_toast.
  - unfold when. destruct (showExpenseModal s); [| exact Hc].
    rewrite ?run_state. keep_toast.
  - unfold when. destruct (showExpenseModal s); [| exact Hc].
    rewrite ?run_state. keep_toast.
  - unfold when. destruct (showExpenseModal s); [| exact Hc].
    rewrite ?run_state. keep_toast.
  - unfold when. destruct (_ && _); [| exact Hc].
    rewrite closeModal_eq. rewrite ?run_state. keep_toast.
  - unfold when. destruct (_ && _); [| exact Hc].
    apply handleSaveExpense_consistent, Hc.
  - destruct (confirmDialog s); [| exact Hc].
    unfold when. destruct (negb _); [| exact Hc].
    rewrite ?run_state. keep_toast.
  - destruct (confirmDialog s) as [d |]; [| exact Hc].
    unfold when. destruct (negb _); [| exact Hc].
    unfold confirm_onClick. destruct (dialog_action d).
    + apply performSaveExpense_consistent, Hc.
    + apply performDeleteExpense_consistent, Hc.
  - destruct (existsb (Nat.eqb i) (timers s)) eqn:Hi; [| exact Hc].
    unfold state_of, bind, modify, toast_timeout, setToast, modify; cbn.
    unfold toast_consistent in *. cbn.
    destruct (toastTimeoutRef s) as [j |].
    + destruct Hc as (Ht & _ & _). rewrite Ht in *. cbn in Hi.
      rewrite orb_false_r in Hi. apply Nat.eqb_eq in Hi. subst j. cbn.
      destruct (Nat.eq_dec i i); [auto | contradiction].
    + destruct Hc as (Ht & _). rewrite Ht in Hi. discriminate.
Qed.

Lemma reachable_consistent (host : Host) (s : State) :
  reachable host s -> toast_consistent s.
Proof.
  induction 1 as [| s a h _ IH].
  - unfold toast_consistent; cbn. auto.
  - apply dispatch_consistent, IH.
Qed.

(** X8: in every state the page can reach, whatever the network answered,
    a toast is shown exactly while the timer that hides it is armed, and at
    most that one timer is armed. *)
Theorem reachable_toast_consistent (host : Host) (s : State) :
  reachable host s -> toast_consistent s.
Proof.
  exact (reachable_consistent host s).
Qed.

Lemma reachable_toast_consistent_witness :
  toast_consistent (state_of (dispatch offline_host ClickConfirm delete_staged_state [])).
Proof.
  apply (reachable_toast_consistent offline_host).
  unfold delete_staged_state, ready_state.
  apply reachable_event.
  change (set_confirmDialog (Some (delete_dialog offline_host (record 7)))
            (set_loading false (initial_state offline_host)))
    with (state_of (dispatch offline_host (ClickDelete (record 7))
                      (set_loading false (initial_state offline_host)) [])).
  apply reachable_event.
  change (set_loading false (initial_state offline_host))
    with (state_of (dispatch offline_host Mount (initial_state offline_host) [])).
  apply reachable_event, reachable_initial.
Defined.

Lemma ready_reachable : reachable offline_host ready_state.
Proof.
  change ready_state
    with (state_of (dispatch offline_host Mount (initial_state offline_host) [])).
  apply reachable_event, reachable_initial.
Qed.

(** X9: in a state the page can reach, the timer of the toast on display
    hides it when it fires, and any other timer, such as the one of a toast
    that has been replaced, changes nothing: a newer toast is never hidden
    early by an older timer. *)
Theorem timer_hides_its_toast (host : Host) (s : State) (i : nat) (h : list Event) :
  reachable host s ->
  let res := dispatch host (TimerFires i) s h in
  (toastTimeoutRef s = Some i ->
   completion_of res = Normal tt /\ trace_of res = []
   /\ toast (state_of res) = None /\ toastTimeoutRef (state_of res) = None
   /\ timers (state_of res) = [])
  /\ (toastTimeoutRef s <> Some i -> res = (Normal tt, s, [])).
Proof.
  intros Hr res. subst res. apply reachable_consistent in Hr.
  unfold toast_consistent in Hr. unfold dispatch. split.
  - intros Href. rewrite Href in Hr. destruct Hr as (Ht & _ & _). rewrite Ht.
    cbn [existsb]. rewrite Nat.eqb_refl. cbn [orb].
    unfold bind, modify, toast_timeout, setToast, modify, completion_of, state_of, trace_of.
    cbn. rewrite Ht. cbn. destruct (Nat.eq_dec i i); [auto | contradiction].
  - intros Href. destruct (toastTimeoutRef s) as [j |].
    + destruct Hr as (Ht & _ & _). rewrite Ht. cbn [existsb].
      destruct (Nat.eqb_spec i j) as [-> | _]; [contradiction | reflexivity].
    + destruct Hr as (Ht & _). rewrite Ht. reflexivity.
Qed.

Lemma timer_hides_its_toast_witness :
  dispatch offline_host (TimerFires 1) ready_state [] = (Normal tt, ready_state, []).
Proof.
  refine (proj2 (timer_hides_its_toast offline_host ready_state 1 [] ready_reachable) _).
  discriminate.
Defined.

(** ** The requests and the stores of a load, for any server *)

Lemma fetch_pages_order (host : Host) (b : string) (start end_ limit : Z) (fuel : nat) :
  forall (k : nat) (pages : jsnum) (all : list JsValue) (st : State) (h : list Event),
    let res := fetch_pages host fuel b start end_ limit (Z.of_nat k + 1) pages all st h in
    existsb is_console (trace_of res) = false
    /\ exists n,
         (n = 0 \/ k + n <= 50)%nat
         /\ requests (trace_of res)
            = map (fun i => expenses_request host b start end_ (Z.of_nat i) limit)
                (seq (S k) n).
Proof.
  induction fuel as [| fuel IH]; intros k pages all st h res; subst res.
  - cbn [fetch_pages]. destruct (_ && _); cbn; (split; [reflexivity |]); exists 0%nat; auto.
  - rewrite fetch_pages_step.
    destruct (_ && _) eqn:Hguard.
    2:{ cbn. split; [reflexivity |]. exists 0%nat; auto. }
    apply andb_true_iff in Hguard. destruct Hguard as [_ Hk]. apply Z.leb_le in Hk.
    assert (Hone : exists n, (n = 0 \/ k + n <= 50)%nat
              /\ [expenses_request host b start end_ (Z.of_nat k + 1) limit]
                 = map (fun i => expenses_request host b start end_ (Z.of_nat i) limit)
                     (seq (S k) n)).
    { exists 1%nat. split; [right; lia |]. cbn [seq map].
      now rewrite Nat2Z.inj_succ, <- Z.add_1_r. }
    cbv zeta.
    destruct (net host h _) as [msg | r]; [cbn; auto |].
    destruct (status r =? 401); [cbn; auto |].
    destruct (negb (ok r)); [cbn; auto |].
    destruct (body_json r) as [expJson |]; [| cbn; auto].
    destruct (_ =? 0); [cbn; auto |].
    specialize (IH (S k) (page_count expJson) (all ++ page_list expJson)%list st
                  (h ++ [EvFetch (expenses_request host b start end_ (Z.of_nat k + 1) limit)
                           (Responded r); EvReadJson])%list).
    cbv zeta in IH. rewrite Nat2Z.inj_succ, <- Z.add_1_r in IH.
    destruct (fetch_pages host fuel b start end_ limit (Z.of_nat k + 1 + 1) _ _ st _)
      as [[c st'] tr].
    unfold trace_of in *. cbn [fst snd] in *.
    destruct IH as (Hcons & n & Hn & Hreq). split; [exact Hcons |].
    exists (S n). split; [right |].
    + destruct Hn as [-> | Hn]; lia.
    + cbn [requests seq map]. rewrite Hreq. f_equal.
      now rewrite Nat2Z.inj_succ, <- Z.add_1_r.
Qed.

Lemma fetchAll_request_list
    (host : Host) (snap st : State) (h : list Event) (b : string) :
  base_url host = Some b ->
  exists (n : nat) (range : DateRange),
    (n <= 50)%nat
    /\ requests (trace_of (fetchAll host snap st h))
       = period_request host snap b
         :: map (fun i =>
                   expenses_request host b (startDate range) (endDate range)
                     (Z.of_nat i) 100)
              (seq 1 n)
    /\ (n = 0%nat
        \/ exists r periodJson,
             net host h (period_request host snap b) = Responded r
             /\ ok r = true
             /\ body_json r = Some periodJson
             /\ range = resolve_range host snap periodJson).
Proof.
  intros Hb. rewrite (fetchAll_run host snap b st h Hb). cbv zeta.
  pose (nothing := {| startDate := 0; endDate := 0 |}).
  destruct (net host h _) as [msg | r] eqn:Hnet.
  { exists 0%nat, nothing. cbn. auto with arith. }
  destruct (status r =? 401); [exists 0%nat, nothing; cbn; auto with arith |].
  destruct (negb (ok r)) eqn:Hok; [exists 0%nat, nothing; cbn; auto with arith |].
  apply negb_false_iff in Hok.
  destruct (body_json r) as [periodJson |] eqn:Hjson;
    [| exists 0%nat, nothing; cbn; auto with arith].
  pose proof (fetch_pages_order host b
                (startDate (resolve_range host snap periodJson))
                (endDate (resolve_range host snap periodJson)) 100 50 0 (JFin 1) []
                (set_periodGroups (page_list periodJson) (set_loading true st))
                (h ++ [EvFetch (period_request host snap b) (Responded r); EvReadJson])%list)
    as Hp.
  cbv zeta in Hp. change (Z.of_nat 0 + 1) with 1 in Hp.
  destruct (fetch_pages host 50 b _ _ 100 1 (JFin 1) [] _ _) as [[c st2] tr].
  unfold trace_of in *. cbn [fst snd] in *.
  destruct Hp as (_ & n & Hn & Hreq).
  exists n, (resolve_range host snap periodJson).
  split; [lia |]. split.
  - destruct c as [all | | e]; cbn [fst snd requests];
      rewrite ?requests_app, Hreq; cbn [requests]; rewrite ?app_nil_r; reflexivity.
  - right. exists r, periodJson. auto.
Qed.

(** X10: against any server, a load asks for the period summary first and
    then for pages 1, 2, ... in order, never more than 50 of them, each with
    the page size 100 and the range resolved from the summary. *)
Theorem fetchAll_pages_in_order
    (host : Host) (snap st : State) (h : list Event) (b : string) :
  base_url host = Some b ->
  exists (n : nat) (range : DateRange),
    (n <= 50)%nat
    /\ requests (trace_of (fetchAll host snap st h))
       = period_request host snap b
         :: map (fun i =>
                   expenses_request host b (startDate range) (endDate range)
                     (Z.of_nat i) 100)
              (seq 1 n)
    /\ (n = 0%nat
        \/ exists r periodJson,
             net host h (period_request host snap b) = Responded r
             /\ ok r = true
             /\ body_json r = Some periodJson
             /\ range = resolve_range host snap periodJson).
Proof.
  exact (fetchAll_request_list host snap st h b).
Qed.

Lemma fetchAll_pages_in_order_witness :
  exists n range,
    (n <= 50)%nat
    /\ requests (trace_of
         (fetchAll (paged_host (single_pages 3 1)) ready_state ready_state []))
       = period_request (paged_host (single_pages 3 1)) ready_state "https://api.test"
         :: map (fun i =>
                   expenses_request (paged_host (single_pages 3 1)) "https://api.test"
                     (startDate range) (endDate range) (Z.of_nat i) 100)
              (seq 1 n).
Proof.
  destruct (fetchAll_pages_in_order (paged_host (single_pages 3 1)) ready_state
              ready_state [] "https://api.test" eq_refl) as (n & range & Hn & Hreq & _).
  exists n, range. split; assumption.
Defined.

Lemma load_failed_keeps (e : JsError) (st : State) :
  expenses (load_failed e st) = expenses st
  /\ expensesDateRange (load_failed e st) = expensesDateRange st
  /\ periodGroups (load_failed e st) = periodGroups st.
Proof.
  unfold load_failed.
  destruct (toast_shown_fields ("Failed to load money manager data: " ++ error_message e)
              "error" st) as (_ & _ & H1 & H2 & H3 & _).
  cbn. auto.
Qed.

(** How a load went, read off its events, and what it stored: after a
    failure the list and its range are those of before; after a success the
    state is the one the end of the [try] builds. *)
Lemma fetchAll_outcome (host : Host) (snap st : State) (h : list Event) :
  let res := fetchAll host snap st h in
  ((existsb is_console (trace_of res) = true \/ clean (trace_of res) = false)
   /\ expenses (state_of res) = expenses st
   /\ expensesDateRange (state_of res) = expensesDateRange st)
  \/ (existsb is_console (trace_of res) = false
      /\ clean (trace_of res) = true
      /\ exists periodJson all,
           state_of res
           = set_loading false
               (set_expensesDateRange (Some (resolve_range host snap periodJson))
                  (set_expenses all
                     (set_periodGroups (page_list periodJson) (set_loading true st))))).
Proof.
  cbv zeta. destruct (base_url host) as [b |] eqn:Hb.
  2:{ rewrite (fetchAll_no_base host snap st h Hb). left. cbn. auto. }
  rewrite (fetchAll_run host snap b st h Hb). cbv zeta.
  destruct (net host h _) as [msg | r].
  { left. unfold state_of, trace_of; cbn [fst snd].
    destruct (load_failed_keeps (Error msg) (set_loading true st)) as (H1 & H2 & _).
    rewrite H1, H2. cbn. auto. }
  destruct (status r =? 401) eqn:E401.
  { left. cbn. rewrite E401. cbn. auto. }
  destruct (negb (ok r)).
  { left. unfold state_of, trace_of; cbn [fst snd].
    destruct (load_failed_keeps (request_failed "Period" r) (set_loading true st))
      as (H1 & H2 & _).
    rewrite H1, H2. cbn. auto. }
  destruct (body_json r) as [periodJson |].
  2:{ left. unfold state_of, trace_of; cbn [fst snd].
      destruct (load_failed_keeps (Error json_syntax_error) (set_loading true st))
        as (H1 & H2 & _).
      rewrite H1, H2. cbn. auto. }
  pose proof (fetch_pages_trace host 50 b (startDate (resolve_range host snap periodJson))
                (endDate (resolve_range host snap periodJson)) 100 1 (JFin 1) []
                (set_periodGroups (page_list periodJson) (set_loading true st))
                (h ++ [EvFetch (period_request host snap b) (Responded r); EvReadJson])%list)
    as Hp.
  pose proof (fetch_pages_order host b (startDate (resolve_range host snap periodJson))
                (endDate (resolve_range host snap periodJson)) 100 50 0 (JFin 1) []
                (set_periodGroups (page_list periodJson) (set_loading true st))
                (h ++ [EvFetch (period_request host snap b) (Responded r); EvReadJson])%list)
    as Ho.
  cbv zeta in Hp, Ho. change (Z.of_nat 0 + 1) with 1 in Ho.
  destruct (fetch_pages host 50 b _ _ 100 1 (JFin 1) [] _ _) as [[c st2] tr].
  unfold state_of, completion_of, trace_of in *. cbn [fst snd] in *.
  destruct Hp as [Hst Hc]. destruct Ho as [Hcons _]. subst st2.
  destruct c as [all | | e]; cbn [fst snd].
  - right. cbn [existsb is_console orb]. rewrite !clean_cons, Hc, Hcons. cbn.
    rewrite E401. cbn. repeat split. exists periodJson, all. reflexivity.
  - left. destruct Hc as (pre & req & r' & -> & Hpre & Hs). split.
    + right. rewrite !clean_cons, clean_app, clean_cons. cbn.
      apply Z.eqb_eq in Hs. rewrite Hs. cbn.
      rewrite !andb_false_r. reflexivity.
    + cbn. auto.
  - left.
    destruct (load_failed_keeps e
                (set_periodGroups (page_list periodJson) (set_loading true st)))
      as (H1 & H2 & _).
    rewrite H1, H2. split; [| cbn; auto].
    left. cbn [existsb is_console orb]. rewrite existsb_app. cbn.
    now rewrite orb_true_r.
Qed.

(** X11: a load that logged anything or met a 401 response leaves the
    expense list and its date range as they were: the two are stored
    together, and only when every request of the load has succeeded. *)
Theorem fetchAll_failure_keeps_list (host : Host) (snap st : State) (h : list Event) :
  let res := fetchAll host snap st h in
  existsb is_console (trace_of res) = true \/ clean (trace_of res) = false ->
  expenses (state_of res) = expenses st
  /\ expensesDateRange (state_of res) = expensesDateRange st.
Proof.
  intros res Hfail. subst res.
  destruct (fetchAll_outcome host snap st h) as [(_ & H1 & H2) | (Hc & Hk & _)];
    [auto |].
  destruct Hfail as [Hf | Hf]; congruence.
Qed.

Lemma fetchAll_failure_keeps_list_witness :
  expenses (state_of (fetchAll skewed_host ready_state ready_state [])) = []
  /\ expensesDateRange (state_of (fetchAll skewed_host ready_state ready_state [])) = None.
Proof.
  apply (fetchAll_failure_keeps_list skewed_host ready_state ready_state []).
  left. vm_compute. reflexivity.
Defined.

(** X12: the period groups are stored as soon as the summary has been
    parsed, whatever the page requests do afterwards; the list, its range
    and the lowered loading flag follow only when nothing was logged and no
    401 came, and then the toast is left alone.  After a failed page the
    groups are those of this load and the list that of an earlier one. *)
Theorem fetchAll_groups_before_pages
    (host : Host) (snap st : State) (h : list Event) (b : string) (r : Response)
    (periodJson : JsValue) :
  base_url host = Some b ->
  net host h (period_request host snap b) = Responded r ->
  ok r = true ->
  body_json r = Some periodJson ->
  let res := fetchAll host snap st h in
  periodGroups (state_of res) = page_list periodJson
  /\ (existsb is_console (trace_of res) = false -> clean (trace_of res) = true ->
      expensesDateRange (state_of res) = Some (resolve_range host snap periodJson)
      /\ loading (state_of res) = false
      /\ toast (state_of res) = toast st).
Proof.
  intros Hb Hnet Hok Hjson res. subst res.
  pose proof (ok_not_unauthorized r Hok) as H401.
  pose proof (fetchAll_outcome host snap st h) as Hout. cbv zeta in Hout.
  rewrite (fetchAll_run host snap b st h Hb) in *. cbv zeta in *.
  rewrite Hnet in *. rewrite H401, Hok, Hjson in *.
  cbn [negb] in *.
  pose proof (fetch_pages_trace host 50 b (startDate (resolve_range host snap periodJson))
                (endDate (resolve_range host snap periodJson)) 100 1 (JFin 1) []
                (set_periodGroups (page_list periodJson) (set_loading true st))
                (h ++ [EvFetch (period_request host snap b) (Responded r); EvReadJson])%list)
    as Hp.
  cbv zeta in Hp.
  destruct (fetch_pages host 50 b _ _ 100 1 (JFin 1) [] _ _) as [[c st2] tr].
  unfold state_of, completion_of, trace_of in *. cbn [fst snd] in *.
  destruct Hp as [Hst _]. subst st2.
  destruct c as [all | | e]; cbn [fst snd] in *.
  - split; [reflexivity |]. intros _ _. cbn. auto.
  - split; [reflexivity |]. intros Hcons Hclean.
    destruct Hout as [([Hf | Hf] & _) | (_ & _ & pj & all & Heq)]; try congruence.
    apply (f_equal loading) in Heq. cbn in Heq. discriminate.
  - destruct (load_failed_keeps e
                (set_periodGroups (page_list periodJson) (set_loading true st)))
      as (_ & _ & H3).
    split; [rewrite H3; reflexivity |]. intros Hcons Hclean.
    destruct Hout as [([Hf | Hf] & _) | (Hc & _)]; try congruence.
    exfalso. revert Hcons. cbn [existsb is_console orb]. rewrite existsb_app. cbn.
    rewrite orb_true_r. discriminate.
Qed.

Lemma fetchAll_groups_before_pages_witness :
  periodGroups (state_of (fetchAll skewed_host ready_state ready_state [])) = []
  /\ expensesDateRange (state_of (fetchAll skewed_host ready_state ready_state [])) = None.
Proof.
  split.
  - apply (fetchAll_groups_before_pages skewed_host ready_state ready_state []
             "https://api.test" (json_response skewed_summary) skewed_summary);
      reflexivity.
  - vm_compute. reflexivity.
Defined.

(** ** What a successful load stores *)

Lemma received_app (a b : list Event) : received (a ++ b) = received a ++ received b.
Proof. apply flat_map_app. Qed.

Lemma fetch_pages_received (host : Host) (b : string) (start end_ limit : Z) (fuel : nat) :
  forall (page : Z) (pages : jsnum) (all : list JsValue) (st : State) (h : list Event),
    let res := fetch_pages host fuel b start end_ limit page pages all st h in
    forall all', completion_of res = Normal all' -> all' = all ++ received (trace_of res).
Proof.
  induction fuel as [| fuel IH]; intros page pages all st h res; subst res.
  - cbn [fetch_pages]. destruct (_ && _); cbn; intros all' [= <-]; now rewrite app_nil_r.
  - rewrite fetch_pages_step.
    destruct (_ && _); [| cbn; intros all' [= <-]; now rewrite app_nil_r].
    cbv zeta.
    destruct (net host h _) as [msg | r]; [cbn; discriminate |].
    destruct (status r =? 401); [cbn; discriminate |].
    destruct (negb (ok r)); [cbn; discriminate |].
    destruct (body_json r) as [expJson |] eqn:Hjson; [| cbn; discriminate].
    destruct (_ =? 0).
    + cbn. rewrite Hjson. intros all' [= <-]. now rewrite !app_nil_r.
    + specialize (IH (page + 1) (page_count expJson) (all ++ page_list expJson)%list st
                    (h ++ [EvFetch (expenses_request host b start end_ page limit)
                             (Responded r); EvReadJson])%list).
      cbv zeta in IH.
      destruct (fetch_pages host fuel b start end_ limit (page + 1) _ _ st _)
        as [[c st'] tr].
      unfold completion_of, trace_of in *. cbn [fst snd] in *.
      intros all' Hc. rewrite (IH all' Hc).
      unfold received. cbn [flat_map received_event is_page_request expenses_request
                             req_resource].
      rewrite Hjson. cbn [app]. now rewrite <- app_assoc.
Qed.

(** X13: for any server, the list a successful load stores is what the
    page responses of that load carried, joined in the order they came, and
    nothing else. *)
Theorem fetchAll_stores_received (host : Host) (snap st : State) (h : list Event) :
  let res := fetchAll host snap st h in
  existsb is_console (trace_of res) = false ->
  clean (trace_of res) = true ->
  expenses (state_of res) = received (trace_of res).
Proof.
  intros res Hcons Hclean. subst res.
  destruct (base_url host) as [b |] eqn:Hb.
  2:{ rewrite (fetchAll_no_base host snap st h Hb) in Hcons. discriminate. }
  rewrite (fetchAll_run host snap b st h Hb) in *. cbv zeta in *.
  destruct (net host h _) as [msg | r]; [cbn in Hcons; discriminate |].
  destruct (status r =? 401);
    [cbn in Hclean; rewrite ?andb_false_r in Hclean; discriminate |].
  destruct (negb (ok r)); [cbn in Hcons; discriminate |].
  destruct (body_json r) as [periodJson |]; [| cbn in Hcons; discriminate].
  pose proof (fetch_pages_received host b (startDate (resolve_range host snap periodJson))
                (endDate (resolve_range host snap periodJson)) 100 50 1 (JFin 1) []
                (set_periodGroups (page_list periodJson) (set_loading true st))
                (h ++ [EvFetch (period_request host snap b) (Responded r); EvReadJson])%list)
    as Hp.
  pose proof (fetch_pages_trace host 50 b (startDate (resolve_range host snap periodJson))
                (endDate (resolve_range host snap periodJson)) 100 1 (JFin 1) []
                (set_periodGroups (page_list periodJson) (set_loading true st))
                (h ++ [EvFetch (period_request host snap b) (Responded r); EvReadJson])%list)
    as Ht.
  cbv zeta in Hp, Ht.
  destruct (fetch_pages host 50 b _ _ 100 1 (JFin 1) [] _ _) as [[c st2] tr].
  unfold state_of, completion_of, trace_of in *. cbn [fst snd] in *.
  destruct c as [all | | e]; cbn [fst snd] in *.
  - rewrite (Hp all eq_refl). reflexivity.
  - exfalso. destruct Ht as (_ & pre & req & r' & -> & _ & Hs).
    revert Hclean. rewrite !clean_cons, clean_app, clean_cons. cbn.
    apply Z.eqb_eq in Hs. rewrite Hs. cbn. rewrite !andb_false_r. discriminate.
  - exfalso. revert Hcons. cbn [existsb is_console orb]. rewrite existsb_app. cbn.
    rewrite orb_true_r. discriminate.
Qed.

Lemma fetchAll_stores_received_witness :
  expenses (state_of (fetchAll (paged_host (single_pages 3 1)) ready_state ready_state []))
  = received (trace_of
      (fetchAll (paged_host (single_pages 3 1)) ready_state ready_state [])).
Proof.
  apply (fetchAll_stores_received (paged_host (single_pages 3 1)) ready_state ready_state []);
    vm_compute; reflexivity.
Defined.

(** ** Saving and deleting *)

Lemma toast_shown_toast (message type : string) (st : State) :
  toast (toast_shown message type st)
  = Some {| toast_type := type; toast_message := message |}.
Proof.
  unfold toast_shown, showToast, bind, read_store, state_of.
  destruct (toastTimeoutRef st); reflexivity.
Qed.

(** A load writes the loading flag, the groups, the list, its range and the
    toast, and nothing of the form, the dialog or the selection. *)
Lemma loaded_frame (host : Host) (snap st st' : State) :
  loaded host snap st st' ->
  selectedPeriod st' = selectedPeriod st
  /\ showExpenseModal st' = showExpenseModal st
  /\ editingExpense st' = editingExpense st
  /\ expenseForm st' = expenseForm st
  /\ formError st' = formError st
  /\ saving st' = saving st
  /\ confirmDialog st' = confirmDialog st.
Proof.
  intros Hl.
  destruct Hl as [| | e | periodJson | periodJson e | periodJson all];
    try (cbn; repeat split; reflexivity).
  - unfold load_failed.
    destruct (toast_shown_fields ("Failed to load money manager data: " ++ error_message e)
                "error" (set_loading true st))
      as (H1 & _ & _ & _ & _ & H6 & H7 & H8 & H9 & H10 & H11).
    cbn in *. auto 10.
  - unfold load_failed.
    destruct (toast_shown_fields ("Failed to load money manager data: " ++ error_message e)
                "error" (set_periodGroups (page_list periodJson) (set_loading true st)))
      as (H1 & _ & _ & _ & _ & H6 & H7 & H8 & H9 & H10 & H11).
    cbn in *. auto 10.
Qed.

Lemma fetchAll_frame (host : Host) (snap st : State) (h : list Event) :
  let st' := state_of (fetchAll host snap st h) in
  selectedPeriod st' = selectedPeriod st
  /\ showExpenseModal st' = showExpenseModal st
  /\ editingExpense st' = editingExpense st
  /\ expenseForm st' = expenseForm st
  /\ formError st' = formError st
  /\ saving st' = saving st
  /\ confirmDialog st' = confirmDialog st.
Proof.
  apply loaded_frame with (host := host) (snap := snap), fetchAll_loaded.
Qed.

Lemma fetchAll_one_summary (host : Host) (snap st : State) (h : list Event) (b : string) :
  base_url host = Some b ->
  filter is_period_request (requests (trace_of (fetchAll host snap st h)))
  = [period_request host snap b].
Proof.
  intros Hb.
  destruct (fetchAll_request_list host snap st h b Hb) as (n & range & _ & -> & _).
  cbn [filter is_period_request period_request req_resource]. f_equal.
  induction (seq 1 n) as [| i l IH]; [reflexivity | exact IH].
Qed.

(** X14: once a save or a delete has started, the saving flag is lowered
    when it ends, whatever the network answered: a success, a refusal, a 401
    response or no response at all. *)
Theorem mutations_lower_saving (host : Host) (snap st : State) (h : list Event) :
  base_url host <> None ->
  (forall p, saving (state_of (performSaveExpense host snap p st h)) = false)
  /\ (forall exp, truthy (expense_id exp) = true ->
        saving (state_of (performDeleteExpense host snap exp st h)) = false).
Proof.
  intros Hbase. destruct (base_url host) as [b |] eqn:Hb; [| contradiction]. split.
  - intros p. rewrite (performSaveExpense_run host snap b p st h Hb). cbv zeta.
    destruct (net host h _) as [msg | r]; [reflexivity |].
    destruct (status r =? 401); [reflexivity |].
    destruct (negb (ok r)); reflexivity.
  - intros exp Hid. rewrite (performDeleteExpense_run host snap b exp st h Hid Hb).
    cbv zeta.
    destruct (net host h _) as [msg | r]; [reflexivity |].
    destruct (status r =? 401); [reflexivity |].
    destruct (negb (ok r)); reflexivity.
Qed.

Lemma mutations_lower_saving_witness :
  saving (state_of (performSaveExpense expired_host ready_state sample_update
                      ready_state [])) = false.
Proof.
  apply (mutations_lower_saving expired_host ready_state ready_state []).
  discriminate.
Defined.

Lemma message_or_nonempty (e : JsError) (fallback : string) :
  fallback <> "" -> message_or e fallback <> "".
Proof.
  intros Hf. unfold message_or.
  destruct (String.eqb_spec (error_message e) ""); assumption.
Qed.

Lemma performSaveExpense_refused
    (host : Host) (snap : State) (p : SaveArgs) (st : State) (h : list Event) (b : string) :
  base_url host = Some b ->
  refused (net host h (save_request host b p)) ->
  let res := net host h (save_request host b p) in
  let e := failure_of host "Request" res in
  performSaveExpense host snap p st h
  = (Normal tt, set_saving false (save_failed e (set_saving true st)),
     refused_events (save_request host b p) res (save_failed_log e)).
Proof.
  intros Hb Href. cbv zeta.
  rewrite (performSaveExpense_run host snap b p st h Hb). cbv zeta.
  destruct (net host h _) as [msg | r]; [reflexivity |].
  destruct Href as [H401 Hok]. apply Z.eqb_neq in H401. rewrite H401, Hok. reflexivity.
Qed.

(** X15: a save the server refuses, or that gets no response, is reported
    and changes nothing else: the request is the only one sent (no reload),
    the error is logged, the same non-empty message goes to the form and to
    an error toast, the form stays open with its dialog and its data, and
    the saving flag is lowered.  The message is the [message] of the JSON
    body when that is a non-empty text, and names the status when the body
    carries none. *)
Theorem save_refused_reported
    (host : Host) (snap : State) (p : SaveArgs) (st : State) (h : list Event) (b : string) :
  base_url host = Some b ->
  refused (net host h (save_request host b p)) ->
  let req := save_request host b p in
  let e := failure_of host "Request" (net host h req) in
  let msg := message_or e "Failed to save expense." in
  let res := performSaveExpense host snap p st h in
  completion_of res = Normal tt
  /\ requests (trace_of res) = [req]
  /\ In (EvConsoleError ("Save expense failed: " ++ error_message e)%string) (trace_of res)
  /\ msg <> ""
  /\ formError (state_of res) = msg
  /\ toast (state_of res) = Some {| toast_type := "error"; toast_message := msg |}
  /\ saving (state_of res) = false
  /\ showExpenseModal (state_of res) = showExpenseModal st
  /\ editingExpense (state_of res) = editingExpense st
  /\ expenseForm (state_of res) = expenseForm st
  /\ confirmDialog (state_of res) = confirmDialog st
  /\ expenses (state_of res) = expenses st
  /\ (forall r json m,
        net host h req = Responded r -> body_json r = Some json ->
        get json "message" = VStr m -> m <> "" -> msg = m)
  /\ (forall r,
        net host h req = Responded r ->
        truthy (get (match body_json r with Some v => v | None => VNull end) "message")
        = false ->
        msg = ("Request failed (" ++ string_of_Z (status r) ++ ")")%string).
Proof.
  intros Hb Href req e msg res. subst res.
  rewrite (performSaveExpense_refused host snap p st h b Hb Href). cbv zeta.
  fold req. fold e. unfold completion_of, state_of, trace_of. cbn [fst snd].
  unfold save_failed. fold msg.
  destruct (toast_shown_fields msg "error" (set_formError msg (set_saving true st)))
    as (_ & _ & H3 & _ & _ & H6 & H7 & H8 & H9 & _ & H11).
  split; [reflexivity |].
  split; [destruct (net host h req); reflexivity |].
  split; [destruct (net host h req); cbn; auto |].
  split; [apply message_or_nonempty; discriminate |].
  split; [cbn; exact H9 |].
  split; [cbn; apply toast_shown_toast |].
  split; [reflexivity |].
  split; [cbn; exact H6 |].
  split; [cbn; exact H7 |].
  split; [cbn; exact H8 |].
  split; [cbn; exact H11 |].
  split; [cbn; exact H3 |].
  split.
  - intros r json m Hnet Hjson Hm Hne. subst msg e. rewrite Hnet.
    unfold failure_of, response_error, message_or. rewrite Hjson, Hm.
    unfold js_or. cbn [truthy error_message String_].
    apply String.eqb_neq in Hne. rewrite Hne. cbn [negb]. cbn [String_].
    rewrite Hne. reflexivity.
  - intros r Hnet Hm. subst msg e. rewrite Hnet.
    unfold failure_of, response_error, message_or, js_or. rewrite Hm.
    reflexivity.
Qed.

Lemma save_refused_reported_witness :
  formError (state_of (performSaveExpense refusing_host ready_state sample_update
                         ready_state []))
  = "Amount is too large".
Proof.
  refine (proj1 (proj2 (proj2 (proj2 (proj2
    (save_refused_reported refusing_host ready_state sample_update ready_state []
       "https://api.test" eq_refl _)))))).
  split; [discriminate | reflexivity].
Defined.

(** X16: a save the server accepts clears the dialog, closes the form
    (the handler having been started from a render that was not saving),
    reloads once, lowers the saving flag and ends with the success toast,
    also when the reload failed: the toast of the reload is replaced.  The
    contents of the form are not reset. *)
Theorem save_accepted
    (host : Host) (snap : State) (p : SaveArgs) (st : State) (h : list Event)
    (b : string) (r : Response) :
  base_url host = Some b ->
  net host h (save_request host b p) = Responded r ->
  ok r = true ->
  saving snap = false ->
  let req := save_request host b p in
  let reload :=
    fetchAll host snap
      (set_formError "" (set_editingExpense VNull (set_showExpenseModal false
         (set_confirmDialog None (set_saving true st)))))
      (h ++ [EvFetch req (Responded r)]) in
  let res := performSaveExpense host snap p st h in
  completion_of res = Normal tt
  /\ trace_of res = EvFetch req (Responded r) :: trace_of reload
  /\ filter is_period_request (requests (trace_of res)) = [period_request host snap b]
  /\ confirmDialog (state_of res) = None
  /\ showExpenseModal (state_of res) = false
  /\ editingExpense (state_of res) = VNull
  /\ formError (state_of res) = ""
  /\ saving (state_of res) = false
  /\ expenseForm (state_of res) = expenseForm st
  /\ toast (state_of res)
     = Some {| toast_type := "success";
               toast_message := if isEdit p then "Expense updated successfully."
                                else "Expense created successfully." |}.
Proof.
  intros Hb Hnet Hok Hsnap req reload res. subst res.
  set (msg := if isEdit p then _ else _).
  assert (Hrun : performSaveExpense host snap p st h
                 = (Normal tt,
                    set_saving false (toast_shown msg "success" (state_of reload)),
                    EvFetch req (Responded r) :: trace_of reload)).
  { rewrite (performSaveExpense_run host snap b p st h Hb). cbv zeta.
    rewrite Hnet, (ok_not_unauthorized r Hok), Hok. cbn [negb].
    unfold modal_closed. rewrite Hsnap. reflexivity. }
  rewrite Hrun, run_completion, run_state, run_trace.
  destruct (toast_shown_fields msg "success" (state_of reload))
    as (_ & _ & _ & _ & _ & H6 & H7 & H8 & H9 & _ & H11).
  destruct (fetchAll_frame host snap
              (set_formError "" (set_editingExpense VNull (set_showExpenseModal false
                 (set_confirmDialog None (set_saving true st)))))
              (h ++ [EvFetch req (Responded r)]))
    as (_ & F2 & F3 & F4 & F5 & _ & F7).
  fold reload in F2, F3, F4, F5, F7.
  split; [reflexivity |]. split; [reflexivity |].
  split.
  { cbn [requests filter]. unfold reload.
    rewrite (fetchAll_one_summary host snap _ _ b Hb).
    unfold req, save_request, is_period_request. cbn [req_resource].
    destruct (isEdit p); reflexivity. }
  split; [cbn; rewrite H11; exact F7 |].
  split; [cbn; rewrite H6; exact F2 |].
  split; [cbn; rewrite H7; exact F3 |].
  split; [cbn; rewrite H9; exact F5 |].
  split; [reflexivity |].
  split; [cbn; rewrite H8; exact F4 |].
  cbn. apply toast_shown_toast.
Qed.

Lemma save_accepted_witness :
  toast (state_of (performSaveExpense (paged_host []) create_state
                     (form_payload create_state "Office rent" "") create_state []))
  = Some {| toast_type := "success"; toast_message := "Expense created successfully." |}.
Proof.
  refine (proj2 (proj2 (proj2 (proj2 (proj2 (proj2 (proj2 (proj2 (proj2
    (save_accepted (paged_host []) create_state
       (form_payload create_state "Office rent" "") create_state []
       "https://api.test" (status_response 204) eq_refl eq_refl eq_refl eq_refl)))))))))).
Defined.

(** X17: a delete the server refuses, or that gets no response, is reported
    in an error toast and in the log, and changes nothing else: no reload is
    made, the list is kept, the confirmation dialog stays open, and the
    saving flag is lowered. *)
Theorem delete_refused_reported
    (host : Host) (snap : State) (exp : JsValue) (st : State) (h : list Event)
    (b : string) :
  base_url host = Some b ->
  truthy (expense_id exp) = true ->
  refused (net host h (delete_request host b (expense_id exp))) ->
  let req := delete_request host b (expense_id exp) in
  let e := failure_of host "Delete" (net host h req) in
  let res := performDeleteExpense host snap exp st h in
  completion_of res = Normal tt
  /\ requests (trace_of res) = [req]
  /\ In (EvConsoleError ("Delete expense failed: " ++ error_message e)%string)
       (trace_of res)
  /\ toast (state_of res)
     = Some {| toast_type := "error";
               toast_message := ("Failed to delete expense: " ++ error_message e)%string |}
  /\ saving (state_of res) = false
  /\ confirmDialog (state_of res) = confirmDialog st
  /\ expenses (state_of res) = expenses st
  /\ periodGroups (state_of res) = periodGroups st
  /\ loading (state_of res) = loading st.
Proof.
  intros Hb Hid Href req e res. subst res.
  assert (Hrun : performDeleteExpense host snap exp st h
                 = (Normal tt, set_saving false (delete_failed e (set_saving true st)),
                    refused_events req (net host h req) (delete_failed_log e))).
  { rewrite (performDeleteExpense_run host snap b exp st h Hid Hb). cbv zeta.
    subst e. fold req in Href |- *.
    destruct (net host h req) as [msg | r]; [reflexivity |].
    destruct Href as [H401 Hok]. apply Z.eqb_neq in H401. rewrite H401, Hok. reflexivity. }
  rewrite Hrun, run_completion, run_state, run_trace.
  unfold delete_failed.
  destruct (toast_shown_fields ("Failed to delete expense: " ++ error_message e)%string
              "error" (set_saving true st))
    as (_ & H2 & H3 & _ & H5 & _ & _ & _ & _ & _ & H11).
  split; [reflexivity |].
  split; [destruct (net host h req); reflexivity |].
  split; [destruct (net host h req); cbn; auto |].
  split; [cbn; apply toast_shown_toast |].
  split; [reflexivity |].
  split; [cbn; exact H11 |].
  split; [cbn; exact H3 |].
  split; [cbn; exact H5 |].
  cbn; exact H2.
Qed.

Lemma delete_refused_reported_witness :
  toast (state_of (performDeleteExpense refusing_host delete_staged_state (record 7)
                     delete_staged_state []))
  = Some {| toast_type := "error";
            toast_message := "Failed to delete expense: Amount is too large" |}.
Proof.
  refine (proj1 (proj2 (proj2 (proj2
    (delete_refused_reported refusing_host delete_staged_state (record 7)
       delete_staged_state [] "https://api.test" eq_refl eq_refl _))))).
  split; [discriminate | reflexivity].
Defined.

(** ** The events of the page *)

Lemma performDeleteExpense_normal
    (host : Host) (snap : State) (exp : JsValue) (st : State) (h : list Event) :
  completion_of (performDeleteExpense host snap exp st h) = Normal tt.
Proof.
  destruct (truthy (expense_id exp)) eqn:Hid.
  2:{ rewrite (performDeleteExpense_no_id host snap exp st h Hid). reflexivity. }
  destruct (base_url host) as [b |] eqn:Hb.
  2:{ rewrite (performDeleteExpense_no_base host snap exp st h Hid Hb). reflexivity. }
  rewrite (performDeleteExpense_run host snap b exp st h Hid Hb). cbv zeta.
  destruct (net host h _) as [msg | r]; [reflexivity |].
  destruct (status r =? 401); [reflexivity |].
  destruct (negb (ok r)); reflexivity.
Qed.



Lemma period_request_api (host : Host) (snap : State) (b : string) :
  base_url host = Some b -> api_request host (period_request host snap b).
Proof. intros Hb. repeat split. exact Hb. Qed.

Lemma expenses_request_api (host : Host) (b : string) (s e page limit : Z) :
  base_url host = Some b -> api_request host (expenses_request host b s e page limit).
Proof. intros Hb. repeat split. exact Hb. Qed.

Lemma save_request_api (host : Host) (b : string) (p : SaveArgs) :
  base_url host = Some b -> api_request host (save_request host b p).
Proof.
  intros Hb. unfold api_request, save_request. cbn.
  destruct (isEdit p); repeat split; exact Hb.
Qed.

Lemma delete_request_api (host : Host) (b : string) (id : JsValue) :
  base_url host = Some b -> api_request host (delete_request host b id).
Proof. intros Hb. repeat split. exact Hb. Qed.

Lemma fetchAll_api (host : Host) (snap st : State) (h : list Event) :
  Forall (api_request host) (requests (trace_of (fetchAll host snap st h))).
Proof.
  destruct (base_url host) as [b |] eqn:Hb.
  2:{ rewrite (fetchAll_requests_none host snap st h Hb). constructor. }
  destruct (fetchAll_request_list host snap st h b Hb) as (n & range & _ & -> & _).
  constructor; [apply period_request_api, Hb |].
  apply Forall_map, Forall_forall. intros i _. apply expenses_request_api, Hb.
Qed.

Lemma performSaveExpense_api
    (host : Host) (snap : State) (p : SaveArgs) (st : State) (h : list Event) :
  Forall (api_request host) (requests (trace_of (performSaveExpense host snap p st h))).
Proof.
  destruct (base_url host) as [b |] eqn:Hb.
  2:{ rewrite (performSaveExpense_no_base host snap p st h Hb). constructor. }
  pose proof (save_request_api host b p Hb) as Hq.
  rewrite (performSaveExpense_run host snap b p st h Hb). cbv zeta.
  destruct (net host h _) as [msg | r]; [cbn; auto |].
  destruct (status r =? 401); [cbn; auto |].
  destruct (negb (ok r)); [cbn; auto |].
  rewrite run_trace. cbn [requests]. constructor; [exact Hq | apply fetchAll_api].
Qed.

Lemma performDeleteExpense_api
    (host : Host) (snap : State) (exp : JsValue) (st : State) (h : list Event) :
  Forall (api_request host) (requests (trace_of (performDeleteExpense host snap exp st h))).
Proof.
  destruct (truthy (expense_id exp)) eqn:Hid.
  2:{ rewrite (performDeleteExpense_no_id host snap exp st h Hid). constructor. }
  destruct (base_url host) as [b |] eqn:Hb.
  2:{ rewrite (performDeleteExpense_no_base host snap exp st h Hid Hb). constructor. }
  pose proof (delete_request_api host b (expense_id exp) Hb) as Hq.
  rewrite (performDeleteExpense_run host snap b exp st h Hid Hb). cbv zeta.
  destruct (net host h _) as [msg | r]; [cbn; auto |].
  destruct (status r =? 401); [cbn; auto |].
  destruct (negb (ok r)); [cbn; auto |].
  rewrite run_trace. cbn [requests]. constructor; [exact Hq | apply fetchAll_api].
Qed.

Lemma handleSaveExpense_api (host : Host) (snap st : State) (h : list Event) :
  Forall (api_request host) (requests (trace_of (handleSaveExpense host snap st h))).
Proof.
  rewrite handleSaveExpense_run. cbv zeta.
  destruct (field_text _) as [t |]; [| constructor].
  destruct (field_text _) as [d |]; [| constructor].
  repeat (match goal with
          | |- context [if ?c then _ else _] => destruct c
          end; [constructor |]).
  apply performSaveExpense_api.
Qed.

(** X19: every request any event of the page sends goes to the configured
    base URL and carries the stored authorisation; it bypasses the cache
    exactly when it is a GET and declares JSON exactly when it has a body. *)
Theorem dispatch_requests_api
    (host : Host) (a : Action) (s : State) (h : list Event) (q : Request) :
  In q (requests (trace_of (dispatch host a s h))) -> api_request host q.
Proof.
  revert q. apply Forall_forall.
  destruct a; unfold dispatch.
  - apply fetchAll_api.
  - unfold bind, setSelectedPeriod, modify.
    destruct (negb _); cbn [when app]; [| constructor].
    rewrite fetchAll_eta, run_trace. apply fetchAll_api.
  - constructor.
  - constructor.
  - destruct (table_rendered s); constructor.
  - destruct (table_rendered s); cbn [when]; [| constructor].
    rewrite handleDeleteExpense_run. destruct (truthy exp); constructor.
  - destruct (showExpenseModal s); constructor.
  - destruct (showExpenseModal s); constructor.
  - destruct (showExpenseModal s); constructor.
  - destruct (showExpenseModal s); constructor.
  - destruct (_ && _); cbn [when]; [| constructor].
    rewrite closeModal_eq. constructor.
  - destruct (_ && _); cbn [when]; [| constructor].
    apply handleSaveExpense_api.
  - destruct (confirmDialog s); [| constructor].
    destruct (negb (saving s)); constructor.
  - destruct (confirmDialog s) as [d |]; [| constructor].
    destruct (negb (saving s)); cbn [when]; [| constructor].
    unfold confirm_onClick. destruct (dialog_action d).
    + apply performSaveExpense_api.
    + apply performDeleteExpense_api.
  - destruct (existsb _ _); constructor.
Qed.

Lemma dispatch_requests_api_witness :
  api_request expired_host (period_request expired_host ready_state "https://api.test").
Proof.
  apply (dispatch_requests_api expired_host Mount ready_state []).
  vm_compute. left. reflexivity.
Defined.

Lemma set_confirmDialog_back (s : State) (d : ConfirmDialog) :
  confirmDialog s = None -> set_confirmDialog None (set_confirmDialog (Some d) s) = s.
Proof.
  destruct s. cbn. intros ->. reflexivity.
Qed.

Lemma set_selectedPeriod_same (s : State) : set_selectedPeriod (selectedPeriod s) s = s.
Proof. destruct s. reflexivity. Qed.

Lemma ClickDelete_run (host : Host) (s : State) (exp : JsValue) (h : list Event) :
  table_rendered s = true ->
  dispatch host (ClickDelete exp) s h
  = if truthy exp
    then (Normal tt, set_confirmDialog (Some (delete_dialog host exp)) s, [])
    else (Normal tt, s, []).
Proof.
  intros Ht. unfold dispatch. rewrite Ht. apply handleDeleteExpense_run.
Qed.

(** X20: asking to delete a record and cancelling in the dialog brings the
    page back to the state it was in, and nothing has been sent or shown in
    between. *)
Theorem delete_staged_then_cancelled
    (host : Host) (s : State) (exp : JsValue) (h h' : list Event) :
  table_rendered s = true ->
  saving s = false ->
  confirmDialog s = None ->
  let staged := dispatch host (ClickDelete exp) s h in
  trace_of staged = []
  /\ (truthy exp = true -> confirmDialog (state_of staged) = Some (delete_dialog host exp))
  /\ dispatch host ClickCancelConfirm (state_of staged) h' = (Normal tt, s, []).
Proof.
  intros Ht Hs Hd staged. subst staged.
  rewrite (ClickDelete_run host s exp h Ht).
  destruct (truthy exp); rewrite run_trace, run_state.
  - split; [reflexivity |]. split; [reflexivity |].
    unfold dispatch. cbn [confirmDialog set_confirmDialog saving]. rewrite Hs.
    cbn [negb when]. unfold cancel_onClick, setConfirmDialog, modify.
    now rewrite set_confirmDialog_back.
  - split; [reflexivity |]. split; [discriminate |].
    unfold dispatch. rewrite Hd. reflexivity.
Qed.

Lemma delete_staged_then_cancelled_witness :
  dispatch offline_host ClickCancelConfirm
    (state_of (dispatch offline_host (ClickDelete (record 7)) ready_state [])) []
  = (Normal tt, ready_state, []).
Proof.
  refine (proj2 (proj2 (delete_staged_then_cancelled offline_host ready_state (record 7)
                          [] [] eq_refl eq_refl eq_refl))).
Defined.

(** X21: a record without identifier can be sent to the confirmation
    dialog, but confirming then does nothing at all: no request, no toast,
    and the dialog stays open until it is cancelled. *)
Theorem delete_without_id_stuck
    (host : Host) (s : State) (exp : JsValue) (h h' : list Event) :
  table_rendered s = true ->
  saving s = false ->
  truthy exp = true ->
  truthy (expense_id exp) = false ->
  let staged := state_of (dispatch host (ClickDelete exp) s h) in
  confirmDialog staged = Some (delete_dialog host exp)
  /\ dispatch host ClickConfirm staged h' = (Normal tt, staged, []).
Proof.
  intros Ht Hs He Hid staged. subst staged.
  rewrite (ClickDelete_run host s exp h Ht), He, run_state.
  split; [reflexivity |].
  unfold dispatch. cbn [confirmDialog set_confirmDialog saving]. rewrite Hs.
  cbn [negb when]. unfold confirm_onClick. cbn [dialog_action delete_dialog].
  apply performDeleteExpense_no_id, Hid.
Qed.

Lemma delete_without_id_stuck_witness :
  confirmDialog
    (state_of (dispatch offline_host ClickConfirm
       (state_of (dispatch offline_host (ClickDelete (VObj [("title", VStr "Rent")]))
                    ready_state [])) []))
  = Some (delete_dialog offline_host (VObj [("title", VStr "Rent")])).
Proof.
  destruct (delete_without_id_stuck offline_host ready_state (VObj [("title", VStr "Rent")])
              [] [] eq_refl eq_refl eq_refl eq_refl) as [Hd ->].
  exact Hd.
Defined.

(** X22: with an API configured, pressing the button of the period already
    selected sends nothing and changes nothing; pressing another one stores
    the selection and starts a load whose first request asks for the summary
    of that period, under the name [6months] for the six-month button. *)
Theorem select_period_reloads
    (host : Host) (s : State) (p : string) (h : list Event) (b : string) :
  In p ["monthly"; "sixMonths"; "yearly"] ->
  In (selectedPeriod s) ["monthly"; "sixMonths"; "yearly"] ->
  base_url host = Some b ->
  let res := dispatch host (SelectPeriod p) s h in
  (p = selectedPeriod s -> res = (Normal tt, s, []))
  /\ (p <> selectedPeriod s ->
      selectedPeriod (state_of res) = p
      /\ exists q rest,
           requests (trace_of res) = q :: rest
           /\ req_base q = b
           /\ req_method q = GET
           /\ req_resource q
              = PeriodSummary (if String.eqb p "sixMonths" then "6months" else p)).
Proof.
  intros Hp Hs Hb res. subst res. unfold dispatch.
  unfold bind, setSelectedPeriod, modify. split.
  - intros ->. rewrite set_selectedPeriod_same, String.eqb_refl. reflexivity.
  - intros Hne.
    assert (Hdiff : String.eqb (apiPeriod (set_selectedPeriod p s)) (apiPeriod s) = false).
    { unfold apiPeriod. cbn [selectedPeriod set_selectedPeriod].
      cbn in Hp, Hs.
      destruct Hp as [<- | [<- | [<- | []]]];
        destruct Hs as [Hs | [Hs | [Hs | []]]]; rewrite <- Hs in *;
        (reflexivity || contradiction). }
    rewrite Hdiff. cbn [negb when app].
    rewrite fetchAll_eta, run_state, run_trace.
    destruct (fetchAll_frame host (set_selectedPeriod p s) (set_selectedPeriod p s)
                (h ++ [])) as (F1 & _).
    split; [exact F1 |].
    destruct (fetchAll_request_list host (set_selectedPeriod p s) (set_selectedPeriod p s)
                (h ++ []) b Hb) as (n & range & _ & Hreq & _).
    cbn [app]. rewrite Hreq. eexists _, _. split; [reflexivity |].
    repeat split.
Qed.

Lemma select_period_reloads_witness :
  dispatch expired_host (SelectPeriod "monthly") ready_state [] = (Normal tt, ready_state, []).
Proof.
  refine (proj1 (select_period_reloads expired_host ready_state "monthly" []
                   "https://api.test" _ _ eq_refl) eq_refl).
  - cbn. auto.
  - cbn. auto.
Defined.

(** X23: while a record with an identifier is being edited, submitting the
    form never sends anything: it ends with a message in the form, raises
    the TypeError of an unreadable field, or stages an update for the
    identifier of that record. *)
Theorem edit_submit_sends_nothing (host : Host) (s : State) (h : list Event) :
  truthy (expense_id (editingExpense s)) = true ->
  let res := dispatch host SubmitForm s h in
  trace_of res = []
  /\ (confirmDialog (state_of res) = confirmDialog s
      \/ exists p,
           confirmDialog (state_of res) = Some (update_dialog host p)
           /\ isEdit p = true
           /\ id p = expense_id (editingExpense s)
           /\ formError (state_of res) = "").
Proof.
  intros Hid res. subst res. unfold dispatch.
  destruct (_ && _); cbn [when]; [| split; [reflexivity | left; reflexivity]].
  rewrite handleSaveExpense_run. cbv zeta.
  destruct (field_text (form_title (expenseForm s))) as [t |];
    [| split; [reflexivity | left; reflexivity]].
  destruct (field_text (form_description (expenseForm s))) as [d |];
    [| split; [reflexivity | left; reflexivity]].
  repeat (match goal with
          | |- context [if String.eqb ?a ?b then _ else _] => destruct (String.eqb a b)
          | |- context [if negb ?a || ?b then _ else _] => destruct (negb a || b)
          end; [split; [reflexivity | left; reflexivity] |]).
  change (isEdit (form_payload s t d)) with (truthy (expense_id (editingExpense s))).
  rewrite Hid. split; [reflexivity |]. right.
  exists (form_payload s t d). rewrite run_state. cbn. auto.
Qed.

Lemma edit_submit_sends_nothing_witness :
  trace_of (dispatch expired_host SubmitForm
              (set_editingExpense (record 7) create_state) []) = [].
Proof.
  apply (edit_submit_sends_nothing expired_host (set_editingExpense (record 7) create_state) []).
  reflexivity.
Defined.
